(** * generate_html.py: report extraction and page generation

    A shallow embedding of [src/generate_html.py] and the properties of it
    that are proved.

    - Python [str] values are sequences of Unicode code points ([text]);
      files are sequences of bytes, decoded as [read_text] does.
    - [extract_test_info] is a function from the text of a report to a
      record or an exception ([result]).  Its regular expressions are
      values of [Re.regex], run by a backtracking matcher that tries
      alternatives in the order of Python's [re].
    - [generate_index_html], [generate_test_html] and [main] read the clock
      and write files: they are computations in the monad [M], which
      threads the [world].  How the input directory is listed and
      sorted is not modelled: [main] takes the sorted list of files, and
      the files can be opened, read and written.  [main] leaves out what
      the script prints; [Console.main] is [main] with its prints.
    - The library functions the script calls but does not define (the
      Unicode tables behind [\w] and [\d], [float] and float arithmetic
      and formatting, [repr], [json.loads], [markdown.markdown]) are the
      fields of the class [Runtime].  The theorems are proved for every
      [Runtime]; the instance [Sample.runtime] serves to evaluate the
      definitions on concrete inputs. *)

From Stdlib Require Import Strings.String Strings.Ascii Strings.Byte.
From Stdlib Require Import Init.Decimal.
From Stdlib Require Import NArith ZArith Lia Bool List Sorted.
Import ListNotations.
Local Open Scope list_scope.

Set Implicit Arguments.

(** ** Text *)

Definition codepoint := N.
Definition text := list codepoint.

Definition LF : codepoint := 10%N.
Definition CR : codepoint := 13%N.
Definition DOT : codepoint := 46%N.
Definition UNDERSCORE : codepoint := 95%N.
Definition BACKSLASH : codepoint := 92%N.

Definition text_eqb (a b : text) : bool :=
  if list_eq_dec N.eq_dec a b then true else false.

(** ** Decoding of files: the [utf-8] codec, strict *)

Module Utf8.

Definition between (lo hi b : N) : bool := ((lo <=? b) && (b <=? hi))%N.
Definition cont (b : N) : bool := between 0x80 0xBF b.
Definition low6 (b : N) : N := N.land b 0x3F.

Definition cp2 (b0 b1 : N) : N :=
  N.lor (N.shiftl (N.land b0 0x1F) 6) (low6 b1).
Definition cp3 (b0 b1 b2 : N) : N :=
  N.lor (N.shiftl (N.land b0 0x0F) 12) (N.lor (N.shiftl (low6 b1) 6) (low6 b2)).
Definition cp4 (b0 b1 b2 b3 : N) : N :=
  N.lor (N.shiftl (N.land b0 0x07) 18)
    (N.lor (N.shiftl (low6 b1) 12) (N.lor (N.shiftl (low6 b2) 6) (low6 b3))).

(** Range of the second byte allowed after the lead byte [b0] of a
    three- or four-byte sequence (no overlong forms, no surrogates,
    nothing above U+10FFFF). *)
Definition second3 (b0 b1 : N) : bool :=
  if (b0 =? 0xE0)%N then between 0xA0 0xBF b1
  else if (b0 =? 0xED)%N then between 0x80 0x9F b1
  else cont b1.
Definition second4 (b0 b1 : N) : bool :=
  if (b0 =? 0xF0)%N then between 0x90 0xBF b1
  else if (b0 =? 0xF4)%N then between 0x80 0x8F b1
  else cont b1.

(** [None] stands for [UnicodeDecodeError]. *)
Fixpoint decode (bs : list N) : option text :=
  match bs with
  | [] => Some []
  | b0 :: r0 =>
    if (b0 <? 0x80)%N then option_map (cons b0) (decode r0)
    else if between 0xC2 0xDF b0 then
      match r0 with
      | b1 :: r1 =>
        if cont b1 then option_map (cons (cp2 b0 b1)) (decode r1) else None
      | _ => None
      end
    else if between 0xE0 0xEF b0 then
      match r0 with
      | b1 :: b2 :: r2 =>
        if second3 b0 b1 && cont b2
        then option_map (cons (cp3 b0 b1 b2)) (decode r2) else None
      | _ => None
      end
    else if between 0xF0 0xF4 b0 then
      match r0 with
      | b1 :: b2 :: b3 :: r3 =>
        if second4 b0 b1 && cont b2 && cont b3
        then option_map (cons (cp4 b0 b1 b2 b3)) (decode r3) else None
      | _ => None
      end
    else None
  end.

Definition decode_bytes (bs : list byte) : option text :=
  decode (map Byte.to_N bs).

End Utf8.

(** String constants of the script.  The argument is the body of a Python
    string literal: UTF-8 text in which [\n], [\\] and [\xHH] are escapes
    (a double quote is written [\x22]). *)

Definition hex_digit (c : codepoint) : option N :=
  if Utf8.between 48 57 c then Some (c - 48)%N
  else if Utf8.between 97 102 c then Some (c - 87)%N
  else if Utf8.between 65 70 c then Some (c - 55)%N
  else None.

Fixpoint unescape (s : text) : text :=
  match s with
  | [] => []
  | c :: r =>
    if (c =? BACKSLASH)%N then
      match r with
      | e :: r1 =>
        if (e =? 110)%N then LF :: unescape r1
        else if (e =? BACKSLASH)%N then BACKSLASH :: unescape r1
        else if (e =? 120)%N then
          match r1 with
          | h :: l :: r3 =>
            match hex_digit h, hex_digit l with
            | Some x, Some y => (16 * x + y)%N :: unescape r3
            | _, _ => c :: unescape r
            end
          | _ => c :: unescape r
          end
        else c :: unescape r
      | [] => [c]
      end
    else c :: unescape r
  end.

Definition lit (s : String.string) : text :=
  match Utf8.decode_bytes (String.list_byte_of_string s) with
  | Some t => unescape t
  | None => []
  end.
Arguments lit s%_string.

(** ** Exceptions *)

Inductive exn :=
| ValueError | TypeError | KeyError | AttributeError
| UnicodeDecodeError | UnicodeEncodeError.

Inductive result (A : Type) :=
| Ok (a : A)
| Raise (e : exn).
Arguments Ok {A} a.
Arguments Raise {A} e.

Definition rbind {A B} (m : result A) (f : A -> result B) : result B :=
  match m with
  | Ok a => f a
  | Raise e => Raise e
  end.

(** ** Reading a report: [Path.read_text(encoding='utf-8')]

    Text mode decodes the bytes and then applies universal newlines:
    [\r\n] and a lone [\r] both become [\n]. *)

Fixpoint universal_newlines (s : text) : text :=
  match s with
  | [] => []
  | c :: r =>
    if (c =? CR)%N then
      LF :: match r with
            | d :: r' => if (d =? LF)%N then universal_newlines r'
                         else universal_newlines r
            | [] => []
            end
    else c :: universal_newlines r
  end.

Definition read_text (bs : list byte) : result text :=
  match Utf8.decode_bytes bs with
  | Some t => Ok (universal_newlines t)
  | None => Raise UnicodeDecodeError
  end.

(** ** Status of a report, from [main]

    [test_info['status'] = 'PASS' if len(md_content) > 10000 else 'FAIL'] *)

(** [len(x)] *)
Definition len {A} (x : list A) : Z := Z.of_nat (length x).

Definition status_of (md_content : text) : text :=
  if (10000 <? len md_content)%Z then lit "PASS" else lit "FAIL".

(** ** The [re] module, for the constructs the script's patterns use

    A backtracking matcher in continuation-passing style: alternatives are
    tried in the order the [re] engine tries them, and the first one whose
    continuation succeeds wins.  Repetition applies to character sets only,
    which is all the patterns of the script need. *)

Module Re.

Definition charset := codepoint -> bool.

Inductive regex :=
| Lit (s : text)                              (* literal text *)
| Rep (greedy : bool) (min : nat) (p : charset)  (* p*, p+, p*?, p+? *)
| Seq (a b : regex)
| Alt (a b : regex)                           (* a|b *)
| Group (n : nat) (r : regex)                 (* n-th capturing group *)
| Ahead (r : regex)                           (* (?=r) *)
| Eos.                                        (* $ without MULTILINE *)

Definition groups := list (nat * text).

Fixpoint strip_prefix (l s : text) : option text :=
  match l, s with
  | [], _ => Some s
  | c :: l', x :: s' => if (x =? c)%N then strip_prefix l' s' else None
  | _ :: _, [] => None
  end.

Section Rep.
Variable A : Type.
Variable p : charset.
Variable k : text -> option A.

(** [p]{min,} greedy: take as many as possible, give back one at a
    time. *)
Fixpoint rep_greedy (min : nat) (s : text) : option A :=
  let stop := match min with O => k s | S _ => None end in
  match s with
  | x :: s' =>
    if p x then
      match rep_greedy (pred min) s' with
      | Some a => Some a
      | None => stop
      end
    else stop
  | [] => stop
  end.

(** [p]{min,}? lazy: take as few as possible, add one at a time. *)
Fixpoint rep_lazy (min : nat) (s : text) : option A :=
  let more :=
    match s with
    | x :: s' => if p x then rep_lazy (pred min) s' else None
    | [] => None
    end in
  match min with
  | O => match k s with Some a => Some a | None => more end
  | S _ => more
  end.
End Rep.

(** [$]: at the end of the text, or just before a newline that ends it. *)
Definition at_eos (s : text) : bool :=
  match s with
  | [] => true
  | [c] => (c =? LF)%N
  | _ => false
  end.

Fixpoint exec (r : regex) (A : Type) (s : text) (g : groups)
         (k : text -> groups -> option A) {struct r} : option A :=
  match r with
  | Lit l =>
    match strip_prefix l s with
    | Some s' => k s' g
    | None => None
    end
  | Rep true min p => rep_greedy p (fun s' => k s' g) min s
  | Rep false min p => rep_lazy p (fun s' => k s' g) min s
  | Seq a b => exec a s g (fun s' g' => exec b s' g' k)
  | Alt a b =>
    match exec a s g k with
    | Some x => Some x
    | None => exec b s g k
    end
  | Group n r =>
    exec r s g
      (fun s' g' => k s' ((n, firstn (length s - length s') s) :: g'))
  | Ahead r =>
    match exec r s g (fun _ g' => Some g') with
    | Some g' => k s g'
    | None => None
    end
  | Eos => if at_eos s then k s g else None
  end.

(** What a match is, without the order in which the engine looks for it:
    [matches r s g s' g'] when [r] can match a prefix of [s], leaving [s']
    and turning the groups [g] into [g']. *)
Fixpoint matches (r : regex) (s : text) (g : groups) (s' : text)
         (g' : groups) {struct r} : Prop :=
  match r with
  | Lit l => s = l ++ s' /\ g' = g
  | Rep _ min p =>
    exists pre, s = pre ++ s' /\ forallb p pre = true
                /\ (min <= length pre)%nat /\ g' = g
  | Seq a b => exists s1 g1, matches a s g s1 g1 /\ matches b s1 g1 s' g'
  | Alt a b => matches a s g s' g' \/ matches b s g s' g'
  | Group n r =>
    exists g1, matches r s g s' g1
               /\ g' = (n, firstn (length s - length s') s) :: g1
  | Ahead r => s' = s /\ exists s1, matches r s g s1 g'
  | Eos => at_eos s = true /\ s' = s /\ g' = g
  end.

(** A match object: its span in the searched text and its groups. *)
Record match_obj := { m_start : nat; m_end : nat; m_groups : groups }.

Fixpoint lookup (n : nat) (g : groups) : option text :=
  match g with
  | [] => None
  | (i, t) :: g' => if Nat.eqb i n then Some t else lookup n g'
  end.

(** [m.group(n)]; every group of the script's patterns takes part in
    every match, so the default is never used. *)
Definition group (n : nat) (m : match_obj) : text :=
  match lookup n (m_groups m) with
  | Some t => t
  | None => []
  end.

(** Match at the start of [s]: the rest of the text and the groups. *)
Definition match_here (r : regex) (s : text) : option (text * groups) :=
  exec r s [] (fun s' g => Some (s', g)).

Definition mk (pos : nat) (s s' : text) (g : groups) : match_obj :=
  {| m_start := pos; m_end := pos + (length s - length s'); m_groups := g |}.

(** [re.search]: the match at the leftmost position that has one. *)
Fixpoint search_from (r : regex) (pos : nat) (s : text) : option match_obj :=
  match match_here r s with
  | Some (s', g) => Some (mk pos s s' g)
  | None =>
    match s with
    | [] => None
    | _ :: t => search_from r (S pos) t
    end
  end.

Definition search (r : regex) (s : text) : option match_obj :=
  search_from r 0 s.

(** [re.finditer]: successive matches, each search resuming where the
    previous match ended.  [skip] counts the characters of the previous
    match still to pass over; after an empty match the scan moves on by
    one character. *)
Fixpoint finditer_from (r : regex) (pos skip : nat) (s : text)
  : list match_obj :=
  match skip with
  | S n =>
    match s with
    | [] => []
    | _ :: t => finditer_from r (S pos) n t
    end
  | O =>
    match match_here r s with
    | Some (s', g) =>
      mk pos s s' g ::
      match s with
      | [] => []
      | _ :: t => finditer_from r (S pos) (pred (length s - length s')) t
      end
    | None =>
      match s with
      | [] => []
      | _ :: t => finditer_from r (S pos) 0 t
      end
    end
  end.

Definition finditer (r : regex) (s : text) : list match_obj :=
  finditer_from r 0 0 s.

(** The pattern has a match that starts at position [i] of [s]. *)
Definition occurs_at (r : regex) (s : text) (i : nat) : bool :=
  match match_here r (skipn i s) with
  | Some _ => true
  | None => false
  end.

(** Every position of [s] at which the pattern has a match. *)
Definition occurrences (r : regex) (s : text) : list nat :=
  filter (occurs_at r s) (seq 0 (S (length s))).

End Re.

(** ** Values decoded from JSON, as Python objects *)

#[local] Unset Elimination Schemes.
Inductive json (F : Type) :=
| JNull
| JBool (b : bool)
| JInt (z : Z)
| JFloat (f : F)
| JStr (s : text)
| JArr (l : list (json F))
| JObj (kv : list (text * json F)).
#[local] Set Elimination Schemes.
Arguments JNull {F}.
Arguments JBool {F} b.
Arguments JInt {F} z.
Arguments JStr {F} s.

(** ** Library functions the script relies on *)

Class Runtime := {
  (** [str.isalnum] and [str.isdecimal] on one character: the tables behind
      [\w] and [\d]. *)
  isalnum : codepoint -> bool;
  isdecimal : codepoint -> bool;
  (** binary64 floats *)
  float : Type;
  (** [float(s)] for a well-formed literal [s] *)
  float_of_literal : text -> float;
  float_of_int : Z -> float;
  float_add : float -> float -> float;
  float_div : float -> float -> float;
  (** [format(x, '.1f')] *)
  format_1f : float -> text;
  (** [repr] of a decoded JSON value *)
  repr : json float -> text;
  (** [json.loads]; [None] when it raises *)
  json_loads : text -> option (json float);
  (** [markdown.markdown(s, extensions=['tables', 'fenced_code'])];
      [None] when it raises *)
  markdown : text -> option text
}.

(** ** Python helpers *)

(** A [dict] with [str] keys, as the association list of its items. *)
Definition dict (V : Type) := list (text * V).

Fixpoint dict_get {V} (d : dict V) (key : text) : option V :=
  match d with
  | [] => None
  | (k, v) :: d' => if text_eqb k key then Some v else dict_get d' key
  end.

(** [d.get(key, default)] *)
Definition get_default {V} (d : dict V) (key : text) (default : V) : V :=
  match dict_get d key with
  | Some v => v
  | None => default
  end.

(** [str.isspace] on one character; also the set [\s] of [re]. *)
Definition isspace (c : codepoint) : bool :=
  Utf8.between 0x09 0x0D c || Utf8.between 0x1C 0x20 c
  || (c =? 0x85)%N || (c =? 0xA0)%N || (c =? 0x1680)%N
  || Utf8.between 0x2000 0x200A c || (c =? 0x2028)%N || (c =? 0x2029)%N
  || (c =? 0x202F)%N || (c =? 0x205F)%N || (c =? 0x3000)%N.

Fixpoint lstrip (s : text) : text :=
  match s with
  | c :: r => if isspace c then lstrip r else s
  | [] => []
  end.

Definition rstrip (s : text) : text := rev (lstrip (rev s)).

(** [str.strip()] *)
Definition strip (s : text) : text := rstrip (lstrip s).

(** ** The lookup tables of the script *)

Definition TEST_NAMES_HEB : dict text :=
  [ (lit "Chanukah_Light_Miracle", lit "חנוכה - נס האור");
    (lit "Honesty_Truth_Teen", lit "אמת ויושר לנוער");
    (lit "Talmud_Wisdom_Stories", lit "סיפורי חכמה מהתלמוד");
    (lit "Environment_Jewish_View", lit "איכות הסביבה - מבט יהודי");
    (lit "Teamwork_Games", lit "משחקי עבודת צוות");
    (lit "Purim_Hidden_Revealed", lit "פורים - הנסתר והנגלה");
    (lit "Sukkot_Joy_Hospitality", lit "סוכות - שמחה והכנסת אורחים");
    (lit "Kibud_Av_VaEm", lit "כיבוד אב ואם");
    (lit "Jewish_Heroes_Stories", lit "סיפורי גבורה יהודית");
    (lit "Leadership_Challenge", lit "אתגר מנהיגות") ].

Definition ACTIVITY_TYPES_HEB : dict text :=
  [ (lit "religious_holiday", lit "חג דתי");
    (lit "values_education", lit "חינוך ערכי");
    (lit "story_session", lit "מפגש סיפורים");
    (lit "discussion", lit "דיון");
    (lit "game_based", lit "משחקים");
    (lit "combined", lit "משולב") ].

Definition AGE_GROUPS_HEB : dict text :=
  [ (lit "middle", lit "בינוני (10-13)");
    (lit "teen", lit "נוער (14-16)") ].

(** ** Records *)

Module Step.
Record t (F : Type) := { name : text; duration : F; status : text }.
Arguments name {F} _.
Arguments duration {F} _.
Arguments status {F} _.
End Step.

(** The value of [total_duration]: the [int] [0] or a [float]. *)
Inductive number (F : Type) :=
| PyInt (z : Z)
| PyFloat (f : F).
Arguments PyInt {F} z.
Arguments PyFloat {F} f.

(** The [info] dictionary; a key that was never assigned is [None]. *)
Record info (F : Type) := {
  name : option text;
  name_heb : option text;
  model : option text;
  user_request : option text;
  activity_details : option (json F);
  final_output : option text;
  steps : option (list (Step.t F));
  total_duration : option (number F);
  filename : option text;
  status : option text
}.

Section Script.
Context {R : Runtime}.

(** *** Character sets of the patterns *)

(** [\w]: alphanumeric or underscore (a set: the order of the two tests
    is immaterial). *)
Definition word : Re.charset := fun c => (c =? UNDERSCORE)%N || isalnum c.
(** [.] (no DOTALL): anything but a newline. *)
Definition dot : Re.charset := fun c => negb (c =? LF)%N.
(** [.] under [re.DOTALL]. *)
Definition dot_all : Re.charset := fun _ => true.
(** Character set [\s\S] *)
Definition space_or_not : Re.charset := fun c => isspace c || negb (isspace c).
(** Character set [\d.] (in either order) *)
Definition digit_or_dot : Re.charset := fun c => (c =? DOT)%N || isdecimal c.

Local Notation "a >> b" := (Re.Seq a b) (at level 61, right associativity).
Local Abbreviation greedy := true.
Local Abbreviation lazy := false.

(** [r'# E2E Test Report: (\w+)'] *)
Definition title_pattern : Re.regex :=
  Re.Lit (lit "# E2E Test Report: ") >> Re.Group 1 (Re.Rep greedy 1 word).

(** [r'\| model \| (.+?) \|'] *)
Definition config_pattern : Re.regex :=
  Re.Lit (lit "| model | ") >> Re.Group 1 (Re.Rep lazy 1 dot)
  >> Re.Lit (lit " |").

(** [r'\*\*User Request:\*\* (.+)'] *)
Definition request_pattern : Re.regex :=
  Re.Lit (lit "**User Request:** ") >> Re.Group 1 (Re.Rep greedy 1 dot).

(** [r'```json\n({[\s\S]*?})\n```'] *)
Definition json_pattern : Re.regex :=
  Re.Lit (lit "```json\n")
  >> Re.Group 1 (Re.Lit (lit "{") >> Re.Rep lazy 0 space_or_not
                 >> Re.Lit (lit "}"))
  >> Re.Lit (lit "\n```").

(** [r'## Final Output\n\n```markdown\n([\s\S]+?)```'] *)
Definition final_output_pattern : Re.regex :=
  Re.Lit (lit "## Final Output\n\n```markdown\n")
  >> Re.Group 1 (Re.Rep lazy 1 space_or_not)
  >> Re.Lit (lit "```").

(** [r'## Final Output\n\n([\s\S]+?)(?=\n## |$)'] *)
Definition final_output_fallback : Re.regex :=
  Re.Lit (lit "## Final Output\n\n")
  >> Re.Group 1 (Re.Rep lazy 1 space_or_not)
  >> Re.Ahead (Re.Alt (Re.Lit (lit "\n## ")) Re.Eos).

(** [r'STEP: (.+?)\n.*?Duration: ([\d.]+)s.*?Result: (\w+)'], used with
    [re.DOTALL] *)
Definition step_pattern : Re.regex :=
  Re.Lit (lit "STEP: ") >> Re.Group 1 (Re.Rep lazy 1 dot_all)
  >> Re.Lit (lit "\n") >> Re.Rep lazy 0 dot_all
  >> Re.Lit (lit "Duration: ") >> Re.Group 2 (Re.Rep greedy 1 digit_or_dot)
  >> Re.Lit (lit "s") >> Re.Rep lazy 0 dot_all
  >> Re.Lit (lit "Result: ") >> Re.Group 3 (Re.Rep greedy 1 word).

(** *** [float] on the text of group 2

    The text handed to [float] is matched by [[\d.]+], so it holds
    decimal digits and dots only.  [float] accepts such a text when it has
    at most one dot and at least one digit, and raises [ValueError]
    otherwise. *)
Definition is_dot (c : codepoint) : bool := (c =? DOT)%N.

Definition decimal_literal (s : text) : bool :=
  (length (filter is_dot s) <=? 1)%nat
  && (1 <=? length (filter (fun c => negb (is_dot c)) s))%nat
  && forallb isdecimal (filter (fun c => negb (is_dot c)) s).

Definition py_float (s : text) : result float :=
  if decimal_literal s then Ok (float_of_literal s) else Raise ValueError.

(** *** Numbers *)

Definition to_float (x : number float) : float :=
  match x with
  | PyInt z => float_of_int z
  | PyFloat f => f
  end.

(** [x + y] *)
Definition py_add (x y : number float) : number float :=
  match x, y with
  | PyInt a, PyInt b => PyInt (a + b)
  | _, _ => PyFloat (float_add (to_float x) (to_float y))
  end.

(** [sum(xs)]: from the [int] [0], left to right.  How a float addition
    rounds is left to [float_add]; that CPython adds a run of floats with
    a compensated algorithm since 3.12, which can change the last bits of
    the result, is not modelled. *)
Definition py_sum (xs : list (number float)) : number float :=
  fold_left py_add xs (PyInt 0).

(** [x / y], true division *)
Definition py_div (x y : number float) : float :=
  float_div (to_float x) (to_float y).

(** *** [extract_test_info] *)

Definition step_of_match (m : Re.match_obj) : result (Step.t float) :=
  rbind (py_float (Re.group 2 m)) (fun d =>
  Ok {| Step.name := Re.group 1 m;
        Step.duration := d;
        Step.status := Re.group 3 m |}).

(** The loop over [re.finditer]: steps are appended in the order of the
    matches; the first [float] that raises ends the loop. *)
Fixpoint collect_steps (ms : list Re.match_obj)
  : result (list (Step.t float)) :=
  match ms with
  | [] => Ok []
  | m :: ms' =>
    rbind (step_of_match m) (fun st =>
    rbind (collect_steps ms') (fun sts => Ok (st :: sts)))
  end.

Definition extract_final_output (md_content : text) : option text :=
  match Re.search final_output_pattern md_content with
  | Some m => Some (strip (Re.group 1 m))
  | None =>
    match Re.search final_output_fallback md_content with
    | Some m => Some (strip (Re.group 1 m))
    | None => None
    end
  end.

Definition extract_activity_details (md_content : text)
  : option (json float) :=
  match Re.search json_pattern md_content with
  | Some m => json_loads (Re.group 1 m)
  | None => None
  end.

Definition total_of (sts : list (Step.t float)) : number float :=
  match sts with
  | [] => PyInt 0
  | _ :: _ => py_sum (map (fun s => PyFloat (Step.duration s)) sts)
  end.

Definition extract_test_info (md_content : text) : result (info float) :=
  let title_match := Re.search title_pattern md_content in
  let config_match := Re.search config_pattern md_content in
  let request_match := Re.search request_pattern md_content in
  rbind (collect_steps (Re.finditer step_pattern md_content)) (fun sts =>
  Ok {| name := option_map (Re.group 1) title_match;
        name_heb :=
          option_map (fun m => get_default TEST_NAMES_HEB (Re.group 1 m)
                                           (Re.group 1 m)) title_match;
        model := option_map (Re.group 1) config_match;
        user_request := option_map (Re.group 1) request_match;
        activity_details := extract_activity_details md_content;
        final_output := extract_final_output md_content;
        steps := Some sts;
        total_duration := Some (total_of sts);
        filename := None;
        status := None |}).

End Script.

(** ** [str.format]

    The template is read left to right: [{{] and [}}] stand for one brace,
    [{name}] is a replacement field.  Only plain field names occur in the
    script's template. *)

Inductive segment :=
| Literal (s : text)
| Field (name : text).

Definition LBRACE : codepoint := 123%N.
Definition RBRACE : codepoint := 125%N.

Definition add_char (c : codepoint) (segs : list segment) : list segment :=
  match segs with
  | Literal l :: r => Literal (c :: l) :: r
  | _ => Literal [c] :: segs
  end.

Definition rmap {A B} (f : A -> B) (m : result A) : result B :=
  rbind m (fun a => Ok (f a)).

(** [field] holds the characters of the field name read so far, last
    first, while inside braces. *)
Fixpoint parse_format (field : option text) (s : text)
  : result (list segment) :=
  match s with
  | [] =>
    match field with
    | None => Ok []
    | Some _ => Raise ValueError
    end
  | c :: r =>
    match field with
    | Some f =>
      if (c =? RBRACE)%N
      then rmap (cons (Field (rev f))) (parse_format None r)
      else parse_format (Some (c :: f)) r
    | None =>
      if (c =? LBRACE)%N then
        match r with
        | d :: r' =>
          if (d =? LBRACE)%N then rmap (add_char LBRACE) (parse_format None r')
          else parse_format (Some []) r
        | [] => Raise ValueError
        end
      else if (c =? RBRACE)%N then
        match r with
        | d :: r' =>
          if (d =? RBRACE)%N then rmap (add_char RBRACE) (parse_format None r')
          else Raise ValueError
        | [] => Raise ValueError
        end
      else rmap (add_char c) (parse_format None r)
    end
  end.

Fixpoint substitute (kwargs : dict text) (segs : list segment) : result text :=
  match segs with
  | [] => Ok []
  | Literal l :: r => rmap (app l) (substitute kwargs r)
  | Field n :: r =>
    match dict_get kwargs n with
    | Some v => rmap (app v) (substitute kwargs r)
    | None => Raise KeyError
    end
  end.

Definition py_format (template : text) (kwargs : dict text) : result text :=
  rbind (parse_format None template) (substitute kwargs).

Definition HTML_TEMPLATE : text :=
  lit "<!DOCTYPE html>
<html lang=\x22he\x22 dir=\x22rtl\x22>
<head>
    <meta charset=\x22UTF-8\x22>
    <meta name=\x22viewport\x22 content=\x22width=device-width, initial-scale=1.0\x22>
    <title>{title}</title>
    <link href=\x22https://fonts.googleapis.com/css2?family=Heebo:wght@300;400;500;600;700&display=swap\x22 rel=\x22stylesheet\x22>
    <style>
        :root {{
            --primary: #2563eb;
            --primary-dark: #1d4ed8;
            --secondary: #64748b;
            --success: #22c55e;
            --danger: #ef4444;
            --warning: #f59e0b;
            --bg: #f8fafc;
            --card-bg: #ffffff;
            --text: #1e293b;
            --text-muted: #64748b;
            --border: #e2e8f0;
        }}
        
        * {{
            margin: 0;
            padding: 0;
            box-sizing: border-box;
        }}
        
        body {{
            font-family: 'Heebo', sans-serif;
            background: var(--bg);
            color: var(--text);
            line-height: 1.7;
            direction: rtl;
        }}
        
        .container {{
            max-width: 1200px;
            margin: 0 auto;
            padding: 2rem;
        }}
        
        header {{
            background: linear-gradient(135deg, var(--primary) 0%, var(--primary-dark) 100%);
            color: white;
            padding: 3rem 2rem;
            margin-bottom: 2rem;
            border-radius: 0 0 2rem 2rem;
            box-shadow: 0 4px 20px rgba(37, 99, 235, 0.3);
        }}
        
        header h1 {{
            font-size: 2.5rem;
            font-weight: 700;
            margin-bottom: 0.5rem;
        }}
        
        header p {{
            opacity: 0.9;
            font-size: 1.1rem;
        }}
        
        .breadcrumb {{
            margin-bottom: 1.5rem;
        }}
        
        .breadcrumb a {{
            color: var(--primary);
            text-decoration: none;
            font-weight: 500;
        }}
        
        .breadcrumb a:hover {{
            text-decoration: underline;
        }}
        
        .card {{
            background: var(--card-bg);
            border-radius: 1rem;
            padding: 2rem;
            margin-bottom: 1.5rem;
            box-shadow: 0 2px 10px rgba(0,0,0,0.05);
            border: 1px solid var(--border);
        }}
        
        .card h2 {{
            color: var(--primary);
            font-size: 1.5rem;
            margin-bottom: 1rem;
            padding-bottom: 0.5rem;
            border-bottom: 2px solid var(--border);
        }}
        
        .card h3 {{
            color: var(--text);
            font-size: 1.2rem;
            margin: 1.5rem 0 0.75rem;
        }}
        
        .stats-grid {{
            display: grid;
            grid-template-columns: repeat(auto-fit, minmax(200px, 1fr));
            gap: 1rem;
            margin-bottom: 2rem;
        }}
        
        .stat-card {{
            background: var(--card-bg);
            border-radius: 1rem;
            padding: 1.5rem;
            text-align: center;
            border: 1px solid var(--border);
            transition: transform 0.2s, box-shadow 0.2s;
        }}
        
        .stat-card:hover {{
            transform: translateY(-2px);
            box-shadow: 0 4px 15px rgba(0,0,0,0.1);
        }}
        
        .stat-value {{
            font-size: 2rem;
            font-weight: 700;
            color: var(--primary);
        }}
        
        .stat-label {{
            color: var(--text-muted);
            font-size: 0.9rem;
            margin-top: 0.25rem;
        }}
        
        .test-list {{
            display: grid;
            gap: 1rem;
        }}
        
        .test-item {{
            display: flex;
            align-items: center;
            padding: 1.25rem;
            background: var(--card-bg);
            border-radius: 0.75rem;
            border: 1px solid var(--border);
            text-decoration: none;
            color: var(--text);
            transition: all 0.2s;
        }}
        
        .test-item:hover {{
            border-color: var(--primary);
            box-shadow: 0 4px 15px rgba(37, 99, 235, 0.15);
            transform: translateX(-4px);
        }}
        
        .test-status {{
            width: 40px;
            height: 40px;
            border-radius: 50%;
            display: flex;
            align-items: center;
            justify-content: center;
            margin-left: 1rem;
            font-size: 1.25rem;
        }}
        
        .test-status.pass {{
            background: #dcfce7;
            color: var(--success);
        }}
        
        .test-status.fail {{
            background: #fee2e2;
            color: var(--danger);
        }}
        
        .test-info {{
            flex: 1;
        }}
        
        .test-name {{
            font-weight: 600;
            font-size: 1.1rem;
            margin-bottom: 0.25rem;
        }}
        
        .test-meta {{
            color: var(--text-muted);
            font-size: 0.85rem;
        }}
        
        .test-duration {{
            color: var(--secondary);
            font-weight: 500;
        }}
        
        .badge {{
            display: inline-block;
            padding: 0.25rem 0.75rem;
            border-radius: 9999px;
            font-size: 0.8rem;
            font-weight: 500;
            margin-left: 0.5rem;
        }}
        
        .badge-primary {{
            background: #dbeafe;
            color: var(--primary);
        }}
        
        .badge-success {{
            background: #dcfce7;
            color: var(--success);
        }}
        
        .badge-danger {{
            background: #fee2e2;
            color: var(--danger);
        }}
        
        table {{
            width: 100%;
            border-collapse: collapse;
            margin: 1rem 0;
        }}
        
        th, td {{
            padding: 0.75rem 1rem;
            text-align: right;
            border-bottom: 1px solid var(--border);
        }}
        
        th {{
            background: var(--bg);
            font-weight: 600;
            color: var(--text-muted);
        }}
        
        tr:hover {{
            background: var(--bg);
        }}
        
        .content-section {{
            margin: 1.5rem 0;
            padding: 1.5rem;
            background: var(--bg);
            border-radius: 0.75rem;
            border-right: 4px solid var(--primary);
        }}
        
        .content-section h4 {{
            color: var(--primary);
            margin-bottom: 0.75rem;
        }}
        
        pre {{
            background: #1e293b;
            color: #e2e8f0;
            padding: 1rem;
            border-radius: 0.5rem;
            overflow-x: auto;
            direction: ltr;
            text-align: left;
            font-size: 0.85rem;
            line-height: 1.5;
        }}
        
        code {{
            font-family: 'Fira Code', monospace;
        }}
        
        .activity-content {{
            line-height: 1.8;
        }}
        
        .activity-content h1, .activity-content h2, .activity-content h3 {{
            color: var(--primary);
            margin: 1.5rem 0 1rem;
        }}
        
        .activity-content ul, .activity-content ol {{
            margin: 1rem 0;
            padding-right: 2rem;
        }}
        
        .activity-content li {{
            margin: 0.5rem 0;
        }}
        
        .activity-content blockquote {{
            border-right: 4px solid var(--primary);
            padding: 1rem 1.5rem;
            margin: 1rem 0;
            background: var(--bg);
            border-radius: 0 0.5rem 0.5rem 0;
            font-style: italic;
        }}
        
        .activity-content hr {{
            border: none;
            border-top: 2px solid var(--border);
            margin: 2rem 0;
        }}
        
        footer {{
            text-align: center;
            padding: 2rem;
            color: var(--text-muted);
            border-top: 1px solid var(--border);
            margin-top: 3rem;
        }}
        
        @media (max-width: 768px) {{
            .container {{
                padding: 1rem;
            }}
            
            header {{
                padding: 2rem 1rem;
            }}
            
            header h1 {{
                font-size: 1.75rem;
            }}
            
            .stats-grid {{
                grid-template-columns: repeat(2, 1fr);
            }}
        }}
    </style>
</head>
<body>
    {content}
    <footer>
        <p>נוצר על ידי Agadah-Bot | מודל: Claude Opus 4.5 | {date}</p>
    </footer>
</body>
</html>
".

(** ** [str] of an [int] *)

Fixpoint uint_text (d : Decimal.uint) : text :=
  match d with
  | Nil => []
  | D0 r => 48%N :: uint_text r
  | D1 r => 49%N :: uint_text r
  | D2 r => 50%N :: uint_text r
  | D3 r => 51%N :: uint_text r
  | D4 r => 52%N :: uint_text r
  | D5 r => 53%N :: uint_text r
  | D6 r => 54%N :: uint_text r
  | D7 r => 55%N :: uint_text r
  | D8 r => 56%N :: uint_text r
  | D9 r => 57%N :: uint_text r
  end.

Definition str_int (z : Z) : text :=
  match Z.to_int z with
  | Decimal.Pos d => uint_text d
  | Decimal.Neg d => 45%N :: uint_text d
  end.

(** ** The clock and the output directory

    [generate_index_html] and [generate_test_html] each read the clock
    once; [main] writes one file per page.  A run threads the [world]: the
    successive values of [datetime.now()], how many were read, and the
    files written so far (latest first).  What the script prints is
    added in [Console]. *)

Record datetime := {
  year : Z; month : Z; day : Z;
  hour : Z; minute : Z; second : Z
}.

Record world := {
  now_at : nat -> datetime;
  ticks : nat;
  written : list (text * text)
}.

Definition M (A : Type) : Type := world -> result A * world.

Definition ret {A} (a : A) : M A := fun w => (Ok a, w).

Definition bind {A B} (m : M A) (f : A -> M B) : M B :=
  fun w =>
    match m w with
    | (Ok a, w') => f a w'
    | (Raise e, w') => (Raise e, w')
    end.

Definition lift {A} (r : result A) : M A := fun w => (r, w).

Notation "x <- m ;; k" := (bind m (fun x => k))
  (at level 61, m at next level, right associativity).
Notation "m ;;; k" := (bind m (fun _ => k))
  (at level 61, right associativity).

(** [datetime.now()] *)
Definition now : M datetime :=
  fun w =>
    (Ok (now_at w (ticks w)),
     {| now_at := now_at w; ticks := S (ticks w); written := written w |}).

(** A code point that UTF-8 cannot encode. *)
Definition is_surrogate (c : codepoint) : bool := Utf8.between 0xD800 0xDFFF c.

(** [path.write_text(content, encoding='utf-8')] on [OUTPUT_DIR / name]:
    the file is opened (and emptied) first; a text that cannot be encoded
    then raises and leaves it empty. *)
Definition write_text (file_name content : text) : M unit :=
  fun w =>
    if existsb is_surrogate content then
      (Raise UnicodeEncodeError,
       {| now_at := now_at w; ticks := ticks w;
          written := (file_name, []) :: written w |})
    else
      (Ok tt,
       {| now_at := now_at w; ticks := ticks w;
          written := (file_name, content) :: written w |}).

(** Decimal digits of [z], zero-padded on the left to [width]. *)
Definition zero_pad (width : nat) (z : Z) : text :=
  let d := str_int z in
  repeat 48%N (width - length d) ++ d.

(** [d.strftime("%d/%m/%Y")] *)
Definition strftime_dmy (d : datetime) : text :=
  zero_pad 2 (day d) ++ lit "/" ++ zero_pad 2 (month d) ++ lit "/"
  ++ zero_pad 4 (year d).

(** ** The f-strings of the renderer, their replacement fields as
    arguments *)

(** [stats_html] in [generate_index_html] *)
Definition stats_template (total passed failed minutes : text) : text :=
  lit "
    <div class=\x22stats-grid\x22>
        <div class=\x22stat-card\x22>
            <div class=\x22stat-value\x22>" ++ total ++
  lit "</div>
            <div class=\x22stat-label\x22>סה\x22כ בדיקות</div>
        </div>
        <div class=\x22stat-card\x22>
            <div class=\x22stat-value\x22 style=\x22color: var(--success)\x22>" ++ passed ++
  lit "</div>
            <div class=\x22stat-label\x22>עברו בהצלחה</div>
        </div>
        <div class=\x22stat-card\x22>
            <div class=\x22stat-value\x22 style=\x22color: var(--danger)\x22>" ++ failed ++
  lit "</div>
            <div class=\x22stat-label\x22>נכשלו</div>
        </div>
        <div class=\x22stat-card\x22>
            <div class=\x22stat-value\x22>" ++ minutes ++
  lit "</div>
            <div class=\x22stat-label\x22>דקות סה\x22כ</div>
        </div>
    </div>
    ".

(** One entry of [tests_html] in [generate_index_html] *)
Definition test_item_template
           (file status_class status_icon name activity_type_heb
            age_group_heb duration_min minutes : text) : text :=
  lit "
        <a href=\x22" ++ file ++
  lit ".html\x22 class=\x22test-item\x22>
            <div class=\x22test-status " ++ status_class ++
  lit "\x22>" ++ status_icon ++
  lit "</div>
            <div class=\x22test-info\x22>
                <div class=\x22test-name\x22>" ++ name ++
  lit "</div>
                <div class=\x22test-meta\x22>
                    <span class=\x22badge badge-primary\x22>" ++ activity_type_heb ++
  lit "</span>
                    <span class=\x22badge badge-primary\x22>" ++ age_group_heb ++
  lit "</span>
                    <span class=\x22badge badge-primary\x22>" ++ duration_min ++
  lit " דקות</span>
                </div>
            </div>
            <div class=\x22test-duration\x22>" ++ minutes ++
  lit " דק'</div>
        </a>
        ".

(** [content] in [generate_index_html] *)
Definition index_template (stats_html tests_html : text) : text :=
  lit "
    <header>
        <div class=\x22container\x22>
            <h1>🕎 דוחות בדיקות Agadah-Bot</h1>
            <p>בדיקות קצה-לקצה ליצירת פעילויות חינוכיות | Claude Opus 4.5</p>
        </div>
    </header>
    <div class=\x22container\x22>
        <div class=\x22card\x22>
            <h2>📊 סיכום כללי</h2>
            " ++ stats_html ++
  lit "
        </div>
        
        <div class=\x22card\x22>
            <h2>📋 רשימת בדיקות</h2>
            " ++ tests_html ++
  lit "
        </div>
    </div>
    ".

Definition INDEX_TITLE : text := lit "דוחות בדיקות Agadah-Bot".

(** One row of [steps_html] in [generate_test_html] *)
Definition step_row_template (name duration status_badge status_text : text)
  : text :=
  lit "
            <tr>
                <td>" ++ name ++
  lit "</td>
                <td>" ++ duration ++
  lit "</td>
                <td><span class=\x22badge " ++ status_badge ++
  lit "\x22>" ++ status_text ++
  lit "</span></td>
            </tr>
        ".

(** The head of [steps_html] *)
Definition STEPS_TABLE_HEAD : text :=
  lit "
    <table>
        <thead>
            <tr>
                <th>שלב</th>
                <th>משך (שניות)</th>
                <th>סטטוס</th>
            </tr>
        </thead>
        <tbody>
    ".

(** [content] in [generate_test_html] *)
Definition test_template
           (name user_request activity_type_heb age_group_heb
            duration_minutes main_topic main_values closing_message_theme
            steps_html minutes final_output_html : text) : text :=
  lit "
    <header>
        <div class=\x22container\x22>
            <h1>" ++ name ++
  lit "</h1>
            <p>" ++ user_request ++
  lit "</p>
        </div>
    </header>
    <div class=\x22container\x22>
        <div class=\x22breadcrumb\x22>
            <a href=\x22index.html\x22>← חזרה לרשימת הבדיקות</a>
        </div>
        
        <div class=\x22card\x22>
            <h2>📋 פרטי הפעילות</h2>
            <table>
                <tr><th>סוג פעילות</th><td>" ++ activity_type_heb ++
  lit "</td></tr>
                <tr><th>קבוצת גיל</th><td>" ++ age_group_heb ++
  lit "</td></tr>
                <tr><th>משך</th><td>" ++ duration_minutes ++
  lit " דקות</td></tr>
                <tr><th>נושא מרכזי</th><td>" ++ main_topic ++
  lit "</td></tr>
                <tr><th>ערכים</th><td>" ++ main_values ++
  lit "</td></tr>
                <tr><th>מסר סיום</th><td>" ++ closing_message_theme ++
  lit "</td></tr>
            </table>
        </div>
        
        <div class=\x22card\x22>
            <h2>⏱️ שלבי הביצוע</h2>
            " ++ steps_html ++
  lit "
            <p style=\x22margin-top: 1rem; color: var(--text-muted);\x22>
                <strong>סה\x22כ זמן ביצוע:</strong> " ++ minutes ++
  lit " דקות
            </p>
        </div>
        
        <div class=\x22card\x22>
            <h2>📄 תוכנית הפעילות</h2>
            <div class=\x22activity-content\x22>
                " ++ final_output_html ++
  lit "
            </div>
        </div>
    </div>
    ".

(** ** The renderer *)

Section Renderer.
Context {R : Runtime}.

(** [str(x)] of a value decoded from JSON *)
Definition py_str (x : json float) : text :=
  match x with
  | JStr s => s
  | JNull => lit "None"
  | JBool true => lit "True"
  | JBool false => lit "False"
  | JInt z => str_int z
  | _ => repr x
  end.

(** [o.get(key, default)] where [o] should be a [dict] *)
Definition json_get (o : json float) (key : text) (default : json float)
  : result (json float) :=
  match o with
  | JObj kv => Ok (get_default kv key default)
  | _ => Raise AttributeError
  end.

(** [table.get(key, default)] for a key decoded from JSON: lists and
    dicts are unhashable; no other non-string key is in the table. *)
Definition table_get (table : dict text) (key default : json float)
  : result (json float) :=
  match key with
  | JStr s =>
    Ok (match dict_get table s with
        | Some v => JStr v
        | None => default
        end)
  | JArr _ | JObj _ => Raise TypeError
  | _ => Ok default
  end.

Fixpoint join (sep : text) (l : list text) : text :=
  match l with
  | [] => []
  | [x] => x
  | x :: r => x ++ sep ++ join sep r
  end.

Definition as_str (x : json float) : result text :=
  match x with
  | JStr s => Ok s
  | _ => Raise TypeError
  end.

Fixpoint all_str (l : list (json float)) : result (list text) :=
  match l with
  | [] => Ok []
  | x :: r => rbind (as_str x) (fun s => rmap (cons s) (all_str r))
  end.

(** [sep.join(x)]: [x] is iterated; every item must be a [str]. *)
Definition join_value (sep : text) (x : json float) : result text :=
  match x with
  | JArr l => rmap (join sep) (all_str l)
  | JStr s => Ok (join sep (map (fun c => [c]) s))
  | JObj kv => Ok (join sep (map fst kv))
  | _ => Raise TypeError
  end.

(** [test.get('status') == 'PASS'] *)
Definition is_pass (test : info float) : bool :=
  match status test with
  | Some s => text_eqb s (lit "PASS")
  | None => false
  end.

(** [test.get('total_duration', 0)] *)
Definition get_total_duration (test : info float) : number float :=
  match total_duration test with
  | Some x => x
  | None => PyInt 0
  end.

(** [test.get('name_heb', test.get('name', 'Unknown'))] *)
Definition display_name (test : info float) : text :=
  match name_heb test with
  | Some s => s
  | None =>
    match name test with
    | Some s => s
    | None => lit "Unknown"
    end
  end.

(** [test.get('activity_details', {})] *)
Definition get_activity_details (test : info float) : json float :=
  match activity_details test with
  | Some o => o
  | None => JObj []
  end.

(** [f'{x/60:.1f}'] *)
Definition minutes (x : number float) : text :=
  format_1f (py_div x (PyInt 60)).

(** *** [generate_index_html] *)

Definition count_passed (tests : list (info float)) : Z :=
  len (filter is_pass tests).

Definition stats_html (total passed failed : Z) (total_time : number float)
  : text :=
  stats_template (str_int total) (str_int passed) (str_int failed)
                 (minutes total_time).

Definition test_item (test : info float) : result text :=
  let status_class := if is_pass test then lit "pass" else lit "fail" in
  let status_icon := if is_pass test then lit "✓" else lit "✗" in
  rbind (json_get (get_activity_details test) (lit "activity_type")
                  (JStr (lit ""))) (fun activity_type =>
  rbind (table_get ACTIVITY_TYPES_HEB activity_type activity_type)
        (fun activity_type_heb =>
  rbind (json_get (get_activity_details test) (lit "age_group")
                  (JStr (lit ""))) (fun age_group =>
  rbind (table_get AGE_GROUPS_HEB age_group age_group)
        (fun age_group_heb =>
  rbind (json_get (get_activity_details test) (lit "duration_minutes")
                  (JInt 0)) (fun duration_min =>
  match filename test with
  | None => Raise KeyError
  | Some file =>
    Ok (test_item_template file status_class status_icon (display_name test)
          (py_str activity_type_heb) (py_str age_group_heb)
          (py_str duration_min) (minutes (get_total_duration test)))
  end))))).

(** The loop [for test in tests: tests_html += ...] *)
Fixpoint test_items (acc : text) (tests : list (info float)) : result text :=
  match tests with
  | [] => Ok acc
  | test :: rest =>
    rbind (test_item test) (fun item => test_items (acc ++ item) rest)
  end.

Definition index_content (tests : list (info float)) : result text :=
  let total := len tests in
  let passed := count_passed tests in
  let failed := (total - passed)%Z in
  let total_time := py_sum (map get_total_duration tests) in
  let stats := stats_html total passed failed total_time in
  rbind (test_items (lit "<div class=\x22test-list\x22>") tests)
        (fun tests_html =>
  let tests_html := tests_html ++ lit "</div>" in
  Ok (index_template stats tests_html)).

Definition generate_index_html (tests : list (info float)) : M text :=
  content <- lift (index_content tests) ;;
  d <- now ;;
  lift (py_format HTML_TEMPLATE
          [ (lit "title", INDEX_TITLE);
            (lit "content", content);
            (lit "date", strftime_dmy d) ]).

(** *** [generate_test_html] *)

Definition NO_FINAL_OUTPUT : text := lit "<p>לא נמצא פלט סופי</p>".

Definition final_output_html (test : info float) : text :=
  let final_output :=
    match final_output test with Some s => s | None => lit "" end in
  match final_output with
  | _ :: _ =>
    match markdown final_output with
    | Some html => html
    | None => lit "<pre>" ++ final_output ++ lit "</pre>"
    end
  | [] => NO_FINAL_OUTPUT
  end.

Definition is_success (step : Step.t float) : bool :=
  text_eqb (Step.status step) (lit "SUCCESS").

Definition step_row (step : Step.t float) : text :=
  let status_badge :=
    if is_success step then lit "badge-success" else lit "badge-danger" in
  let status_text :=
    if is_success step then lit "הצלחה" else lit "כשלון" in
  step_row_template (Step.name step) (format_1f (Step.duration step))
                    status_badge status_text.

Definition get_steps (test : info float) : list (Step.t float) :=
  match steps test with
  | Some l => l
  | None => []
  end.

Definition steps_html (test : info float) : text :=
  fold_left (fun acc step => acc ++ step_row step) (get_steps test)
    STEPS_TABLE_HEAD
  ++ lit "</tbody></table>".

Definition test_content (test : info float) : result text :=
  let activity_details := get_activity_details test in
  rbind (json_get activity_details (lit "activity_type") (JStr (lit "")))
        (fun activity_type =>
  rbind (table_get ACTIVITY_TYPES_HEB activity_type (JStr (lit "")))
        (fun activity_type_heb =>
  rbind (json_get activity_details (lit "age_group") (JStr (lit "")))
        (fun age_group =>
  rbind (table_get AGE_GROUPS_HEB age_group (JStr (lit "")))
        (fun age_group_heb =>
  rbind (json_get activity_details (lit "duration_minutes") (JInt 0))
        (fun duration_minutes =>
  rbind (json_get activity_details (lit "main_topic") (JStr (lit "")))
        (fun main_topic =>
  rbind (json_get activity_details (lit "main_values") (JArr []))
        (fun main_values =>
  rbind (join_value (lit ", ") main_values) (fun values =>
  rbind (json_get activity_details (lit "closing_message_theme")
                  (JStr (lit ""))) (fun closing =>
  Ok (test_template
        (display_name test)
        (match user_request test with Some s => s | None => lit "" end)
        (py_str activity_type_heb) (py_str age_group_heb)
        (py_str duration_minutes) (py_str main_topic) values (py_str closing)
        (steps_html test) (minutes (get_total_duration test))
        (final_output_html test))))))))))).

Definition generate_test_html (test : info float) (md_content : text)
  : M text :=
  content <- lift (test_content test) ;;
  d <- now ;;
  lift (py_format HTML_TEMPLATE
          [ (lit "title", display_name test);
            (lit "content", content);
            (lit "date", strftime_dmy d) ]).

(** *** [main]

    [test_files] is the value of [sorted(BATCH_DIR.glob("test_*.md"))]:
    for each file its stem and its bytes. *)

Definition with_file_and_status (i : info float) (stem md_content : text)
  : info float :=
  {| name := name i; name_heb := name_heb i; model := model i;
     user_request := user_request i;
     activity_details := activity_details i;
     final_output := final_output i; steps := steps i;
     total_duration := total_duration i;
     filename := Some stem;
     status := Some (status_of md_content) |}.

Definition process_file (file : text * list byte) : M (info float) :=
  let '(stem, bytes) := file in
  md_content <- lift (read_text bytes) ;;
  test_info <- lift (extract_test_info md_content) ;;
  let test_info := with_file_and_status test_info stem md_content in
  test_html <- generate_test_html test_info md_content ;;
  write_text (stem ++ lit ".html") test_html ;;;
  ret test_info.

(** The loop [for test_file in test_files], accumulating [tests]. *)
Fixpoint process_files (tests : list (info float))
         (test_files : list (text * list byte)) : M (list (info float)) :=
  match test_files with
  | [] => ret tests
  | file :: rest =>
    test_info <- process_file file ;;
    process_files (tests ++ [test_info]) rest
  end.

Definition main (test_files : list (text * list byte)) : M unit :=
  tests <- process_files [] test_files ;;
  index_html <- generate_index_html tests ;;
  write_text (lit "index.html") index_html.

End Renderer.

(** ** A runtime to evaluate the definitions with

    ASCII letters and digits and the Hebrew letters for the tables; exact
    decimal fractions for floats, so that sums and quotients that are exact
    in binary64 come out as in Python.  It serves to run the definitions on
    concrete inputs; no theorem about all runtimes depends on it. *)

Module Sample.

(** A fraction [num / den]; [den] is positive. *)
Record frac := { num : Z; den : Z }.

Definition is_ascii_alnum (c : codepoint) : bool :=
  Utf8.between 48 57 c || Utf8.between 65 90 c || Utf8.between 97 122 c.

Definition is_hebrew_letter (c : codepoint) : bool :=
  Utf8.between 0x5D0 0x5EA c.

Definition digits (s : text) : text := filter (fun c => negb (c =? DOT)%N) s.

Fixpoint after_dot (s : text) : text :=
  match s with
  | [] => []
  | c :: r => if (c =? DOT)%N then r else after_dot r
  end.

Definition digits_value (s : text) : Z :=
  fold_left (fun acc c => (10 * acc + (Z.of_N c - 48))%Z) s 0%Z.

Definition of_literal (s : text) : frac :=
  {| num := digits_value (digits s);
     den := 10 ^ Z.of_nat (length (after_dot s)) |}.

Definition add (x y : frac) : frac :=
  {| num := num x * den y + num y * den x; den := den x * den y |}.

Definition div (x y : frac) : frac :=
  {| num := num x * den y; den := den x * num y |}.

(** Tenths of [x], rounded half to even. *)
Definition tenths (x : frac) : Z :=
  let a := (10 * num x)%Z in
  let q := (a / den x)%Z in
  let r := (a mod den x)%Z in
  match (2 * r ?= den x)%Z with
  | Lt => q
  | Gt => (q + 1)%Z
  | Eq => if Z.even q then q else (q + 1)%Z
  end.

Definition fmt_1f (x : frac) : text :=
  str_int (tenths x / 10) ++ [DOT] ++ str_int (tenths x mod 10).

Definition sample_repr (x : json frac) : text :=
  match x with
  | JFloat f => fmt_1f f
  | JStr s => lit "'" ++ s ++ lit "'"
  | JArr _ => lit "[...]"
  | JObj _ => lit "{...}"
  | _ => lit ""
  end.

(** Only the empty object is decoded; everything else is refused. *)
Definition sample_json_loads (s : text) : option (json frac) :=
  if text_eqb s (lit "{}") then Some (JObj []) else None.

(** One paragraph around the text; a text with a NUL character is
    refused. *)
Definition sample_markdown (s : text) : option text :=
  if existsb (fun c => (c =? 0)%N) s then None
  else Some (lit "<p>" ++ s ++ lit "</p>").

#[export] Instance runtime : Runtime := {
  isalnum := fun c => is_ascii_alnum c || is_hebrew_letter c;
  isdecimal := fun c => Utf8.between 48 57 c;
  float := frac;
  float_of_literal := of_literal;
  float_of_int := fun z => {| num := z; den := 1 |};
  float_add := add;
  float_div := div;
  format_1f := fmt_1f;
  repr := sample_repr;
  json_loads := sample_json_loads;
  markdown := sample_markdown
}.

End Sample.

(** ** Notions the properties are stated with *)

(** The literal parts of a parsed template, in order. *)
Definition literals_of (segs : list segment) : list text :=
  flat_map (fun s => match s with Literal l => [l] | Field _ => [] end) segs.

Definition parsed_or_nil (r : result (list segment)) : list segment :=
  match r with
  | Ok segs => segs
  | Raise _ => []
  end.

(** The literal parts of the page template. *)
Definition template_literals : list text :=
  literals_of (parsed_or_nil (parse_format None HTML_TEMPLATE)).

Definition page_part (i : nat) : text := nth i template_literals [].

(** The page shell around a title, a content and a date. *)
Definition html_page (title content date : text) : text :=
  page_part 0 ++ title ++ page_part 1 ++ content ++ page_part 2 ++ date
  ++ page_part 3.

(** The Unicode tables say of the ASCII characters what Unicode says:
    the letters and digits are alphanumeric, the digits are decimal. *)
Definition ascii_tables (R : Runtime) : Prop :=
  forall c : codepoint, (c < 128)%N ->
    isalnum c = Sample.is_ascii_alnum c /\ isdecimal c = Utf8.between 48 57 c.

(** The files a run leaves in the output directory. *)
Definition pages {R : Runtime} (test_files : list (text * list byte))
           (w : world) : list (text * text) :=
  written (snd (main test_files w)).

(** The clock readings of two worlds give the same dates from now on. *)
Definition same_dates (w1 w2 : world) : Prop :=
  forall i : nat,
    strftime_dmy (now_at w1 (ticks w1 + i)) =
    strftime_dmy (now_at w2 (ticks w2 + i)).

(** [m] is the engine's match of [r] at its start, in a text whose part
    from position [pos] on is [s]. *)
Definition match_from (r : Re.regex) (s : text) (pos : nat)
           (m : Re.match_obj) : Prop :=
  (Re.m_start m - pos <= length s)%nat /\
  exists s',
    Re.match_here r (skipn (Re.m_start m - pos) s) = Some (s', Re.m_groups m)
    /\ Re.m_end m =
       (Re.m_start m + (length (skipn (Re.m_start m - pos) s) - length s'))%nat.

(** [m] is a match of [r] in [s]: the engine's match at [m_start m], and
    [m_end m] is where it ends. *)
Definition is_match_at (r : Re.regex) (s : text) (m : Re.match_obj) : Prop :=
  (Re.m_start m <= length s)%nat /\
  exists s',
    Re.match_here r (skipn (Re.m_start m) s) = Some (s', Re.m_groups m)
    /\ Re.m_end m =
       (Re.m_start m + (length (skipn (Re.m_start m) s) - length s'))%nat.

(** [b] comes after [a] and does not overlap it. *)
Definition follows (a b : Re.match_obj) : Prop :=
  (Re.m_start a < Re.m_start b)%nat /\ (Re.m_end a <= Re.m_start b)%nat.

(** A file of 6000 Hebrew letters (alef, two bytes each in UTF-8). *)
Definition hebrew_file : list byte := concat (repeat [xd7; x90] (6 * 1000)).

(** The text of a step entry: name line, duration and result, with
    anything in between. *)
Definition step_text (name gap1 dur gap2 st : text) : text :=
  lit "STEP: " ++ name ++ lit "\n" ++ gap1 ++ lit "Duration: " ++ dur
  ++ lit "s" ++ gap2 ++ lit "Result: " ++ st.

(** A concrete world: the clock stands at [d]; nothing is written yet. *)
Definition world_at (d : datetime) : world :=
  {| now_at := fun _ => d; ticks := 0; written := [] |}.

Definition noon (y m d : Z) : datetime :=
  {| year := y; month := m; day := d; hour := 12; minute := 0; second := 0 |}.

Definition sample_report : list byte :=
  list_byte_of_string "# E2E Test Report: Kibud_Av_VaEm
| model | opus |
**User Request:** plan
## Steps
STEP: plan
Duration: 1.5s
Result: SUCCESS
STEP: write
Duration: 2.5s
Result: FAILED
## Final Output

Hello
".

Section StepSpec.
Context {R : Runtime}.

(** The step [st] is read off the match [m]: name and status are the first
    and third groups, the duration is [float] of the second. *)
Definition step_from (m : Re.match_obj) (st : Step.t float) : Prop :=
  Step.name st = Re.group 1 m
  /\ decimal_literal (Re.group 2 m) = true
  /\ Step.duration st = float_of_literal (Re.group 2 m)
  /\ Step.status st = Re.group 3 m.

(** The match [m] in [md] spans a step entry whose name, duration and
    result are its three groups. *)
Definition spans_step (md : text) (m : Re.match_obj) : Prop :=
  exists gap1 gap2,
    md = firstn (Re.m_start m) md
         ++ step_text (Re.group 1 m) gap1 (Re.group 2 m) gap2 (Re.group 3 m)
         ++ skipn (Re.m_end m) md
    /\ Re.group 1 m <> [] /\ Re.group 2 m <> [] /\ Re.group 3 m <> []
    /\ forallb digit_or_dot (Re.group 2 m) = true
    /\ forallb word (Re.group 3 m) = true.

(** [0 + d1 + ... + dn], from the left, in float arithmetic. *)
Definition float_sum (ds : list float) : float :=
  fold_left float_add ds (float_of_int 0).

End StepSpec.

(** The text of [sample_report]. *)
Definition sample_text : text :=
  match read_text sample_report with
  | Ok t => t
  | Raise _ => []
  end.

(** A step entry without a duration, followed by a complete one. *)
Definition overlapping_steps : text :=
  lit "STEP: plan\nSTEP: write\nDuration: 1.5s\nResult: SUCCESS\n".

(** Two patterns of the same shape whose character sets agree on the
    characters that satisfy [P]. *)
Fixpoint regex_agree (P : codepoint -> Prop) (r r' : Re.regex) : Prop :=
  match r, r' with
  | Re.Lit l, Re.Lit l' => l = l'
  | Re.Rep b n p, Re.Rep b' n' p' =>
    b = b' /\ n = n' /\ forall c, P c -> p c = p' c
  | Re.Seq a b, Re.Seq a' b' => regex_agree P a a' /\ regex_agree P b b'
  | Re.Alt a b, Re.Alt a' b' => regex_agree P a a' /\ regex_agree P b b'
  | Re.Group n a, Re.Group n' a' => n = n' /\ regex_agree P a a'
  | Re.Ahead a, Re.Ahead a' => regex_agree P a a'
  | Re.Eos, Re.Eos => True
  | _, _ => False
  end.

Definition is_ascii (c : codepoint) : Prop := (c < 128)%N.

(** A step entry whose duration is not a number. *)
Definition bad_duration : text :=
  lit "STEP: build\nDuration: 1.2.3s\nResult: SUCCESS\n".

(** A report with an empty final-output section before the step timings. *)
Definition empty_final_output : text :=
  lit "## Final Output\n\n## Step Timings\nSTEP: plan\n".

(** The world after one reading of the clock. *)
Definition ticked (w : world) : world :=
  {| now_at := now_at w; ticks := S (ticks w); written := written w |}.

(** Two worlds a run cannot tell apart: the same files written so far and
    the same dates from now on. *)
Definition same_world (w1 w2 : world) : Prop :=
  written w1 = written w2 /\ same_dates w1 w2.

(** A computation that does the same in worlds it cannot tell apart. *)
Definition date_determined {A} (m : M A) : Prop :=
  forall w1 w2, same_world w1 w2 ->
    fst (m w1) = fst (m w2) /\ same_world (snd (m w1)) (snd (m w2)).

(** The records of the sample report, as [main] builds them. *)
Definition sample_tests : list (info Sample.frac) :=
  match extract_test_info (R := Sample.runtime) sample_text with
  | Ok r => [with_file_and_status r (lit "test_01") sample_text]
  | Raise _ => []
  end.

(** The record of a report that has a title line and nothing else. *)
Definition bare_test : info Sample.frac :=
  {| name := Some (lit "Teamwork_Games");
     name_heb := Some (lit "משחקי עבודת צוות");
     model := None; user_request := None; activity_details := None;
     final_output := None; steps := Some []; total_duration := Some (PyInt 0);
     filename := Some (lit "test_02"); status := Some (lit "FAIL") |}.

(** The record of the sample report. *)
Definition sample_test : info Sample.frac := hd bare_test sample_tests.

(** A world whose clock starts at [d] and advances one second at each
    reading. *)
Definition ticking_from (d : datetime) : world :=
  {| now_at := fun n =>
                 {| year := year d; month := month d; day := day d;
                    hour := hour d; minute := minute d;
                    second := second d + Z.of_nat n |};
     ticks := 0; written := [] |}.

(** A byte of plain ASCII text: below 128 and not a carriage return. *)
Definition plain_ascii (b : byte) : bool :=
  (Byte.to_N b <? 128)%N && negb (Byte.to_N b =? CR)%N.

(** The text starts with what ends the fallback's capture: a line that
    begins with [## ], or the end of the text. *)
Definition ends_section (s : text) : bool :=
  match Re.strip_prefix (lit "\n## ") s with
  | Some _ => true
  | None => Re.at_eos s
  end.

(** The text starts with a closing fence. *)
Definition at_fence (s : text) : bool :=
  match Re.strip_prefix (lit "```") s with
  | Some _ => true
  | None => false
  end.

(** Parts of two small reports. *)
Definition report_title : text := lit "# E2E Test Report: Teamwork_Games\n".
Definition fenced_body : text := lit "\n# Plan\nplay\n".
Definition plain_body : text := lit "  play\n".
Definition next_section : text := lit "\n## Step Timings\n".

(** ** Notions for the further properties *)

(** The longest prefix of [s] whose characters satisfy [p], and the rest. *)
Fixpoint span (p : Re.charset) (s : text) : text * text :=
  match s with
  | c :: r => if p c then (c :: fst (span p r), snd (span p r)) else ([], s)
  | [] => ([], [])
  end.

(** [s] begins with [l]. *)
Definition starts_with (l s : text) : bool :=
  match Re.strip_prefix l s with
  | Some _ => true
  | None => false
  end.

(** The first character of [s], if any, does not satisfy [p]. *)
Definition stops (p : Re.charset) (s : text) : Prop :=
  match s with
  | [] => True
  | c :: _ => p c = false
  end.

(** [s] begins with [l] followed by a character that satisfies [p]. *)
Definition marker_at (l : text) (p : Re.charset) (s : text) : bool :=
  match Re.strip_prefix l s with
  | Some (c :: _) => p c
  | _ => false
  end.

(** [s] begins with the heading of the final output, a blank line, and at
    least one more character. *)
Definition heading_at (s : text) : bool :=
  match Re.strip_prefix (lit "## Final Output\n\n") s with
  | Some (_ :: _) => true
  | _ => false
  end.

(** [s] neither begins nor ends with a whitespace character. *)
Definition trimmed (s : text) : Prop :=
  match s with [] => True | c :: _ => isspace c = false end
  /\ match rev s with [] => True | c :: _ => isspace c = false end.

(** A decoded JSON value that can be the key of a [dict] lookup: a list
    or a dict is unhashable. *)
Definition hashable {F : Type} (x : json F) : bool :=
  match x with
  | JArr _ | JObj _ => false
  | _ => true
  end.

Definition is_str {F : Type} (x : json F) : bool :=
  match x with
  | JStr _ => true
  | _ => false
  end.

(** A decoded JSON value that [', '.join] accepts: an iterable whose
    items are strings. *)
Definition joinable {F : Type} (x : json F) : bool :=
  match x with
  | JArr l => forallb is_str l
  | JStr _ | JObj _ => true
  | _ => false
  end.

(** The fields of the activity details that the pages look up in the
    tables, and the one the detail page joins. *)
Definition activity_type_of {F : Type} (kv : dict (json F)) : json F :=
  get_default kv (lit "activity_type") (JStr (lit "")).
Definition age_group_of {F : Type} (kv : dict (json F)) : json F :=
  get_default kv (lit "age_group") (JStr (lit "")).
Definition main_values_of {F : Type} (kv : dict (json F)) : json F :=
  get_default kv (lit "main_values") (JArr []).

(** The world after [content] was written to the file [file_name]. *)
Definition after_write (w : world) (file_name content : text) : world :=
  {| now_at := now_at w; ticks := ticks w;
     written := (file_name, content) :: written w |}.

(** A text that UTF-8 can encode. *)
Definition encodable (s : text) : bool := negb (existsb is_surrogate s).

(** The exceptions that reading, extracting and rendering can raise. *)
Definition input_error (e : exn) : bool :=
  match e with
  | UnicodeDecodeError | ValueError | AttributeError | TypeError => true
  | _ => false
  end.

(** A report whose only step has a duration that is not a number. *)
Definition bad_report : list byte :=
  list_byte_of_string "STEP: build
Duration: 1.2.3s
Result: SUCCESS
".

Section Tags.
Context {R : Runtime}.

(** What the index page shows for a key of a table: the table's label,
    or the key itself when the table has none. *)
Definition index_tag (table : dict text) (key : json float) : text :=
  match key with
  | JStr s => match dict_get table s with Some v => v | None => s end
  | _ => py_str key
  end.

(** What the detail page shows for a key of a table: the table's label,
    or nothing when the table has none. *)
Definition detail_tag (table : dict text) (key : json float) : text :=
  match key with
  | JStr s => match dict_get table s with Some v => v | None => lit "" end
  | _ => lit ""
  end.

(** The row of the index page for a record with the file name [file] and
    the activity details [kv]. *)
Definition index_row (test : info float) (file : text)
           (kv : dict (json float)) : text :=
  test_item_template file
    (if is_pass test then lit "pass" else lit "fail")
    (if is_pass test then lit "✓" else lit "✗")
    (display_name test)
    (index_tag ACTIVITY_TYPES_HEB (activity_type_of kv))
    (index_tag AGE_GROUPS_HEB (age_group_of kv))
    (py_str (get_default kv (lit "duration_minutes") (JInt 0)))
    (minutes (get_total_duration test)).

(** The content of the detail page for a record with the activity details
    [kv], whose main values are joined to [values]. *)
Definition detail_content (test : info float) (kv : dict (json float))
           (values : text) : text :=
  test_template
    (display_name test)
    (match user_request test with Some s => s | None => lit "" end)
    (detail_tag ACTIVITY_TYPES_HEB (activity_type_of kv))
    (detail_tag AGE_GROUPS_HEB (age_group_of kv))
    (py_str (get_default kv (lit "duration_minutes") (JInt 0)))
    (py_str (get_default kv (lit "main_topic") (JStr (lit ""))))
    values
    (py_str (get_default kv (lit "closing_message_theme") (JStr (lit ""))))
    (steps_html test) (minutes (get_total_duration test))
    (final_output_html test).

End Tags.

(** The decoded text of the file is longer than 10000 characters. *)
Definition long_file (file : text * list byte) : bool :=
  match read_text (snd file) with
  | Ok md_content => (10000 <? len md_content)%Z
  | Raise _ => false
  end.

(** A Unicode scalar value: a code point that is not a surrogate. *)
Definition is_scalar (c : codepoint) : bool :=
  (c <? 0x110000)%N && negb (is_surrogate c).

(** ** Encoding of a page: the [utf-8] codec, strict

    What [write_text(..., encoding='utf-8')] puts in the file for the
    characters of a text; [None] stands for [UnicodeEncodeError]. *)

Definition encode_char (c : codepoint) : option (list N) :=
  if (c <? 0x80)%N then Some [c]
  else if (c <? 0x800)%N then
    Some [N.lor 0xC0 (N.shiftr c 6); N.lor 0x80 (N.land c 0x3F)]
  else if (c <? 0x10000)%N then
    if is_surrogate c then None
    else Some [N.lor 0xE0 (N.shiftr c 12);
               N.lor 0x80 (N.land (N.shiftr c 6) 0x3F);
               N.lor 0x80 (N.land c 0x3F)]
  else if (c <? 0x110000)%N then
    Some [N.lor 0xF0 (N.shiftr c 18);
          N.lor 0x80 (N.land (N.shiftr c 12) 0x3F);
          N.lor 0x80 (N.land (N.shiftr c 6) 0x3F);
          N.lor 0x80 (N.land c 0x3F)]
  else None.

Fixpoint encode (s : text) : option (list N) :=
  match s with
  | [] => Some []
  | c :: r =>
    match encode_char c, encode r with
    | Some a, Some b => Some (a ++ b)
    | _, _ => None
    end
  end.

(** ** Dates *)

(** The character of the decimal digit [n]. *)
Definition digit (n : Z) : codepoint := Z.to_N (48 + n).

Definition two_digits (z : Z) : text := [digit (z / 10); digit (z mod 10)].

Definition four_digits (z : Z) : text :=
  [digit (z / 1000); digit (z / 100 mod 10); digit (z / 10 mod 10);
   digit (z mod 10)].

(** A date of the calendar with a year of four digits. *)
Definition valid_date (d : datetime) : bool :=
  ((1 <=? day d) && (day d <=? 31) && (1 <=? month d) && (month d <=? 12)
   && (1000 <=? year d) && (year d <=? 9999))%Z.

(** The same day of the calendar. *)
Definition same_day (d1 d2 : datetime) : Prop :=
  day d1 = day d2 /\ month d1 = month d2 /\ year d1 = year d2.

(** The [n] integers from [start] on. *)
Fixpoint zrange (start : Z) (n : nat) : list Z :=
  match n with
  | O => []
  | S n' => start :: zrange (start + 1) n'
  end.

(** Equality of texts, character by character. *)
Fixpoint same_text (a b : text) : bool :=
  match a, b with
  | [], [] => true
  | x :: a', y :: b' => (x =? y)%N && same_text a' b'
  | _, _ => false
  end.

Section RowErrors.
Context {R : Runtime}.

(** The exception that keeps a record from having a row in the index, if
    any. *)
Definition row_error (test : info float) : option exn :=
  match get_activity_details test with
  | JObj kv =>
    if hashable (activity_type_of kv) && hashable (age_group_of kv)
    then match filename test with
         | Some _ => None
         | None => Some KeyError
         end
    else Some TypeError
  | _ => Some AttributeError
  end.

(** The exception of the first record that has one. *)
Fixpoint first_error (tests : list (info float)) : option exn :=
  match tests with
  | [] => None
  | test :: rest =>
    match row_error test with
    | Some e => Some e
    | None => first_error rest
    end
  end.

End RowErrors.

Section Suspects.
Context {R : Runtime}.

(** The texts of a detail page that do not come from the report itself
    or from the script: the values of the activity details that are shown
    as they are, the joined main values, the formatted numbers and the
    rendered final output. *)
Definition foreign_texts (test : info float) (kv : dict (json float))
           (values : text) : list text :=
  [ py_str (get_default kv (lit "duration_minutes") (JInt 0));
    py_str (get_default kv (lit "main_topic") (JStr (lit "")));
    values;
    py_str (get_default kv (lit "closing_message_theme") (JStr (lit "")));
    minutes (get_total_duration test);
    final_output_html test ]
  ++ map (fun step => format_1f (Step.duration step)) (get_steps test).

End Suspects.

(** A report whose JSON block holds an escaped lone surrogate, and a
    runtime whose [json.loads] decodes that block as Python's does (the
    escape becomes the code point U+D800); everything else is as in
    [Sample.runtime]. *)
Definition surrogate_report : list byte :=
  list_byte_of_string "```json
{" ++ [x22] ++ list_byte_of_string "main_topic" ++ [x22]
  ++ list_byte_of_string ": " ++ [x22; x5c] ++ list_byte_of_string "ud800"
  ++ [x22] ++ list_byte_of_string "}
```
".

Definition surrogate_json_loads (s : text) : option (json Sample.frac) :=
  if text_eqb s (lit "{\x22main_topic\x22: \x22\\ud800\x22}")
  then Some (JObj [(lit "main_topic", JStr [0xD800%N])])
  else Sample.sample_json_loads s.

Definition surrogate_runtime : Runtime :=
  {| isalnum := fun c => Sample.is_ascii_alnum c || Sample.is_hebrew_letter c;
     isdecimal := fun c => Utf8.between 48 57 c;
     float := Sample.frac;
     float_of_literal := Sample.of_literal;
     float_of_int := fun z => {| Sample.num := z; Sample.den := 1 |};
     float_add := Sample.add;
     float_div := Sample.div;
     format_1f := Sample.fmt_1f;
     repr := Sample.sample_repr;
     json_loads := surrogate_json_loads;
     markdown := Sample.sample_markdown |}.

(** A name that does not run over the end of its line: it is not empty
    and holds no newline after its first character. *)
Definition on_one_line (name : text) : Prop :=
  match name with
  | [] => False
  | _ :: more => ~ In LF more
  end.

(** A record marked PASS, of 116 seconds, beside the sample record. *)
Definition passed_test : info Sample.frac :=
  {| name := Some (lit "Shabbat_Candles");
     name_heb := None;
     model := None;
     user_request := Some (lit "candles");
     activity_details :=
       Some (JObj [(lit "activity_type", JStr (lit "discussion"));
                   (lit "age_group", JStr (lit "teens"));
                   (lit "main_values",
                    JArr [JStr (lit "light"); JStr (lit "rest")])]);
     final_output := None;
     steps := Some [ {| Step.name := lit "plan";
                        Step.duration := {| Sample.num := 116; Sample.den := 1 |};
                        Step.status := lit "SUCCESS" |} ];
     total_duration :=
       Some (PyFloat {| Sample.num := 116; Sample.den := 1 |});
     filename := Some (lit "test_02");
     status := Some (lit "PASS") |}.

Definition two_tests : list (info Sample.frac) := [sample_test; passed_test].

(** ** Durations that overflow *)

(** A decimal number with one decimal place: digits, a dot, one digit. *)
Definition one_decimal (t : text) : bool :=
  match rev t with
  | d :: dot :: units =>
    Utf8.between 48 57 d && (dot =? DOT)%N
    && negb (length units =? 0)%nat && forallb (Utf8.between 48 57) units
  | _ => false
  end.

(** A runtime whose floats overflow: the fractions of [Sample] below
    [2^1024 - 2^970], the least value that binary64 rounds to [inf]; [inf]
    itself, which is what [float] returns for a literal from there on; and
    [nan].  [format(inf, '.1f')] is [inf].  The script's literals have no
    sign, and it divides by 60 only. *)
Module Overflow.

Inductive t := Finite (x : Sample.frac) | Inf | NaN.

Definition too_large (x : Sample.frac) : bool :=
  ((2 ^ 1024 - 2 ^ 970) * Sample.den x <=? Sample.num x)%Z.

Definition finite (x : Sample.frac) : t :=
  if too_large x then Inf else Finite x.

Definition add (x y : t) : t :=
  match x, y with
  | Finite a, Finite b => finite (Sample.add a b)
  | NaN, _ | _, NaN => NaN
  | _, _ => Inf
  end.

Definition div (x y : t) : t :=
  match x, y with
  | Finite a, Finite b => finite (Sample.div a b)
  | NaN, _ | _, NaN => NaN
  | Inf, Inf => NaN
  | Inf, Finite _ => Inf
  | Finite _, Inf => Finite {| Sample.num := 0; Sample.den := 1 |}
  end.

Definition fmt_1f (x : t) : text :=
  match x with
  | Finite a => Sample.fmt_1f a
  | Inf => lit "inf"
  | NaN => lit "nan"
  end.

Definition overflow_repr (x : json t) : text :=
  match x with
  | JFloat f => fmt_1f f
  | JStr s => lit "'" ++ s ++ lit "'"
  | JArr _ => lit "[...]"
  | JObj _ => lit "{...}"
  | _ => lit ""
  end.

Definition overflow_json_loads (s : text) : option (json t) :=
  if text_eqb s (lit "{}") then Some (JObj []) else None.

#[export] Instance runtime : Runtime := {
  isalnum := fun c => Sample.is_ascii_alnum c || Sample.is_hebrew_letter c;
  isdecimal := fun c => Utf8.between 48 57 c;
  float := t;
  float_of_literal := fun s => finite (Sample.of_literal s);
  float_of_int := fun z => Finite {| Sample.num := z; Sample.den := 1 |};
  float_add := add;
  float_div := div;
  format_1f := fmt_1f;
  repr := overflow_repr;
  json_loads := overflow_json_loads;
  markdown := Sample.sample_markdown
}.

End Overflow.

(** A report whose only step has a duration of four hundred digits. *)
Definition overflow_report : text :=
  lit "STEP: render\nDuration: " ++ repeat 57%N 400
  ++ lit "s\nResult: SUCCESS\n".

(** ** Another [json.loads] *)



(** ** What the script prints

    [main] with its calls of [print].  A line goes to [sys.stdout], whose
    encoding has the characters [stdout_encodes] holds of; a line with
    another character raises [UnicodeEncodeError] and prints nothing.
    [output_dir] is [str(OUTPUT_DIR)].  The state of a run is the [world]
    and the lines printed so far (latest first). *)

Module Console.

Record state := { disk : world; printed : list text }.

Definition C (A : Type) : Type := state -> result A * state.

Definition cbind {A B} (m : C A) (f : A -> C B) : C B :=
  fun st =>
    match m st with
    | (Ok a, st') => f a st'
    | (Raise e, st') => (Raise e, st')
    end.

(** A computation that does not print. *)
Definition run {A} (m : M A) : C A :=
  fun st =>
    match m (disk st) with
    | (r, w) => (r, {| disk := w; printed := printed st |})
    end.

Section Printing.
Context {R : Runtime}.
Variable stdout_encodes : codepoint -> bool.
Variable output_dir : text.

(** [print(line)] *)
Definition print (line : text) : C unit :=
  fun st =>
    if forallb stdout_encodes line then
      (Ok tt, {| disk := disk st; printed := line :: printed st |})
    else (Raise UnicodeEncodeError, st).

(** The loop [for test_file in test_files]: [test_file.name] is the stem
    and [.md]. *)
Fixpoint process_files (tests : list (info float))
         (test_files : list (text * list byte)) : C (list (info float)) :=
  match test_files with
  | [] => fun st => (Ok tests, st)
  | file :: rest =>
    cbind (print (lit "Processing: " ++ fst file ++ lit ".md")) (fun _ =>
    cbind (run (process_file file)) (fun test_info =>
    cbind (print (lit "  Created: " ++ fst file ++ lit ".html")) (fun _ =>
    process_files (tests ++ [test_info]) rest)))
  end.

Definition main (test_files : list (text * list byte)) : C unit :=
  cbind (process_files [] test_files) (fun tests =>
  cbind (run (generate_index_html tests)) (fun index_html =>
  cbind (run (write_text (lit "index.html") index_html)) (fun _ =>
  cbind (print (lit "\nCreated index: index.html")) (fun _ =>
  cbind (print (lit "\n✅ Generated " ++ str_int (len tests)
                ++ lit " test reports + index page")) (fun _ =>
  print (lit "📁 Output directory: " ++ output_dir)))))).

End Printing.

End Console.

(** A standard output in Latin-1. *)
Definition latin1 (c : codepoint) : bool := (c <? 256)%N.

(** A run that has written and printed nothing yet. *)
Definition fresh_console : Console.state :=
  {| Console.disk := world_at (noon 2025 11 27); Console.printed := [] |}.

(** A standard output in UTF-8. *)
Definition utf8_stdout (c : codepoint) : bool := negb (is_surrogate c).

(** * Properties *)

(** A closed computation in [result] or [M] returns: run it. *)
Ltac evaluation := vm_compute; repeat eexists; reflexivity.

(** ** Lists and texts *)

Lemma text_eqb_eq (a b : text) : text_eqb a b = true <-> a = b.
Proof.
  unfold text_eqb. destruct (list_eq_dec N.eq_dec a b); split; congruence.
Qed.

Lemma text_eqb_refl (a : text) : text_eqb a a = true.
Proof. now apply text_eqb_eq. Qed.

Lemma firstn_consumed (pre s' : text) :
  firstn (length (pre ++ s') - length s') (pre ++ s') = pre.
Proof.
  rewrite length_app.
  replace (length pre + length s' - length s')%nat with (length pre) by lia.
  rewrite firstn_app, Nat.sub_diag, firstn_all. simpl. apply app_nil_r.
Qed.

Lemma skipn_consumed (pre s' : text) :
  skipn (length (pre ++ s') - length s') (pre ++ s') = s'.
Proof.
  rewrite length_app.
  replace (length pre + length s' - length s')%nat with (length pre) by lia.
  rewrite skipn_app, Nat.sub_diag, skipn_all. reflexivity.
Qed.

Lemma forallb_rev (A : Type) (f : A -> bool) (l : list A) :
  forallb f (rev l) = forallb f l.
Proof.
  induction l as [|x l IH]; simpl; [reflexivity|].
  rewrite forallb_app, IH. simpl. rewrite andb_true_r. apply andb_comm.
Qed.

Lemma none_below (f : nat -> bool) (lo hi : nat) :
  forallb (fun j => negb (f j)) (seq lo (hi - lo)) = true ->
  forall j, (lo <= j < hi)%nat -> f j = false.
Proof.
  intros H j Hj. rewrite forallb_forall in H.
  apply negb_true_iff. apply H. apply in_seq. lia.
Qed.

Lemma none_before (f : nat -> bool) (hi : nat) :
  forallb (fun j => negb (f j)) (seq 0 hi) = true ->
  forall j, (j < hi)%nat -> f j = false.
Proof.
  intros H j Hj. rewrite forallb_forall in H.
  apply negb_true_iff. apply H. apply in_seq. lia.
Qed.

Lemma filter_partition_length (A : Type) (f : A -> bool) (l : list A) :
  (len (filter f l) + len (filter (fun x => negb (f x)) l) = len l)%Z.
Proof.
  unfold len. rewrite <- Nat2Z.inj_add. f_equal.
  induction l as [|x l IH]; simpl; [reflexivity|].
  destruct (f x); simpl; lia.
Qed.

Lemma fold_left_app_concat (A : Type) (f : A -> text) (l : list A) :
  forall acc : text,
    fold_left (fun acc x => acc ++ f x) l acc = acc ++ concat (map f l).
Proof.
  induction l as [|x l IH]; intros acc; simpl.
  - now rewrite app_nil_r.
  - now rewrite IH, app_assoc.
Qed.

(** ** The error monad *)

Lemma rbind_Ok {A B} (m : result A) (f : A -> result B) (b : B) :
  rbind m f = Ok b -> exists a, m = Ok a /\ f a = Ok b.
Proof. destruct m as [a|e]; simpl; [eauto | discriminate]. Qed.

Lemma rmap_Ok {A B} (f : A -> B) (m : result A) (b : B) :
  rmap f m = Ok b -> exists a, m = Ok a /\ b = f a.
Proof.
  unfold rmap. intros H. apply rbind_Ok in H. destruct H as (a & Ha & Hb).
  exists a. split; [assumption | congruence].
Qed.

(** ** The matcher: what it finds is a match *)

Lemma strip_prefix_Some (l s s' : text) :
  Re.strip_prefix l s = Some s' <-> s = l ++ s'.
Proof.
  revert s. induction l as [|c l IH]; intros s; simpl.
  - split; congruence.
  - destruct s as [|x s]; [split; discriminate |].
    destruct (N.eqb_spec x c) as [->|Hne].
    + rewrite IH. split; congruence.
    + split; [discriminate | congruence].
Qed.

Lemma strip_prefix_app (l s : text) : Re.strip_prefix l (l ++ s) = Some s.
Proof. now apply strip_prefix_Some. Qed.

Section RepSound.
Variable A : Type.
Variable p : Re.charset.
Variable k : text -> option A.

Lemma rep_greedy_sound (s : text) : forall (min : nat) (a : A),
  Re.rep_greedy p k min s = Some a ->
  exists pre s', s = pre ++ s' /\ forallb p pre = true
                 /\ (min <= length pre)%nat /\ k s' = Some a.
Proof.
  induction s as [|x s IH]; intros min a H; simpl in H.
  - destruct min; [|discriminate]. exists [], []. auto.
  - assert (Stop : match min with O => k (x :: s) | S _ => None end = Some a ->
                   exists pre s', x :: s = pre ++ s' /\ forallb p pre = true
                                  /\ (min <= length pre)%nat /\ k s' = Some a).
    { destruct min; [|discriminate]. intros Hk. exists [], (x :: s). auto. }
    destruct (p x) eqn:Hp; [|auto].
    destruct (Re.rep_greedy p k (pred min) s) as [a'|] eqn:Hrec; [|auto].
    injection H as <-. destruct (IH _ _ Hrec) as (pre & s' & -> & Hall & Hlen & Hk).
    exists (x :: pre), s'. simpl. rewrite Hp, Hall. repeat split; auto. lia.
Qed.

Lemma rep_lazy_sound (s : text) : forall (min : nat) (a : A),
  Re.rep_lazy p k min s = Some a ->
  exists pre s', s = pre ++ s' /\ forallb p pre = true
                 /\ (min <= length pre)%nat /\ k s' = Some a.
Proof.
  induction s as [|x s IH]; intros min a H; simpl in H.
  - destruct min; [|discriminate]. destruct (k []) eqn:Hk; [|discriminate].
    exists [], []. injection H as <-. auto.
  - assert (More : (if p x then Re.rep_lazy p k (pred min) s else None) = Some a ->
                   exists pre s', x :: s = pre ++ s' /\ forallb p pre = true
                                  /\ (min <= length pre)%nat /\ k s' = Some a).
    { destruct (p x) eqn:Hp; [|discriminate]. intros Hrec.
      destruct (IH _ _ Hrec) as (pre & s' & -> & Hall & Hlen & Hk).
      exists (x :: pre), s'. simpl. rewrite Hp, Hall. repeat split; auto. lia. }
    destruct min; [|auto].
    destruct (k (x :: s)) eqn:Hk; [|auto].
    injection H as <-. exists [], (x :: s). auto.
Qed.
End RepSound.

Lemma matches_suffix (r : Re.regex) : forall s g s' g',
  Re.matches r s g s' g' -> exists pre, s = pre ++ s'.
Proof.
  induction r; simpl; intros s0 g s' g' H.
  - destruct H as [-> _]. eauto.
  - destruct H as (pre & -> & _). eauto.
  - destruct H as (s1 & g1 & H1 & H2).
    destruct (IHr1 _ _ _ _ H1) as (p1 & ->).
    destruct (IHr2 _ _ _ _ H2) as (p2 & ->).
    exists (p1 ++ p2). now rewrite app_assoc.
  - destruct H as [H|H]; eauto.
  - destruct H as (g1 & H & _). eauto.
  - destruct H as [-> _]. now exists [].
  - destruct H as (_ & -> & _). now exists [].
Qed.

Lemma exec_sound (r : Re.regex) :
  forall (A : Type) (s : text) (g : Re.groups)
         (k : text -> Re.groups -> option A) (a : A),
  Re.exec r s g k = Some a ->
  exists s' g', Re.matches r s g s' g' /\ k s' g' = Some a.
Proof.
  induction r; intros A s0 g k a H; simpl in H |- *.
  - destruct (Re.strip_prefix s s0) as [s'|] eqn:Hp; [|discriminate].
    apply strip_prefix_Some in Hp. eauto.
  - destruct greedy.
    + apply rep_greedy_sound in H. destruct H as (pre & s' & ? & ? & ? & ?).
      exists s', g. split; [exists pre|]; auto.
    + apply rep_lazy_sound in H. destruct H as (pre & s' & ? & ? & ? & ?).
      exists s', g. split; [exists pre|]; auto.
  - apply IHr1 in H. destruct H as (s1 & g1 & H1 & H).
    apply IHr2 in H. destruct H as (s2 & g2 & H2 & H).
    exists s2, g2. split; [exists s1, g1|]; auto.
  - destruct (Re.exec r1 s0 g k) as [x|] eqn:H1.
    + injection H as <-. apply IHr1 in H1. destruct H1 as (s' & g' & ? & ?).
      exists s', g'. auto.
    + apply IHr2 in H. destruct H as (s' & g' & ? & ?). exists s', g'. auto.
  - apply IHr in H. destruct H as (s' & g1 & H1 & H).
    eexists s', _. split; [exists g1; split; [exact H1 | reflexivity] | exact H].
  - destruct (Re.exec r s0 g (fun _ g' => Some g')) as [g1|] eqn:H1; [|discriminate].
    apply IHr in H1. destruct H1 as (s1 & g1' & H1 & E). injection E as ->.
    exists s0, g1. split; [split; [reflexivity | exists s1; exact H1] | exact H].
  - destruct (Re.at_eos s0) eqn:He; [|discriminate].
    exists s0, g. auto.
Qed.

Lemma match_here_sound (r : Re.regex) (s s' : text) (g : Re.groups) :
  Re.match_here r s = Some (s', g) -> Re.matches r s [] s' g.
Proof.
  unfold Re.match_here. intros H. apply exec_sound in H.
  destruct H as (s1 & g1 & H & E). now injection E as <- <-.
Qed.

(** ** The matcher: which match it finds *)

Lemma rep_greedy_maximal (A : Type) (p : Re.charset) (k : text -> option A)
      (run rest : text) (a : A) :
  forallb p run = true ->
  match rest with [] => True | c :: _ => p c = false end ->
  k rest = Some a ->
  forall min, (min <= length run)%nat ->
    Re.rep_greedy p k min (run ++ rest) = Some a.
Proof.
  intros Hrun Hrest Hk. induction run as [|x run IH]; intros min Hmin.
  - simpl in *. assert (min = 0)%nat as -> by lia.
    destruct rest as [|c rest]; simpl; [exact Hk|]. now rewrite Hrest.
  - simpl in Hrun. apply andb_prop in Hrun. destruct Hrun as [Hx Hrun].
    simpl. rewrite Hx, (IH Hrun); [reflexivity | simpl in Hmin; lia].
Qed.

Lemma rep_lazy_unfold (A : Type) (p : Re.charset) (k : text -> option A)
      (s : text) :
  Re.rep_lazy p k 0 s =
  match k s with
  | Some a => Some a
  | None =>
    match s with
    | x :: s' => if p x then Re.rep_lazy p k 0 s' else None
    | [] => None
    end
  end.
Proof. destruct s; reflexivity. Qed.

Lemma rep_lazy_first (A : Type) (p : Re.charset) (k : text -> option A)
      (pre suf : text) (a : A) :
  forallb p pre = true ->
  k suf = Some a ->
  forall min, (min <= length pre)%nat ->
    (forall j, (min <= j < length pre)%nat ->
               k (skipn j (pre ++ suf)) = None) ->
    Re.rep_lazy p k min (pre ++ suf) = Some a.
Proof.
  intros Hp Hk. induction pre as [|x pre IH]; intros min Hmin Hnone.
  - simpl in Hmin. assert (min = 0)%nat as -> by lia.
    simpl app. rewrite rep_lazy_unfold, Hk. reflexivity.
  - simpl in Hp. apply andb_prop in Hp. destruct Hp as [Hx Hp].
    assert (Hrec : Re.rep_lazy p k (pred min) (pre ++ suf) = Some a).
    { apply (IH Hp); [simpl in Hmin; lia|].
      intros j Hj. apply (Hnone (S j)). simpl. lia. }
    destruct min as [|m].
    + change ((x :: pre) ++ suf) with (x :: pre ++ suf).
      rewrite rep_lazy_unfold.
      assert (H0 := Hnone 0%nat ltac:(simpl; lia)).
      change (skipn 0 ((x :: pre) ++ suf)) with (x :: pre ++ suf) in H0.
      now rewrite H0, Hx.
    + simpl. now rewrite Hx.
Qed.

(** [re.search] passes over the positions that have no match. *)
Lemma search_from_skip (r : Re.regex) (s : text) (pre : text) :
  forall pos,
  (forall i, (i < length pre)%nat -> Re.occurs_at r (pre ++ s) i = false) ->
  Re.search_from r pos (pre ++ s) = Re.search_from r (pos + length pre) s.
Proof.
  induction pre as [|x pre IH]; intros pos H; simpl.
  - now rewrite Nat.add_0_r.
  - assert (H0 := H 0%nat ltac:(simpl; lia)).
    unfold Re.occurs_at in H0. simpl in H0.
    destruct (Re.match_here r (x :: pre ++ s)); [discriminate|].
    rewrite IH.
    + f_equal. lia.
    + intros i Hi. apply (H (S i)). simpl. lia.
Qed.

Lemma search_from_here (r : Re.regex) (s s' : text) (g : Re.groups) (pos : nat) :
  Re.match_here r s = Some (s', g) ->
  Re.search_from r pos s = Some (Re.mk pos s s' g).
Proof. intros H. destruct s; cbn [Re.search_from]; rewrite H; reflexivity. Qed.

(** ** [re.finditer]: which matches it yields *)

Lemma match_from_shift (r : Re.regex) (x : codepoint) (t : text)
      (pos : nat) (m : Re.match_obj) :
  (S pos <= Re.m_start m)%nat ->
  match_from r t (S pos) m -> match_from r (x :: t) pos m.
Proof.
  unfold match_from. intros Hle (Hlen & s' & Hm & He).
  replace (Re.m_start m - pos)%nat with (S (Re.m_start m - S pos)) by lia.
  simpl. split; [lia|]. exists s'. split; assumption.
Qed.

Lemma match_from_here (r : Re.regex) (s s' : text) (g : Re.groups) (pos : nat) :
  Re.match_here r s = Some (s', g) -> match_from r s pos (Re.mk pos s s' g).
Proof.
  intros Hm. unfold match_from, Re.mk. simpl.
  replace (pos - pos)%nat with 0%nat by lia. simpl.
  split; [lia|]. exists s'. split; [assumption | reflexivity].
Qed.

(** The scan from position [pos] of a text whose rest is [s]: every match
    is the engine's match at its start, the matches come in order without
    overlap, and a position that has a match and was not passed over
    either starts a yielded match or lies inside one. *)
Lemma finditer_from_spec (r : Re.regex) (s : text) :
  forall (pos skip : nat),
  let ms := Re.finditer_from r pos skip s in
  Forall (fun m => (pos + skip <= Re.m_start m)%nat /\ match_from r s pos m) ms
  /\ StronglySorted follows ms
  /\ (forall i, (skip <= i <= length s)%nat ->
        Re.occurs_at r s i = true ->
        Exists (fun m => Re.m_start m = (pos + i)%nat \/
                         (Re.m_start m < pos + i < Re.m_end m)%nat) ms).
Proof.
  induction s as [|x t IH]; intros pos skip ms; subst ms.
  - destruct skip as [|n]; simpl.
    + destruct (Re.match_here r []) as [[s' g]|] eqn:Hm.
      * repeat split.
        -- constructor; [|constructor]. simpl. split; [lia|].
           now apply match_from_here.
        -- constructor; constructor.
        -- intros i Hi _. constructor. left. simpl. lia.
      * repeat split; try constructor.
        intros i Hi Ho. assert (i = 0)%nat as -> by lia.
        unfold Re.occurs_at in Ho. simpl in Ho. now rewrite Hm in Ho.
    + repeat split; try constructor. intros i Hi. lia.
  - destruct skip as [|n]; simpl.
    + destruct (Re.match_here r (x :: t)) as [[s' g]|] eqn:Hm.
      * destruct (IH (S pos) (pred (length (x :: t) - length s')))
          as (H1 & H2 & H3).
        repeat split.
        -- constructor.
           ++ simpl. split; [lia|]. now apply match_from_here.
           ++ eapply Forall_impl; [|exact H1]. intros m (Hs & Hat).
              split; [lia|]. apply match_from_shift; [lia | assumption].
        -- constructor; [assumption|].
           eapply Forall_impl; [|exact H1]. intros m (Hs & _).
           unfold follows. simpl in *. lia.
        -- intros i Hi Ho. destruct i as [|i].
           ++ apply Exists_cons_hd. left. simpl. lia.
           ++ destruct (Nat.le_gt_cases
                          (pred (length (x :: t) - length s')) i) as [Hge|Hlt].
              ** apply Exists_cons_tl.
                 replace (pos + S i)%nat with (S pos + i)%nat by lia.
                 apply H3; [simpl in Hi; lia | exact Ho].
              ** apply Exists_cons_hd. right. simpl in *. lia.
      * destruct (IH (S pos) 0%nat) as (H1 & H2 & H3).
        repeat split.
        -- eapply Forall_impl; [|exact H1]. intros m (Hs & Hat).
           split; [lia|]. apply match_from_shift; [lia | assumption].
        -- assumption.
        -- intros i Hi Ho. destruct i as [|i].
           ++ unfold Re.occurs_at in Ho. simpl in Ho. now rewrite Hm in Ho.
           ++ replace (pos + S i)%nat with (S pos + i)%nat by lia.
              apply H3; [simpl in Hi; lia | exact Ho].
    + destruct (IH (S pos) n) as (H1 & H2 & H3).
      repeat split.
      * eapply Forall_impl; [|exact H1]. intros m (Hs & Hat).
        split; [lia|]. apply match_from_shift; [lia | assumption].
      * assumption.
      * intros i Hi Ho. destruct i as [|i]; [lia|].
        replace (pos + S i)%nat with (S pos + i)%nat by lia.
        apply H3; [simpl in Hi; lia | exact Ho].
Qed.

(** [re.finditer] on a whole text. *)
Lemma finditer_spec (r : Re.regex) (s : text) :
  Forall (is_match_at r s) (Re.finditer r s)
  /\ StronglySorted follows (Re.finditer r s)
  /\ (forall i, (i <= length s)%nat -> Re.occurs_at r s i = true ->
        Exists (fun m => Re.m_start m = i \/
                         (Re.m_start m < i < Re.m_end m)%nat)
               (Re.finditer r s)).
Proof.
  destruct (finditer_from_spec r s 0 0) as (H1 & H2 & H3).
  repeat split.
  - eapply Forall_impl; [|exact H1]. intros m (_ & H).
    unfold is_match_at. unfold match_from in H.
    now rewrite Nat.sub_0_r in H.
  - exact H2.
  - intros i Hi Ho. apply (H3 i); [lia | exact Ho].
Qed.

(** A match splits the text: what precedes it, what it consumed, what
    follows it. *)
Lemma is_match_at_split (r : Re.regex) (md : text) (m : Re.match_obj) :
  is_match_at r md m ->
  Re.matches r (skipn (Re.m_start m) md) [] (skipn (Re.m_end m) md)
             (Re.m_groups m)
  /\ (Re.m_start m <= Re.m_end m <= length md)%nat.
Proof.
  intros (Hlen & s' & Hm & He). apply match_here_sound in Hm.
  destruct (matches_suffix _ _ _ _ _ Hm) as (pre & Hpre).
  assert (Hs : skipn (Re.m_end m) md = s').
  { rewrite He, Nat.add_comm, <- skipn_skipn, Hpre. apply skipn_consumed. }
  rewrite Hs. split; [exact Hm|].
  assert (L : length (skipn (Re.m_start m) md) = (length md - Re.m_start m)%nat)
    by apply length_skipn.
  rewrite Hpre, length_app in L. rewrite Hpre, length_app in He. lia.
Qed.

(** ** The matcher consults the character sets on the text only *)

Section Ext.
Variable P : codepoint -> Prop.

Lemma strip_prefix_Forall (l : text) : forall s s',
  Re.strip_prefix l s = Some s' -> Forall P s -> Forall P s'.
Proof.
  induction l as [|c l IH]; simpl; intros s s' H F.
  - now injection H as <-.
  - destruct s as [|x s]; [discriminate|].
    destruct (x =? c)%N; [|discriminate].
    inversion F; subst. eauto.
Qed.

Lemma rep_greedy_ext (A : Type) (p q : Re.charset) (k k' : text -> option A) :
  (forall c, P c -> p c = q c) ->
  forall s, Forall P s ->
  (forall s', Forall P s' -> k s' = k' s') ->
  forall min, Re.rep_greedy p k min s = Re.rep_greedy q k' min s.
Proof.
  intros Hpq s F. induction F as [|x s Px F IH]; intros Hk min; simpl.
  - destruct min; [apply Hk; constructor | reflexivity].
  - rewrite <- (Hpq x Px), (IH Hk).
    rewrite (Hk (x :: s)) by (constructor; assumption). reflexivity.
Qed.

Lemma rep_lazy_ext (A : Type) (p q : Re.charset) (k k' : text -> option A) :
  (forall c, P c -> p c = q c) ->
  forall s, Forall P s ->
  (forall s', Forall P s' -> k s' = k' s') ->
  forall min, Re.rep_lazy p k min s = Re.rep_lazy q k' min s.
Proof.
  intros Hpq s F. induction F as [|x s Px F IH]; intros Hk min; simpl.
  - rewrite (Hk []) by constructor. reflexivity.
  - rewrite <- (Hpq x Px), (IH Hk).
    rewrite (Hk (x :: s)) by (constructor; assumption). reflexivity.
Qed.

Lemma exec_ext (r : Re.regex) : forall (r' : Re.regex),
  regex_agree P r r' ->
  forall (A : Type) (txt : text) (g : Re.groups)
         (k k' : text -> Re.groups -> option A),
  Forall P txt ->
  (forall s' g', Forall P s' -> k s' g' = k' s' g') ->
  Re.exec r txt g k = Re.exec r' txt g k'.
Proof.
  induction r as [l|b n p|a IHa b IHb|a IHa b IHb|n a IHa|a IHa|];
    intros r' Hr;
    destruct r' as [l'|b' n' p'|a' b'|a' b'|n' a'|a'|];
    simpl in Hr; try contradiction;
    intros A txt g k k' F Hk; simpl.
  - subst. destruct (Re.strip_prefix l' txt) as [s'|] eqn:E; [|reflexivity].
    apply Hk. eapply strip_prefix_Forall; eauto.
  - destruct Hr as (<- & <- & Hp). destruct b.
    + apply rep_greedy_ext; auto.
    + apply rep_lazy_ext; auto.
  - destruct Hr as [H1 H2]. apply IHa; auto.
  - destruct Hr as [H1 H2].
    rewrite (IHa _ H1 A txt g k k' F Hk), (IHb _ H2 A txt g k k' F Hk).
    reflexivity.
  - destruct Hr as [<- H1]. apply IHa; auto.
  - rewrite (IHa _ Hr _ txt g (fun _ g' => Some g') (fun _ g' => Some g') F)
      by reflexivity.
    destruct (Re.exec a' txt g (fun _ g' => Some g')); auto.
  - destruct (Re.at_eos txt); auto.
Qed.

Lemma match_here_ext (r r' : Re.regex) (s : text) :
  regex_agree P r r' -> Forall P s -> Re.match_here r s = Re.match_here r' s.
Proof. intros Hr F. unfold Re.match_here. apply exec_ext; auto. Qed.

Lemma search_from_ext (r r' : Re.regex) (s : text) :
  regex_agree P r r' -> Forall P s ->
  forall pos, Re.search_from r pos s = Re.search_from r' pos s.
Proof.
  intros Hr F. induction F as [|x s Px F IH]; intros pos; simpl.
  - rewrite (@match_here_ext r r' [] Hr) by constructor. reflexivity.
  - rewrite (@match_here_ext r r' (x :: s) Hr) by (constructor; assumption).
    rewrite IH. reflexivity.
Qed.

Lemma finditer_from_ext (r r' : Re.regex) (s : text) :
  regex_agree P r r' -> Forall P s ->
  forall pos skip, Re.finditer_from r pos skip s = Re.finditer_from r' pos skip s.
Proof.
  intros Hr F. induction F as [|x s Px F IH]; intros pos skip; simpl.
  - rewrite (@match_here_ext r r' [] Hr) by constructor. reflexivity.
  - rewrite (@match_here_ext r r' (x :: s) Hr) by (constructor; assumption).
    destruct skip; [|apply IH].
    destruct (Re.match_here r' (x :: s)) as [[s' g]|]; rewrite ?IH; reflexivity.
Qed.

End Ext.

(** ** On ASCII text the library tables do not matter *)

Lemma Forall_is_ascii_dec (s : text) :
  forallb (fun c => (c <? 128)%N) s = true -> Forall is_ascii s.
Proof.
  intros H. apply Forall_forall. intros c Hc.
  rewrite forallb_forall in H. apply H in Hc. now apply N.ltb_lt in Hc.
Qed.

Lemma not_hebrew_ascii (c : codepoint) :
  is_ascii c -> Sample.is_hebrew_letter c = false.
Proof.
  unfold is_ascii, Sample.is_hebrew_letter, Utf8.between. intros H.
  destruct (N.leb_spec 1488 c); [lia | reflexivity].
Qed.

Section Ascii.
Context {R : Runtime}.
Hypothesis tables : ascii_tables R.

Lemma word_ascii (c : codepoint) :
  is_ascii c -> word c = word (R := Sample.runtime) c.
Proof.
  intros H. unfold word. simpl. destruct (tables H) as [-> _].
  now rewrite (not_hebrew_ascii H), orb_false_r.
Qed.

Lemma isdecimal_ascii (c : codepoint) :
  is_ascii c -> isdecimal c = isdecimal (Runtime := Sample.runtime) c.
Proof. intros H. destruct (tables H) as [_ ->]. reflexivity. Qed.

Lemma step_pattern_ascii :
  regex_agree is_ascii step_pattern (step_pattern (R := Sample.runtime)).
Proof.
  unfold step_pattern. cbn [regex_agree].
  repeat split; intros c Hc; try reflexivity.
  - unfold digit_or_dot. now rewrite (isdecimal_ascii Hc).
  - now apply word_ascii.
Qed.

Lemma title_pattern_ascii :
  regex_agree is_ascii title_pattern (title_pattern (R := Sample.runtime)).
Proof.
  unfold title_pattern. cbn [regex_agree].
  repeat split. intros c Hc. now apply word_ascii.
Qed.

Lemma finditer_steps_ascii (md : text) :
  Forall is_ascii md ->
  Re.finditer step_pattern md
  = Re.finditer (step_pattern (R := Sample.runtime)) md.
Proof.
  intros F. unfold Re.finditer.
  now apply finditer_from_ext with (P := is_ascii); [apply step_pattern_ascii|].
Qed.

Lemma search_title_ascii (md : text) :
  Forall is_ascii md ->
  Re.search title_pattern md
  = Re.search (title_pattern (R := Sample.runtime)) md.
Proof.
  intros F. unfold Re.search.
  now apply search_from_ext with (P := is_ascii); [apply title_pattern_ascii|].
Qed.

Lemma forallb_isdecimal_ascii (s : text) :
  Forall is_ascii s ->
  forallb isdecimal s = forallb (isdecimal (Runtime := Sample.runtime)) s.
Proof.
  induction 1 as [|c s Hc F IH]; simpl; [reflexivity|].
  now rewrite IH, (isdecimal_ascii Hc).
Qed.

Lemma Forall_filter (A : Type) (P : A -> Prop) (f : A -> bool) (l : list A) :
  Forall P l -> Forall P (filter f l).
Proof.
  induction 1 as [|x l Hx F IH]; simpl; [constructor|].
  destruct (f x); [constructor|]; assumption.
Qed.

Lemma decimal_literal_ascii (s : text) :
  Forall is_ascii s ->
  decimal_literal s = decimal_literal (R := Sample.runtime) s.
Proof.
  intros F. unfold decimal_literal.
  rewrite (forallb_isdecimal_ascii (Forall_filter _ F)). reflexivity.
Qed.

End Ascii.

Lemma sample_ascii_tables : ascii_tables Sample.runtime.
Proof.
  intros c Hc. simpl. split; [|reflexivity].
  now rewrite (not_hebrew_ascii Hc), orb_false_r.
Qed.

Lemma decode_ascii (bs : list N) :
  Forall (fun b => (b < 128)%N) bs -> Utf8.decode bs = Some bs.
Proof.
  induction 1 as [|b bs Hb F IH]; simpl; [reflexivity|].
  apply N.ltb_lt in Hb. now rewrite Hb, IH.
Qed.

Lemma universal_newlines_no_cr (s : text) :
  Forall (fun c => c <> CR) s -> universal_newlines s = s.
Proof.
  induction 1 as [|c s Hc F IH]; simpl; [reflexivity|].
  apply N.eqb_neq in Hc. now rewrite Hc, IH.
Qed.

(** ** [str.strip] *)

Lemma lstrip_spec (s : text) :
  exists a, s = a ++ lstrip s /\ forallb isspace a = true
            /\ match lstrip s with [] => True | c :: _ => isspace c = false end.
Proof.
  induction s as [|c s IH]; simpl.
  - exists []. auto.
  - destruct (isspace c) eqn:Hc.
    + destruct IH as (a & Ha & Hs & Hh). exists (c :: a). simpl.
      rewrite Hc, Hs. repeat split; [congruence | assumption].
    + exists []. simpl. auto.
Qed.

(** [strip] removes a run of whitespace at each end and leaves a text
    that neither starts nor ends with whitespace. *)
Theorem strip_spec :
  forall s : text,
    exists a b : text,
      s = a ++ strip s ++ b
      /\ forallb isspace a = true /\ forallb isspace b = true
      /\ match strip s with [] => True | c :: _ => isspace c = false end
      /\ match rev (strip s) with [] => True | c :: _ => isspace c = false end.
Proof.
  intros s. unfold strip, rstrip.
  destruct (lstrip_spec s) as (a & Ha & Hsa & Hha).
  destruct (lstrip_spec (rev (lstrip s))) as (b & Hb & Hsb & Hhb).
  exists a, (rev b).
  assert (E : lstrip s = rev (lstrip (rev (lstrip s))) ++ rev b).
  { rewrite <- rev_app_distr, <- Hb. now rewrite rev_involutive. }
  repeat split.
  - rewrite <- E. exact Ha.
  - exact Hsa.
  - now rewrite forallb_rev.
  - destruct (rev (lstrip (rev (lstrip s)))) as [|c t] eqn:Et; [exact I|].
    rewrite E in Hha. exact Hha.
  - rewrite rev_involutive. exact Hhb.
Qed.

(** ** The extractor *)

Section Extract.
Context {R : Runtime}.

Lemma extract_Ok (md : text) (r : info float) :
  extract_test_info md = Ok r ->
  exists sts,
    collect_steps (Re.finditer step_pattern md) = Ok sts
    /\ steps r = Some sts
    /\ total_duration r = Some (total_of sts)
    /\ name r = option_map (Re.group 1) (Re.search title_pattern md)
    /\ name_heb r =
       option_map (fun m => get_default TEST_NAMES_HEB (Re.group 1 m)
                                        (Re.group 1 m))
                  (Re.search title_pattern md)
    /\ activity_details r = extract_activity_details md
    /\ final_output r = extract_final_output md.
Proof.
  unfold extract_test_info. intros H. apply rbind_Ok in H.
  destruct H as (sts & Hc & E). injection E as <-. exists sts. simpl.
  repeat split; auto.
Qed.

Lemma step_of_match_Ok (m : Re.match_obj) (st : Step.t float) :
  step_of_match m = Ok st -> step_from m st.
Proof.
  unfold step_of_match, py_float, step_from. intros H.
  destruct (decimal_literal (Re.group 2 m)); [|discriminate].
  simpl in H. injection H as <-. simpl. auto.
Qed.

Lemma collect_steps_Ok (ms : list Re.match_obj) :
  forall sts, collect_steps ms = Ok sts -> Forall2 step_from ms sts.
Proof.
  induction ms as [|m ms IH]; simpl; intros sts H.
  - injection H as <-. constructor.
  - apply rbind_Ok in H. destruct H as (st & Hst & H).
    apply rbind_Ok in H. destruct H as (sts' & Hrec & E).
    injection E as <-. constructor; [now apply step_of_match_Ok | auto].
Qed.

Lemma fold_py_add_floats (ds : list float) : forall acc : float,
  fold_left py_add (map PyFloat ds) (PyFloat acc)
  = PyFloat (fold_left float_add ds acc).
Proof. induction ds as [|d ds IH]; intros acc; simpl; [reflexivity | apply IH]. Qed.

Lemma py_sum_floats (d : float) (ds : list float) :
  py_sum (map PyFloat (d :: ds)) = PyFloat (float_sum (d :: ds)).
Proof. unfold py_sum, float_sum. simpl. apply fold_py_add_floats. Qed.

Lemma total_of_spec (sts : list (Step.t float)) :
  total_of sts =
  match sts with
  | [] => PyInt 0
  | _ :: _ => PyFloat (float_sum (map Step.duration sts))
  end.
Proof.
  destruct sts as [|st sts]; [reflexivity|]. unfold total_of.
  rewrite <- map_map with (f := Step.duration) (g := PyFloat).
  simpl map at 2. apply py_sum_floats.
Qed.

End Extract.

Section Shape.
Context {R : Runtime}.

Lemma step_match_shape (md : text) (m : Re.match_obj) :
  is_match_at step_pattern md m -> spans_step md m.
Proof.
  intros H. apply is_match_at_split in H. destruct H as [H _].
  unfold spans_step, Re.group.
  pose proof (firstn_skipn (Re.m_start m) md) as Hmd.
  set (s := skipn (Re.m_start m) md) in *.
  set (s' := skipn (Re.m_end m) md) in *.
  unfold step_pattern in H. cbn [Re.matches] in H.
  destruct H as (s1 & g1 & [E1 ->] & s2 & g2 & (g1' & (nm & E2 & _ & L2 & ->) & ->)
                 & s3 & g3 & [E3 ->] & s4 & g4 & (gap1 & E4 & _ & _ & ->)
                 & s5 & g5 & [E5 ->] & s6 & g6
                 & (g5' & (dur & E6 & D6 & L6 & ->) & ->)
                 & s7 & g7 & [E7 ->] & s8 & g8 & (gap2 & E8 & _ & _ & ->)
                 & s9 & g9 & [E9 ->] & g9' & (st & E10 & D10 & L10 & ->) & Hg).
  rewrite Hg. cbn [Re.lookup Nat.eqb].
  rewrite E10, E6, E2, !firstn_consumed.
  exists gap1, gap2. unfold step_text.
  repeat split; auto.
  - rewrite <- Hmd at 1. f_equal.
    rewrite E1, E2, E3, E4, E5, E6, E7, E8, E9, E10.
    now rewrite <- !app_assoc.
  - intros ->. simpl in L2. lia.
  - intros ->. simpl in L6. lia.
  - intros ->. simpl in L10. lia.
Qed.

End Shape.

Section Raises.
Context {R : Runtime}.

Lemma step_of_match_cases (m : Re.match_obj) :
  (decimal_literal (Re.group 2 m) = true /\ exists st, step_of_match m = Ok st)
  \/ (decimal_literal (Re.group 2 m) = false
      /\ step_of_match m = Raise ValueError).
Proof.
  unfold step_of_match, py_float.
  destruct (decimal_literal (Re.group 2 m)); simpl; eauto.
Qed.

Lemma collect_steps_cases (ms : list Re.match_obj) :
  (Forall (fun m => decimal_literal (Re.group 2 m) = true) ms
   /\ exists sts, collect_steps ms = Ok sts)
  \/ (Exists (fun m => decimal_literal (Re.group 2 m) = false) ms
      /\ collect_steps ms = Raise ValueError).
Proof.
  induction ms as [|m ms IH]; simpl.
  - left. split; [constructor | eauto].
  - destruct (step_of_match_cases m) as [(Hd & st & ->)|(Hd & ->)]; simpl.
    + destruct IH as [(F & sts & ->)|(E & ->)]; simpl.
      * left. split; [constructor; assumption | eauto].
      * right. split; [apply Exists_cons_tl; assumption | reflexivity].
    + right. split; [apply Exists_cons_hd; assumption | reflexivity].
Qed.

End Raises.

Section Title.
Context {R : Runtime}.

Lemma title_match_here (tok rest : text) :
  tok <> [] -> forallb word tok = true ->
  match rest with [] => True | c :: _ => word c = false end ->
  Re.match_here title_pattern (lit "# E2E Test Report: " ++ tok ++ rest)
  = Some (rest, [(1%nat, tok)]).
Proof.
  intros Hne Hw Hrest. unfold Re.match_here, title_pattern.
  cbn [Re.exec]. rewrite strip_prefix_app.
  apply rep_greedy_maximal; auto.
  - now rewrite firstn_consumed.
  - destruct tok; [contradiction | simpl; lia].
Qed.

Lemma title_search (pre tok rest : text) :
  tok <> [] -> forallb word tok = true ->
  match rest with [] => True | c :: _ => word c = false end ->
  (forall i, (i < length pre)%nat ->
     Re.occurs_at title_pattern
                  (pre ++ lit "# E2E Test Report: " ++ tok ++ rest) i = false) ->
  option_map (Re.group 1)
    (Re.search title_pattern (pre ++ lit "# E2E Test Report: " ++ tok ++ rest))
  = Some tok.
Proof.
  intros Hne Hw Hrest Hfirst. unfold Re.search.
  rewrite search_from_skip by exact Hfirst.
  erewrite search_from_here by (apply title_match_here; assumption).
  unfold Re.group. reflexivity.
Qed.

End Title.

Lemma space_or_not_all (s : text) : forallb space_or_not s = true.
Proof.
  induction s as [|c s IH]; simpl; [reflexivity|].
  unfold space_or_not at 1. now rewrite orb_negb_r.
Qed.

Lemma ahead_ends_section (A : Type) (s : text) (g : Re.groups)
      (k : text -> Re.groups -> option A) :
  Re.exec (Re.Ahead (Re.Alt (Re.Lit (lit "\n## ")) Re.Eos)) s g k
  = if ends_section s then k s g else None.
Proof.
  cbn [Re.exec]. unfold ends_section.
  destruct (Re.strip_prefix (lit "\n## ") s); [reflexivity|].
  destruct (Re.at_eos s); reflexivity.
Qed.

Lemma fenced_match_here (body post : text) :
  body <> [] ->
  (forall j, (1 <= j < length body)%nat ->
             at_fence (skipn j (body ++ lit "```" ++ post)) = false) ->
  Re.match_here final_output_pattern
    (lit "## Final Output\n\n```markdown\n" ++ body ++ lit "```" ++ post)
  = Some (post, [(1%nat, body)]).
Proof.
  intros Hne Hnone. unfold Re.match_here, final_output_pattern.
  cbn [Re.exec]. rewrite strip_prefix_app.
  apply rep_lazy_first.
  - apply space_or_not_all.
  - rewrite strip_prefix_app. now rewrite firstn_consumed.
  - destruct body; [contradiction | simpl; lia].
  - intros j Hj. specialize (Hnone j Hj). unfold at_fence in Hnone.
    destruct (Re.strip_prefix (lit "```") (skipn j (body ++ lit "```" ++ post)));
      [discriminate | reflexivity].
Qed.

Lemma fallback_match_here (body post : text) :
  body <> [] ->
  ends_section post = true ->
  (forall j, (1 <= j < length body)%nat ->
             ends_section (skipn j (body ++ post)) = false) ->
  Re.match_here final_output_fallback
    (lit "## Final Output\n\n" ++ body ++ post)
  = Some (post, [(1%nat, body)]).
Proof.
  intros Hne Hend Hnone. unfold Re.match_here, final_output_fallback.
  cbn [Re.exec]. rewrite strip_prefix_app.
  change (Re.rep_lazy space_or_not
            (fun s' =>
               Re.exec (Re.Ahead (Re.Alt (Re.Lit (lit "\n## ")) Re.Eos)) s'
                 [(1%nat, firstn (length (body ++ post) - length s')
                                 (body ++ post))]
                 (fun s'' g => Some (s'', g)))
            1 (body ++ post) = Some (post, [(1%nat, body)])).
  apply rep_lazy_first.
  - apply space_or_not_all.
  - rewrite ahead_ends_section, Hend. now rewrite firstn_consumed.
  - destruct body; [contradiction | simpl; lia].
  - intros j Hj. rewrite ahead_ends_section. now rewrite (Hnone j Hj).
Qed.

(** ** The renderer *)

Lemma format_html_template (title content date : text) :
  py_format HTML_TEMPLATE
    [(lit "title", title); (lit "content", content); (lit "date", date)]
  = Ok (html_page title content date).
Proof. lazy. reflexivity. Qed.

Section Render.
Context {R : Runtime}.

Lemma generate_index_html_Ok (tests : list (info float)) (w w' : world)
      (page : text) :
  generate_index_html tests w = (Ok page, w') ->
  exists content,
    index_content tests = Ok content
    /\ page = html_page INDEX_TITLE content
                        (strftime_dmy (now_at w (ticks w)))
    /\ w' = ticked w.
Proof.
  unfold generate_index_html, bind, lift, now. intros H.
  destruct (index_content tests) as [content|e]; [|discriminate].
  rewrite format_html_template in H.
  apply pair_equal_spec in H. destruct H as [Hp <-].
  exists content. repeat split. congruence.
Qed.

Lemma index_content_Ok (tests : list (info float)) (content : text) :
  index_content tests = Ok content ->
  exists tests_html,
    content =
    index_template
      (stats_html (len tests) (count_passed tests)
                  (len tests - count_passed tests)
                  (py_sum (map get_total_duration tests)))
      tests_html.
Proof.
  unfold index_content. intros H. apply rbind_Ok in H.
  destruct H as (rows & _ & E). injection E as <-. eauto.
Qed.

Lemma generate_test_html_Ok (test : info float) (md : text) (w w' : world)
      (page : text) :
  generate_test_html test md w = (Ok page, w') ->
  exists content,
    test_content test = Ok content
    /\ page = html_page (display_name test) content
                        (strftime_dmy (now_at w (ticks w)))
    /\ w' = ticked w.
Proof.
  unfold generate_test_html, bind, lift, now. intros H.
  destruct (test_content test) as [content|e]; [|discriminate].
  rewrite format_html_template in H.
  apply pair_equal_spec in H. destruct H as [Hp <-].
  exists content. repeat split. congruence.
Qed.

Lemma test_content_Ok (test : info float) (content : text) :
  test_content test = Ok content ->
  exists ty ag du to va cl,
    content =
    test_template
      (display_name test)
      (match user_request test with Some s => s | None => lit "" end)
      ty ag du to va cl
      (steps_html test) (minutes (get_total_duration test))
      (final_output_html test).
Proof.
  unfold test_content. intros H.
  repeat (apply rbind_Ok in H; destruct H as (? & _ & H)).
  injection H as <-. eauto 10.
Qed.

Lemma steps_html_rows (test : info float) :
  steps_html test
  = STEPS_TABLE_HEAD ++ concat (map step_row (get_steps test))
    ++ lit "</tbody></table>".
Proof. unfold steps_html. now rewrite fold_left_app_concat, app_assoc. Qed.

End Render.

Section Rows.
Context {R : Runtime}.

Lemma final_output_html_cases (test : info float) :
  ((final_output test = None \/ final_output test = Some []) ->
   final_output_html test = lit "<p>לא נמצא פלט סופי</p>")
  /\ (forall s, final_output test = Some s -> s <> [] ->
        (markdown s = None ->
         final_output_html test = lit "<pre>" ++ s ++ lit "</pre>")
        /\ (forall html, markdown s = Some html ->
              final_output_html test = html)).
Proof.
  unfold final_output_html. split.
  - intros [-> | ->]; reflexivity.
  - intros s -> Hs. destruct s as [|c s]; [contradiction|].
    split; [intros -> | intros html ->]; reflexivity.
Qed.

End Rows.

(** ** A run: the files it writes, and what it depends on *)

Section Pipeline.
Context {R : Runtime}.

Lemma process_file_Ok (stem : text) (bytes : list byte) (w w' : world)
      (i : info float) :
  process_file (stem, bytes) w = (Ok i, w') ->
  exists md r,
    read_text bytes = Ok md /\ extract_test_info md = Ok r
    /\ i = with_file_and_status r stem md.
Proof.
  unfold process_file, bind, lift, ret. intros H.
  destruct (read_text bytes) as [md|e]; [|discriminate].
  destruct (extract_test_info md) as [r|e] eqn:Hex; [|discriminate].
  exists md, r.
  destruct (generate_test_html (with_file_and_status r stem md) md w)
    as [[html|e] w1]; [|discriminate].
  unfold write_text in H.
  destruct (existsb is_surrogate html); [discriminate|].
  simpl in H. injection H as <- _. auto.
Qed.

Lemma status_of_cases (md : text) :
  (status_of md = lit "PASS" <-> (10000 < len md)%Z)
  /\ (status_of md = lit "FAIL" <-> (len md <= 10000)%Z).
Proof.
  unfold status_of. destruct (Z.ltb_spec 10000 (len md)); split; split;
    intros; try reflexivity; try lia; discriminate.
Qed.

End Pipeline.

Section Files.
Context {R : Runtime}.

Lemma write_text_Ok (file_name content : text) (w w' : world) :
  write_text file_name content w = (Ok tt, w') ->
  written w' = (file_name, content) :: written w.
Proof.
  unfold write_text. destruct (existsb is_surrogate content);
    [discriminate|]. intros H. now injection H as <-.
Qed.

Lemma process_file_written (stem : text) (bytes : list byte) (w w' : world)
      (i : info float) :
  process_file (stem, bytes) w = (Ok i, w') ->
  map fst (written w') = (stem ++ lit ".html") :: map fst (written w).
Proof.
  unfold process_file, bind, lift, ret. intros H.
  destruct (read_text bytes) as [md|e]; [|discriminate].
  destruct (extract_test_info md) as [r|e]; [|discriminate].
  destruct (generate_test_html (with_file_and_status r stem md) md w)
    as [[html|e] w1] eqn:G; [|discriminate].
  apply generate_test_html_Ok in G. destruct G as (_ & _ & _ & ->).
  destruct (write_text (stem ++ lit ".html") html (ticked w))
    as [[[]|e] w2] eqn:W; [|discriminate].
  simpl in H. apply pair_equal_spec in H. destruct H as [_ <-].
  now rewrite (write_text_Ok _ _ _ W).
Qed.

Lemma process_files_written (test_files : list (text * list byte)) :
  forall (tests tests' : list (info float)) (w w' : world),
    process_files tests test_files w = (Ok tests', w') ->
    map fst (written w')
    = rev (map (fun f => fst f ++ lit ".html") test_files)
      ++ map fst (written w)
    /\ length tests' = (length tests + length test_files)%nat.
Proof.
  induction test_files as [|[stem bytes] rest IH]; intros tests tests' w w' H.
  - simpl in H. unfold ret in H. injection H as <- <-. simpl.
    split; [reflexivity | lia].
  - cbn [process_files] in H. unfold bind in H.
    destruct (process_file (stem, bytes) w) as [[i|e] w1] eqn:P;
      [|discriminate].
    apply IH in H. destruct H as [Hw Hl].
    rewrite Hw, (process_file_written _ _ _ P). simpl.
    rewrite <- app_assoc. simpl. split; [reflexivity|].
    rewrite Hl, length_app. simpl. lia.
Qed.

End Files.

Section Determinism.
Context {R : Runtime}.

Lemma same_world_ticked (w1 w2 : world) :
  same_world w1 w2 -> same_world (ticked w1) (ticked w2).
Proof.
  intros [Hw Hd]. split; [exact Hw|]. intros i. simpl.
  rewrite <- !Nat.add_succ_r. apply Hd.
Qed.

Lemma same_world_today (w1 w2 : world) :
  same_world w1 w2 ->
  strftime_dmy (now_at w1 (ticks w1)) = strftime_dmy (now_at w2 (ticks w2)).
Proof. intros [_ Hd]. specialize (Hd 0%nat). now rewrite !Nat.add_0_r in Hd. Qed.

Lemma det_ret (A : Type) (a : A) : date_determined (ret a).
Proof. intros w1 w2 H. simpl. auto. Qed.

Lemma det_lift (A : Type) (r : result A) : date_determined (lift r).
Proof. intros w1 w2 H. simpl. auto. Qed.

Lemma det_bind (A B : Type) (m : M A) (f : A -> M B) :
  date_determined m -> (forall a, date_determined (f a)) ->
  date_determined (bind m f).
Proof.
  intros Hm Hf w1 w2 H. unfold bind. destruct (Hm _ _ H) as [E Hw].
  destruct (m w1) as [[a1|e1] w1'], (m w2) as [[a2|e2] w2'];
    simpl in E, Hw; try discriminate.
  - injection E as <-. now apply Hf.
  - injection E as ->. simpl. split; [reflexivity | exact Hw].
Qed.

Lemma det_write_text (file_name content : text) :
  date_determined (write_text file_name content).
Proof.
  intros w1 w2 [Hw Hd]. unfold write_text.
  destruct (existsb is_surrogate content); simpl; (split; [reflexivity|]);
    (split; simpl; [now rewrite Hw | exact Hd]).
Qed.

Lemma det_page (title : text) (content : result text) :
  date_determined
    (bind (lift content) (fun c =>
     bind now (fun d =>
     lift (py_format HTML_TEMPLATE
             [(lit "title", title); (lit "content", c);
              (lit "date", strftime_dmy d)])))).
Proof.
  intros w1 w2 H. unfold bind, lift, now.
  destruct content as [c|e]; simpl; [|auto].
  rewrite (same_world_today H). split; [reflexivity|].
  now apply same_world_ticked.
Qed.

Lemma det_generate_test_html (test : info float) (md : text) :
  date_determined (generate_test_html test md).
Proof. apply det_page. Qed.

Lemma det_generate_index_html (tests : list (info float)) :
  date_determined (generate_index_html tests).
Proof. apply det_page. Qed.

Lemma det_process_file (file : text * list byte) :
  date_determined (process_file file).
Proof.
  destruct file as [stem bytes]. unfold process_file.
  apply det_bind; [apply det_lift | intros md].
  apply det_bind; [apply det_lift | intros r].
  apply det_bind; [apply det_generate_test_html | intros html].
  apply det_bind; [apply det_write_text | intros _]. apply det_ret.
Qed.

Lemma det_process_files (test_files : list (text * list byte)) :
  forall tests, date_determined (process_files tests test_files).
Proof.
  induction test_files as [|file rest IH]; intros tests; simpl.
  - apply det_ret.
  - apply det_bind; [apply det_process_file | intros i; apply IH].
Qed.

Lemma det_main (test_files : list (text * list byte)) :
  date_determined (main test_files).
Proof.
  unfold main.
  apply det_bind; [apply det_process_files | intros tests].
  apply det_bind; [apply det_generate_index_html | intros html].
  apply det_write_text.
Qed.

End Determinism.

(** ** The status of a report *)

(** C1, as stated, fails: a file of 12,000 bytes that holds 6,000 Hebrew
    letters is over the threshold in bytes and is marked FAIL. *)
Lemma C1_byte_threshold_counterexample :
  ~ (forall (bs : list byte) (md : text),
        read_text bs = Ok md ->
        (status_of md = lit "PASS" <-> (10000 < len bs)%Z)).
Proof.
  intros H.
  assert (E : read_text hebrew_file = Ok (repeat 1488%N (6 * 1000)))
    by (vm_compute; reflexivity).
  destruct (H _ _ E) as [_ H2].
  assert (L : (10000 < len hebrew_file)%Z) by (vm_compute; reflexivity).
  specialize (H2 L). vm_compute in H2. discriminate H2.
Qed.

(** C1 (amended): the record [main] builds for a file is marked PASS
    exactly when the decoded text of the file, [md_content], has more than
    10,000 characters, and FAIL otherwise. *)
Theorem C1_status_from_text_length :
  forall (R : Runtime) (stem : text) (bytes : list byte) (w w' : world)
         (i : info float),
    process_file (stem, bytes) w = (Ok i, w') ->
    exists md_content,
      read_text bytes = Ok md_content
      /\ (status i = Some (lit "PASS") <-> (10000 < len md_content)%Z)
      /\ (status i = Some (lit "FAIL") <-> (len md_content <= 10000)%Z).
Proof.
  intros R stem bytes w w' i H.
  destruct (process_file_Ok _ _ _ H) as (md & r & Hread & _ & ->).
  exists md. split; [exact Hread|]. simpl.
  destruct (status_of_cases md) as [[P1 P2] [F1 F2]].
  repeat split; intros E.
  - apply P1. congruence.
  - f_equal. auto.
  - apply F1. congruence.
  - f_equal. auto.
Qed.

(** C1, witness: the sample report, a short file, is marked FAIL. *)
Lemma C1_witness :
  exists (i : info Sample.frac) (w' : world),
    process_file (R := Sample.runtime) (lit "test_01", sample_report)
                 (world_at (noon 2025 11 27)) = (Ok i, w')
    /\ exists md_content,
         read_text sample_report = Ok md_content
         /\ (status i = Some (lit "PASS") <-> (10000 < len md_content)%Z)
         /\ (status i = Some (lit "FAIL") <-> (len md_content <= 10000)%Z).
Proof.
  assert (E : exists i w',
             process_file (R := Sample.runtime) (lit "test_01", sample_report)
                          (world_at (noon 2025 11 27)) = (Ok i, w'))
    by evaluation.
  destruct E as (i & w' & E). exists i, w'. split; [exact E|].
  exact (@C1_status_from_text_length Sample.runtime _ _ _ _ _ E).
Defined.

(** ** The total duration and the order of the steps *)

(** C2: the record the extractor returns holds the steps read off the
    successive matches, in the order of their positions in the text, and
    its [total_duration] is the [int] [0] when there is no step and
    otherwise the sum [0 + d1 + ... + dn] of the steps' durations. *)
Theorem C2_total_duration_is_sum_of_steps :
  forall (R : Runtime) (md : text) (r : info float),
    extract_test_info md = Ok r ->
    exists (ms : list Re.match_obj) (sts : list (Step.t float)),
      steps r = Some sts
      /\ total_duration r =
         Some (match sts with
               | [] => PyInt 0
               | _ :: _ => PyFloat (float_sum (map Step.duration sts))
               end)
      /\ Forall2 step_from ms sts
      /\ Forall (is_match_at step_pattern md) ms
      /\ StronglySorted follows ms.
Proof.
  intros R md r H.
  destruct (@extract_Ok R md r H) as (sts & Hc & Hs & Ht & _).
  exists (Re.finditer step_pattern md), sts.
  destruct (finditer_spec step_pattern md) as (F1 & F2 & _).
  repeat split; auto.
  - rewrite Ht. f_equal. apply total_of_spec.
  - now apply collect_steps_Ok.
Qed.

(** C2, witness: the sample report. *)
Lemma C2_witness :
  exists r : info Sample.frac,
    extract_test_info (R := Sample.runtime) sample_text = Ok r
    /\ exists (ms : list Re.match_obj) (sts : list (Step.t Sample.frac)),
      steps r = Some sts
      /\ total_duration r =
         Some (match sts with
               | [] => PyInt 0
               | _ :: _ =>
                 PyFloat (float_sum (R := Sample.runtime)
                                    (map Step.duration sts))
               end)
      /\ Forall2 (step_from (R := Sample.runtime)) ms sts
      /\ Forall (is_match_at (step_pattern (R := Sample.runtime)) sample_text) ms
      /\ StronglySorted follows ms.
Proof.
  assert (E : exists r, extract_test_info (R := Sample.runtime) sample_text = Ok r)
    by evaluation.
  destruct E as [r E]. exists r. split; [exact E|].
  exact (C2_total_duration_is_sum_of_steps Sample.runtime sample_text E).
Defined.

(** ** An exception that leaves the extractor *)

(** C3, the failing input: a step entry whose duration reads [1.2.3].
    The pattern accepts it, [float] does not, and [ValueError] leaves the
    extractor. *)
Theorem C3_malformed_duration_raises :
  forall R : Runtime,
    ascii_tables R -> extract_test_info bad_duration = Raise ValueError.
Proof.
  intros R tables.
  assert (A : Forall is_ascii bad_duration)
    by (apply Forall_is_ascii_dec; vm_compute; reflexivity).
  unfold extract_test_info.
  destruct (collect_steps_cases (Re.finditer step_pattern bad_duration))
    as [(F & _)|(_ & ->)]; [|reflexivity].
  exfalso. rewrite (finditer_steps_ascii tables A) in F.
  assert (M : exists m,
             Re.finditer (step_pattern (R := Sample.runtime)) bad_duration = [m]
             /\ Re.group 2 m = lit "1.2.3")
    by (vm_compute; eexists; split; reflexivity).
  destruct M as (m & Em & Eg). rewrite Em in F.
  apply Forall_inv in F. rewrite Eg in F.
  rewrite (decimal_literal_ascii tables) in F
    by (apply Forall_is_ascii_dec; vm_compute; reflexivity).
  vm_compute in F. discriminate F.
Qed.

(** C3, witness: the sample runtime has the ASCII tables. *)
Lemma C3_witness :
  extract_test_info (R := Sample.runtime) bad_duration = Raise ValueError.
Proof. exact (C3_malformed_duration_raises sample_ascii_tables). Defined.

(** ** Running the pipeline twice *)

(** C4, as stated, fails: the same report processed on two different
    days gives different pages (the footer of every page carries the date
    of the run). *)
Lemma C4_rerun_counterexample :
  ~ (forall (R : Runtime) (test_files : list (text * list byte))
            (w1 w2 : world),
        written w1 = written w2 ->
        pages test_files w1 = pages test_files w2).
Proof.
  intros H.
  specialize (H Sample.runtime [(lit "test_01", sample_report)]
                (world_at (noon 2025 11 27)) (world_at (noon 2025 11 28))
                eq_refl).
  assert (E : text_eqb
                (snd (hd ([], [])
                         (pages (R := Sample.runtime)
                                [(lit "test_01", sample_report)]
                                (world_at (noon 2025 11 27)))))
                (snd (hd ([], [])
                         (pages (R := Sample.runtime)
                                [(lit "test_01", sample_report)]
                                (world_at (noon 2025 11 28)))))
              = true)
    by (rewrite H; apply text_eqb_refl).
  vm_compute in E. discriminate E.
Qed.

(** C4 (amended): the pages a run writes, and whether it ends with an
    exception, are determined by the input files and by the dates (day,
    month, year) the clock gives at its readings: two runs on the same
    files, from the same output directory, in which corresponding
    readings of the clock fall on the same dates, write the same pages. *)
Theorem C4_pages_determined_by_files_and_dates :
  forall (R : Runtime) (test_files : list (text * list byte))
         (w1 w2 : world),
    written w1 = written w2 ->
    same_dates w1 w2 ->
    fst (main test_files w1) = fst (main test_files w2)
    /\ pages test_files w1 = pages test_files w2.
Proof.
  intros R test_files w1 w2 Hw Hd.
  destruct (det_main test_files (conj Hw Hd)) as [E [Ew _]].
  split; [exact E | exact Ew].
Qed.

(** C4, witness: the sample report processed at noon by a stopped clock
    and late in the evening of the same day by a running one. *)
Lemma C4_witness :
  pages (R := Sample.runtime) [(lit "test_01", sample_report)]
        (world_at (noon 2025 11 27))
  = pages (R := Sample.runtime) [(lit "test_01", sample_report)]
          (ticking_from {| year := 2025; month := 11; day := 27;
                           hour := 23; minute := 59; second := 0 |}).
Proof.
  apply (@C4_pages_determined_by_files_and_dates Sample.runtime
           [(lit "test_01", sample_report)]
           (world_at (noon 2025 11 27))
           (ticking_from {| year := 2025; month := 11; day := 27;
                            hour := 23; minute := 59; second := 0 |})).
  - reflexivity.
  - intros i. reflexivity.
Defined.

(** ** Which step entries become Steps *)

(** C5, as stated, fails: in [overlapping_steps] the step pattern occurs
    at two positions (the entry named [plan], whose span runs on to the
    duration and result of the next entry, and the entry named [write]),
    and one Step is captured. *)
Lemma C5_every_occurrence_counterexample :
  ~ (forall (R : Runtime) (md : text) (r : info float),
        extract_test_info md = Ok r ->
        length (get_steps r) = length (Re.occurrences step_pattern md)).
Proof.
  intros H.
  assert (E : exists r, extract_test_info (R := Sample.runtime)
                                           overlapping_steps = Ok r)
    by evaluation.
  destruct E as [r E]. specialize (H Sample.runtime _ _ E).
  vm_compute in E. injection E as <-. vm_compute in H. discriminate H.
Qed.

(** C5 (amended): the Steps are read off, one each and in order, the
    matches that the scan of the text yields.  Each yielded match spans a
    step entry (name line, later a duration, later a result) whose three
    parts are the Step's name, duration (through [float]) and status; the
    matches follow one another without overlap; and a position at which
    the pattern occurs either starts a yielded match or lies inside the
    span of one. *)
Theorem C5_steps_are_the_successive_matches :
  forall (R : Runtime) (md : text) (r : info float),
    extract_test_info md = Ok r ->
    exists (ms : list Re.match_obj) (sts : list (Step.t float)),
      steps r = Some sts
      /\ Forall2 step_from ms sts
      /\ Forall (fun m => is_match_at step_pattern md m /\ spans_step md m) ms
      /\ StronglySorted follows ms
      /\ (forall i : nat,
            (i <= length md)%nat ->
            Re.occurs_at step_pattern md i = true ->
            Exists (fun m => Re.m_start m = i
                             \/ (Re.m_start m < i < Re.m_end m)%nat) ms).
Proof.
  intros R md r H.
  destruct (@extract_Ok R md r H) as (sts & Hc & Hs & _).
  exists (Re.finditer step_pattern md), sts.
  destruct (finditer_spec step_pattern md) as (F1 & F2 & F3).
  repeat split; auto.
  - now apply collect_steps_Ok.
  - eapply Forall_impl; [|exact F1]. intros m Hm.
    split; [exact Hm | now apply step_match_shape].
Qed.

(** C5, witness: the sample report, with its two steps. *)
Lemma C5_witness :
  exists r : info Sample.frac,
    extract_test_info (R := Sample.runtime) sample_text = Ok r
    /\ exists (ms : list Re.match_obj) (sts : list (Step.t Sample.frac)),
      steps r = Some sts
      /\ Forall2 (step_from (R := Sample.runtime)) ms sts
      /\ Forall (fun m => is_match_at (step_pattern (R := Sample.runtime))
                                      sample_text m
                          /\ spans_step (R := Sample.runtime) sample_text m) ms
      /\ StronglySorted follows ms
      /\ (forall i : nat,
            (i <= length sample_text)%nat ->
            Re.occurs_at (step_pattern (R := Sample.runtime)) sample_text i
            = true ->
            Exists (fun m => Re.m_start m = i
                             \/ (Re.m_start m < i < Re.m_end m)%nat) ms).
Proof.
  assert (E : exists r, extract_test_info (R := Sample.runtime) sample_text = Ok r)
    by evaluation.
  destruct E as [r E]. exists r. split; [exact E|].
  exact (C5_steps_are_the_successive_matches Sample.runtime sample_text E).
Defined.

(** ** Where a part of a page stands *)

Lemma page_footer :
  page_part 2 = lit "
    <footer>
        <p>נוצר על ידי Agadah-Bot | מודל: Claude Opus 4.5 | " /\ page_part 3 = lit "</p>
    </footer>
</body>
</html>
".
Proof. split; vm_compute; reflexivity. Qed.

Lemma Ok_inj (A : Type) (a b : A) : Ok a = Ok b -> a = b.
Proof. intros H. now injection H. Qed.

Lemma ends_with_more (x s tail : text) :
  (exists b, s = b ++ tail) -> exists b, x ++ s = b ++ tail.
Proof. intros [b ->]. exists (x ++ b). now rewrite app_assoc. Qed.

Lemma ends_with_refl (tail : text) : exists b, tail = b ++ tail.
Proof. now exists []. Qed.

Lemma within_more (x s : text) (P : text -> text) :
  (exists b a, s = b ++ P a) -> exists b a, x ++ s = b ++ P a.
Proof. intros (b & a & ->). exists (x ++ b), a. now rewrite app_assoc. Qed.

Lemma within_here (s a0 : text) (P : text -> text) :
  s = P a0 -> exists b a, s = b ++ P a.
Proof. intros ->. now exists [], a0. Qed.

(** One step towards the place of a part: the text before it grows by
    the first piece of the page. *)
Ltac skip_piece :=
  match goal with
  | |- exists b a, _ ++ _ = b ++ @?P a => apply (@within_more _ _ P)
  end.

(** The part stands here: both sides are evaluated and compared. *)
Ltac part_here :=
  match goal with
  | |- exists b a, ?s = b ++ @?P a =>
    eapply (@within_here s _ P); lazy; reflexivity
  end.
(** ** The statistics of the index page *)

(** C6: the index page shows, in the four cards of its statistics block,
    the number of records, the number of records whose status is [PASS],
    the number of the others, and the sum of the records' total durations
    ([0] for a record without one) divided by 60 and formatted with
    [.1f]; the second and third numbers add up to the first. *)
Theorem C6_index_statistics :
  forall (R : Runtime) (tests : list (info float)) (w w' : world)
         (page : text),
    generate_index_html tests w = (Ok page, w') ->
    let passes := fun t : info float =>
      match status t with
      | Some s => text_eqb s (lit "PASS")
      | None => false
      end in
    let total := len tests in
    let passed := len (filter passes tests) in
    let failed := len (filter (fun t => negb (passes t)) tests) in
    let total_time :=
      fold_left py_add
        (map (fun t : info float =>
                match total_duration t with
                | Some x => x
                | None => PyInt 0
                end) tests)
        (PyInt 0) in
    (exists tests_html,
        page =
        html_page (lit "דוחות בדיקות Agadah-Bot")
          (lit "
    <header>
        <div class=\x22container\x22>
            <h1>🕎 דוחות בדיקות Agadah-Bot</h1>
            <p>בדיקות קצה-לקצה ליצירת פעילויות חינוכיות | Claude Opus 4.5</p>
        </div>
    </header>
    <div class=\x22container\x22>
        <div class=\x22card\x22>
            <h2>📊 סיכום כללי</h2>
            " ++
           (lit "
    <div class=\x22stats-grid\x22>
        <div class=\x22stat-card\x22>
            <div class=\x22stat-value\x22>" ++ str_int total ++
            lit "</div>
            <div class=\x22stat-label\x22>סה\x22כ בדיקות</div>
        </div>
        <div class=\x22stat-card\x22>
            <div class=\x22stat-value\x22 style=\x22color: var(--success)\x22>" ++ str_int passed ++
            lit "</div>
            <div class=\x22stat-label\x22>עברו בהצלחה</div>
        </div>
        <div class=\x22stat-card\x22>
            <div class=\x22stat-value\x22 style=\x22color: var(--danger)\x22>" ++ str_int failed ++
            lit "</div>
            <div class=\x22stat-label\x22>נכשלו</div>
        </div>
        <div class=\x22stat-card\x22>
            <div class=\x22stat-value\x22>" ++
            format_1f (float_div (to_float total_time) (float_of_int 60)) ++
            lit "</div>
            <div class=\x22stat-label\x22>דקות סה\x22כ</div>
        </div>
    </div>
    ") ++
           lit "
        </div>
        
        <div class=\x22card\x22>
            <h2>📋 רשימת בדיקות</h2>
            " ++ tests_html ++
           lit "
        </div>
    </div>
    ")
          (strftime_dmy (now_at w (ticks w))))
    /\ (passed + failed = total)%Z.
Proof.
  intros R tests w w' page H passes total passed failed total_time.
  pose proof (filter_partition_length passes tests) as Hp.
  fold total passed failed in Hp. split; [|exact Hp].
  destruct (generate_index_html_Ok _ _ H) as (content & Hc & -> & _).
  destruct (index_content_Ok _ Hc) as (tests_html & ->).
  exists tests_html.
  unfold INDEX_TITLE, index_template, stats_html, stats_template, minutes,
    py_div, count_passed.
  change (py_sum (map get_total_duration tests)) with total_time.
  change (len (filter is_pass tests)) with passed.
  change (len tests) with total.
  replace (total - passed)%Z with failed by lia. reflexivity.
Qed.

(** C6, witness: the index page of two records, one of them marked PASS,
    of 4 and 116 seconds: it shows 2, 1, 1 and 2.0. *)
Lemma C6_witness :
  exists (page : text) (w' : world),
    generate_index_html (R := Sample.runtime) two_tests
                        (world_at (noon 2025 11 27)) = (Ok page, w')
    /\ exists tests_html,
         page =
         html_page (lit "דוחות בדיקות Agadah-Bot")
           (lit "
    <header>
        <div class=\x22container\x22>
            <h1>🕎 דוחות בדיקות Agadah-Bot</h1>
            <p>בדיקות קצה-לקצה ליצירת פעילויות חינוכיות | Claude Opus 4.5</p>
        </div>
    </header>
    <div class=\x22container\x22>
        <div class=\x22card\x22>
            <h2>📊 סיכום כללי</h2>
            " ++
            (lit "
    <div class=\x22stats-grid\x22>
        <div class=\x22stat-card\x22>
            <div class=\x22stat-value\x22>" ++ lit "2" ++
             lit "</div>
            <div class=\x22stat-label\x22>סה\x22כ בדיקות</div>
        </div>
        <div class=\x22stat-card\x22>
            <div class=\x22stat-value\x22 style=\x22color: var(--success)\x22>" ++ lit "1" ++
             lit "</div>
            <div class=\x22stat-label\x22>עברו בהצלחה</div>
        </div>
        <div class=\x22stat-card\x22>
            <div class=\x22stat-value\x22 style=\x22color: var(--danger)\x22>" ++ lit "1" ++
             lit "</div>
            <div class=\x22stat-label\x22>נכשלו</div>
        </div>
        <div class=\x22stat-card\x22>
            <div class=\x22stat-value\x22>" ++ lit "2.0" ++
             lit "</div>
            <div class=\x22stat-label\x22>דקות סה\x22כ</div>
        </div>
    </div>
    ") ++
            lit "
        </div>
        
        <div class=\x22card\x22>
            <h2>📋 רשימת בדיקות</h2>
            " ++ tests_html ++
            lit "
        </div>
    </div>
    ")
           (lit "27/11/2025").
Proof.
  assert (E : exists page w',
             generate_index_html (R := Sample.runtime) two_tests
                                 (world_at (noon 2025 11 27)) = (Ok page, w'))
    by (vm_compute; eexists; eexists; reflexivity).
  destruct E as (page & w' & E). exists page, w'. split; [exact E|].
  pose proof (C6_index_statistics Sample.runtime two_tests _ E) as H.
  cbv zeta in H. destruct H as [[tests_html H] _]. exists tests_html.
  rewrite H. clear.
  apply (f_equal2 (fun s d =>
           html_page _ (_ ++ s ++ _) d)); [|vm_compute; reflexivity].
  vm_compute. reflexivity.
Defined.
(** ** Identifier and label *)

(** C7: when the first place at which the title pattern matches is the
    text [# E2E Test Report: ] followed by the run of word characters
    [tok], the record's identifier is [tok] and its label is the entry of
    [TEST_NAMES_HEB] for [tok], or [tok] itself when there is none. *)
Theorem C7_identifier_and_label :
  forall (R : Runtime) (pre tok rest : text) (r : info float),
    let md_content := pre ++ lit "# E2E Test Report: " ++ tok ++ rest in
    tok <> [] ->
    forallb word tok = true ->
    match rest with [] => True | c :: _ => word c = false end ->
    (forall i, (i < length pre)%nat ->
       Re.occurs_at title_pattern md_content i = false) ->
    extract_test_info md_content = Ok r ->
    name r = Some tok
    /\ name_heb r = Some (match dict_get TEST_NAMES_HEB tok with
                          | Some label => label
                          | None => tok
                          end).
Proof.
  intros R pre tok rest r md Hne Hw Hrest Hfirst H.
  destruct (@extract_Ok R md r H) as (_ & _ & _ & _ & Hn & Hh & _).
  pose proof (@title_search R pre tok rest Hne Hw Hrest Hfirst) as Hs. fold md in Hs.
  rewrite Hn, Hh.
  destruct (Re.search title_pattern md) as [m|]; simpl in Hs |- *;
    [|discriminate].
  injection Hs as ->. split; reflexivity.
Qed.

(** C7, witness: a report whose title line follows a line of text. *)
Lemma C7_witness :
  exists r : info Sample.frac,
    extract_test_info (R := Sample.runtime)
      (lit "intro\n" ++ lit "# E2E Test Report: " ++ lit "Kibud_Av_VaEm"
       ++ lit "\nrest") = Ok r
    /\ name r = Some (lit "Kibud_Av_VaEm")
    /\ name_heb r = Some (match dict_get TEST_NAMES_HEB (lit "Kibud_Av_VaEm") with
                          | Some label => label
                          | None => lit "Kibud_Av_VaEm"
                          end).
Proof.
  assert (E : exists r, extract_test_info (R := Sample.runtime)
      (lit "intro\n" ++ lit "# E2E Test Report: " ++ lit "Kibud_Av_VaEm"
       ++ lit "\nrest") = Ok r)
    by evaluation.
  destruct E as [r E]. exists r. split; [exact E|].
  apply (@C7_identifier_and_label Sample.runtime (lit "intro\n")
           (lit "Kibud_Av_VaEm") (lit "\nrest") r).
  - discriminate.
  - vm_compute. reflexivity.
  - vm_compute. reflexivity.
  - intros i Hi.
    do 6 (destruct i as [|i]; [vm_compute; reflexivity|]).
    vm_compute in Hi. lia.
  - exact E.
Defined.

(** ** The final output of an empty section *)

(** C8, the failing input: a report whose final-output section is empty.
    The field holds the section that follows, heading included. *)
Theorem C8_empty_section_takes_the_next :
  forall R : Runtime,
    exists r : info float,
      extract_test_info empty_final_output = Ok r
      /\ final_output r = Some (lit "## Step Timings\nSTEP: plan").
Proof.
  intros R.
  assert (E : exists r, extract_test_info empty_final_output = Ok r
                        /\ final_output r = extract_final_output empty_final_output).
  { destruct (extract_test_info empty_final_output) as [r|e] eqn:E.
    - exists r. split; [reflexivity|].
      now destruct (@extract_Ok R _ _ E) as (_ & _ & _ & _ & _ & _ & _ & ->).
    - vm_compute in E. discriminate E. }
  destruct E as (r & E & Ef). exists r. split; [exact E|].
  rewrite Ef. vm_compute. reflexivity.
Qed.

(** ** The rows of the steps table *)

(** C9, as stated, fails: the duration of a step is shown as
    [format(duration, '.1f')] gives it, and for the duration of four
    hundred digits of [overflow_report], which [float] reads as [inf],
    that is [inf], not a number with one decimal place. *)
Lemma C9_one_decimal_counterexample :
  ~ (forall (R : Runtime) (md : text) (r : info float) (w w' : world)
            (page : text),
        extract_test_info md = Ok r ->
        generate_test_html r md w = (Ok page, w') ->
        Forall (fun step =>
                  one_decimal (format_1f (Step.duration step)) = true)
               (match steps r with Some l => l | None => [] end)).
Proof.
  intros H.
  assert (E : exists r, extract_test_info (R := Overflow.runtime)
                                           overflow_report = Ok r)
    by evaluation.
  destruct E as [r E].
  assert (G : exists page w',
             generate_test_html (R := Overflow.runtime) r overflow_report
                                (world_at (noon 2025 11 27)) = (Ok page, w')).
  { vm_compute in E. injection E as <-. evaluation. }
  destruct G as (page & w' & G).
  specialize (H Overflow.runtime _ _ _ _ _ E G).
  vm_compute in E. injection E as <-.
  cbn [steps] in H. apply Forall_inv in H. vm_compute in H. discriminate H.
Qed.

(** C9 (amended): under its heading, the detail page holds the steps
    table: the head, one row per Step of the record, in order, and the
    closing tags.  A row shows the step's name, its duration as
    [format(duration, '.1f')] gives it, and one of two badges: the success
    badge when the status is [SUCCESS], the failure badge for any other
    status. *)
Theorem C9_step_rows :
  forall (R : Runtime) (test : info float) (md : text) (w w' : world)
         (page : text),
    generate_test_html test md w = (Ok page, w') ->
    exists before after : text,
      page =
      before ++
      lit "</td></tr>
            </table>
        </div>
        
        <div class=\x22card\x22>
            <h2>⏱️ שלבי הביצוע</h2>
            " ++
      lit "
    <table>
        <thead>
            <tr>
                <th>שלב</th>
                <th>משך (שניות)</th>
                <th>סטטוס</th>
            </tr>
        </thead>
        <tbody>
    " ++
      concat
        (map (fun step : Step.t float =>
                lit "
            <tr>
                <td>" ++ Step.name step ++
                lit "</td>
                <td>" ++ format_1f (Step.duration step) ++
                lit "</td>
                <td><span class=\x22badge " ++
                (if text_eqb (Step.status step) (lit "SUCCESS")
                 then lit "badge-success" else lit "badge-danger") ++
                lit "\x22>" ++
                (if text_eqb (Step.status step) (lit "SUCCESS")
                 then lit "הצלחה" else lit "כשלון") ++
                lit "</span></td>
            </tr>
        ")
             (match steps test with Some l => l | None => [] end)) ++
      lit "</tbody></table>" ++
      lit "
            <p style=\x22margin-top: 1rem; color: var(--text-muted);\x22>
                <strong>סה\x22כ זמן ביצוע:</strong> " ++ after.
Proof.
  intros R test md w w' page H.
  destruct (generate_test_html_Ok _ _ _ H) as (content & Hc & -> & _).
  destruct (test_content_Ok _ Hc) as (ty & ag & du & to & va & cl & ->).
  rewrite steps_html_rows.
  unfold html_page, test_template. rewrite <- !app_assoc.
  do 19 skip_piece.
  unfold STEPS_TABLE_HEAD, get_steps, step_row, step_row_template, is_success.
  part_here.
Qed.

(** C9, witness: the detail page of the sample report holds the rows of
    its two steps; the second has the status [FAILED]. *)
Lemma C9_witness :
  exists (page : text) (w' : world),
    generate_test_html (R := Sample.runtime) sample_test sample_text
                       (world_at (noon 2025 11 27)) = (Ok page, w')
    /\ exists before after : text,
         page =
         before ++
         lit "</td></tr>
            </table>
        </div>
        
        <div class=\x22card\x22>
            <h2>⏱️ שלבי הביצוע</h2>
            " ++
         lit "
    <table>
        <thead>
            <tr>
                <th>שלב</th>
                <th>משך (שניות)</th>
                <th>סטטוס</th>
            </tr>
        </thead>
        <tbody>
    " ++
         concat
           [ lit "
            <tr>
                <td>" ++ lit "plan" ++
             lit "</td>
                <td>" ++ lit "1.5" ++
             lit "</td>
                <td><span class=\x22badge " ++ lit "badge-success" ++
             lit "\x22>" ++ lit "הצלחה" ++
             lit "</span></td>
            </tr>
        ";
             lit "
            <tr>
                <td>" ++ lit "write" ++
             lit "</td>
                <td>" ++ lit "2.5" ++
             lit "</td>
                <td><span class=\x22badge " ++ lit "badge-danger" ++
             lit "\x22>" ++ lit "כשלון" ++
             lit "</span></td>
            </tr>
        " ] ++
         lit "</tbody></table>" ++
         lit "
            <p style=\x22margin-top: 1rem; color: var(--text-muted);\x22>
                <strong>סה\x22כ זמן ביצוע:</strong> " ++ after.
Proof.
  assert (E : exists page w',
             generate_test_html (R := Sample.runtime) sample_test sample_text
                                (world_at (noon 2025 11 27)) = (Ok page, w'))
    by evaluation.
  destruct E as (page & w' & E). exists page, w'. split; [exact E|].
  destruct (C9_step_rows Sample.runtime sample_test _ _ E)
    as (before & after & Hp).
  exists before, after. rewrite Hp. clear.
  apply (f_equal (fun rows => before ++ _ ++ _ ++ rows ++ _)).
  vm_compute. reflexivity.
Defined.
(** ** The placeholder for a missing final output *)

(** C10: the detail page ends with the block of the final output, the
    closing tags and the footer.  The block holds the fixed, non-empty
    paragraph [<p>...</p>] when the record's final output is unset or
    empty; the text wrapped in [<pre>] when it is not empty and
    [markdown] raises; and what [markdown] returns otherwise. *)
Theorem C10_final_output_placeholder :
  forall (R : Runtime) (test : info float) (md : text) (w w' : world)
         (page : text),
    generate_test_html test md w = (Ok page, w') ->
    exists before shown : text,
      page =
      before ++
      lit " דקות
            </p>
        </div>
        
        <div class=\x22card\x22>
            <h2>📄 תוכנית הפעילות</h2>
            <div class=\x22activity-content\x22>
                " ++ shown ++
      lit "
            </div>
        </div>
    </div>
    " ++
      lit "
    <footer>
        <p>נוצר על ידי Agadah-Bot | מודל: Claude Opus 4.5 | " ++ strftime_dmy (now_at w (ticks w)) ++
      lit "</p>
    </footer>
</body>
</html>
"
      /\ ((final_output test = None \/ final_output test = Some []) ->
          shown = lit "<p>לא נמצא פלט סופי</p>")
      /\ (forall s, final_output test = Some s -> s <> [] ->
            (markdown s = None -> shown = lit "<pre>" ++ s ++ lit "</pre>")
            /\ (forall html, markdown s = Some html -> shown = html))
      /\ lit "<p>לא נמצא פלט סופי</p>" <> [].
Proof.
  intros R test md w w' page H.
  destruct (final_output_html_cases test) as [H1 H2].
  destruct (generate_test_html_Ok _ _ _ H) as (content & Hc & -> & _).
  destruct (test_content_Ok _ Hc) as (ty & ag & du & to & va & cl & ->).
  destruct page_footer as [<- <-].
  cut (exists before,
          html_page (display_name test)
            (test_template (display_name test)
               match user_request test with
               | Some s => s
               | None => lit ""
               end ty ag du to va cl (steps_html test)
               (minutes (get_total_duration test)) (final_output_html test))
            (strftime_dmy (now_at w (ticks w)))
          = before ++
            lit " דקות
            </p>
        </div>
        
        <div class=\x22card\x22>
            <h2>📄 תוכנית הפעילות</h2>
            <div class=\x22activity-content\x22>
                " ++ final_output_html test ++
            lit "
            </div>
        </div>
    </div>
    " ++
            page_part 2 ++ strftime_dmy (now_at w (ticks w)) ++ page_part 3).
  { intros [before E]. exists before, (final_output_html test).
    split; [exact E|].
    split; [exact H1 | split; [exact H2 | intros Q; discriminate Q]]. }
  unfold html_page, test_template. rewrite <- !app_assoc.
  do 23 apply ends_with_more. apply ends_with_refl.
Qed.

(** C10, witness: the detail page of a record without final output. *)
Lemma C10_witness :
  exists (page : text) (w' : world),
    generate_test_html (R := Sample.runtime) bare_test []
                       (world_at (noon 2025 11 27)) = (Ok page, w')
    /\ exists before : text,
         page =
         before ++
         lit " דקות
            </p>
        </div>
        
        <div class=\x22card\x22>
            <h2>📄 תוכנית הפעילות</h2>
            <div class=\x22activity-content\x22>
                " ++ lit "<p>לא נמצא פלט סופי</p>" ++
         lit "
            </div>
        </div>
    </div>
    " ++
         lit "
    <footer>
        <p>נוצר על ידי Agadah-Bot | מודל: Claude Opus 4.5 | " ++ lit "27/11/2025" ++
         lit "</p>
    </footer>
</body>
</html>
".
Proof.
  assert (E : exists page w',
             generate_test_html (R := Sample.runtime) bare_test []
                                (world_at (noon 2025 11 27)) = (Ok page, w'))
    by evaluation.
  destruct E as (page & w' & E). exists page, w'. split; [exact E|].
  destruct (C10_final_output_placeholder Sample.runtime bare_test _ _ E)
    as (before & shown & Hp & Hs & _).
  exists before. rewrite Hp, (Hs (or_introl eq_refl)). clear.
  replace (strftime_dmy
             (now_at (world_at (noon 2025 11 27))
                     (ticks (world_at (noon 2025 11 27)))))
    with (lit "27/11/2025") by (vm_compute; reflexivity).
  reflexivity.
Defined.
(** ** Further properties of the extractor *)

(** The extractor returns a record unless the scan yields a match whose
    duration text is not a float literal; then [ValueError] leaves it, and
    nothing else ever does. *)
Theorem extractor_returns_or_value_error :
  forall (R : Runtime) (md : text),
    (Forall (fun m => decimal_literal (Re.group 2 m) = true)
            (Re.finditer step_pattern md)
     /\ exists r, extract_test_info md = Ok r)
    \/ (Exists (fun m => decimal_literal (Re.group 2 m) = false)
               (Re.finditer step_pattern md)
        /\ extract_test_info md = Raise ValueError).
Proof.
  intros R md. unfold extract_test_info.
  destruct (collect_steps_cases (Re.finditer step_pattern md))
    as [(F & sts & ->)|(E & ->)]; simpl; eauto.
Qed.

(** The final output of a fenced block: when the first match of the
    fenced pattern is the heading followed by the non-empty block [body],
    closed by the first fence after its first character, the record's
    final output is [body] without the whitespace at its ends. *)
Theorem final_output_of_fenced_block :
  forall (R : Runtime) (pre body post : text) (r : info float),
    let md_content :=
      pre ++ lit "## Final Output\n\n```markdown\n" ++ body ++ lit "```"
      ++ post in
    body <> [] ->
    (forall j, (1 <= j < length body)%nat ->
               at_fence (skipn j (body ++ lit "```" ++ post)) = false) ->
    (forall i, (i < length pre)%nat ->
               Re.occurs_at final_output_pattern md_content i = false) ->
    extract_test_info md_content = Ok r ->
    final_output r = Some (strip body).
Proof.
  intros R pre body post r md Hne Hnone Hfirst H.
  destruct (@extract_Ok R md r H) as (_ & _ & _ & _ & _ & _ & _ & ->).
  unfold extract_final_output, Re.search. subst md.
  rewrite search_from_skip by exact Hfirst.
  erewrite search_from_here by (apply fenced_match_here; assumption).
  reflexivity.
Qed.

(** A report with a fenced final output. *)
Lemma final_output_of_fenced_block_witness :
  exists r : info Sample.frac,
    extract_test_info (R := Sample.runtime)
      (report_title ++ lit "## Final Output\n\n```markdown\n" ++ fenced_body
       ++ lit "```" ++ next_section) = Ok r
    /\ final_output r = Some (strip fenced_body).
Proof.
  assert (E : exists r,
             extract_test_info (R := Sample.runtime)
               (report_title ++ lit "## Final Output\n\n```markdown\n"
                ++ fenced_body ++ lit "```" ++ next_section) = Ok r)
    by evaluation.
  destruct E as [r E]. exists r. split; [exact E|].
  apply (@final_output_of_fenced_block Sample.runtime report_title
           fenced_body next_section r).
  - discriminate.
  - apply none_below. vm_compute. reflexivity.
  - apply none_before. vm_compute. reflexivity.
  - exact E.
Defined.

(** The final output without a fenced block: when the fenced pattern has
    no match and the first match of the fallback is the heading followed
    by the non-empty text [body], which runs up to the first place after
    its first character where a line begins with [## ] or the text ends,
    the record's final output is [body] without the whitespace at its
    ends. *)
Theorem final_output_of_plain_section :
  forall (R : Runtime) (pre body post : text) (r : info float),
    let md_content := pre ++ lit "## Final Output\n\n" ++ body ++ post in
    Re.search final_output_pattern md_content = None ->
    body <> [] ->
    ends_section post = true ->
    (forall j, (1 <= j < length body)%nat ->
               ends_section (skipn j (body ++ post)) = false) ->
    (forall i, (i < length pre)%nat ->
               Re.occurs_at final_output_fallback md_content i = false) ->
    extract_test_info md_content = Ok r ->
    final_output r = Some (strip body).
Proof.
  intros R pre body post r md Hno Hne Hend Hnone Hfirst H.
  destruct (@extract_Ok R md r H) as (_ & _ & _ & _ & _ & _ & _ & ->).
  unfold extract_final_output. rewrite Hno. unfold Re.search. subst md.
  rewrite search_from_skip by exact Hfirst.
  erewrite search_from_here by (apply fallback_match_here; assumption).
  reflexivity.
Qed.

(** A report with a plain final output. *)
Lemma final_output_of_plain_section_witness :
  exists r : info Sample.frac,
    extract_test_info (R := Sample.runtime)
      (report_title ++ lit "## Final Output\n\n" ++ plain_body
       ++ next_section) = Ok r
    /\ final_output r = Some (strip plain_body).
Proof.
  assert (E : exists r,
             extract_test_info (R := Sample.runtime)
               (report_title ++ lit "## Final Output\n\n" ++ plain_body
                ++ next_section) = Ok r)
    by evaluation.
  destruct E as [r E]. exists r. split; [exact E|].
  apply (@final_output_of_plain_section Sample.runtime report_title
           plain_body next_section r).
  - vm_compute. reflexivity.
  - discriminate.
  - vm_compute. reflexivity.
  - apply none_below. vm_compute. reflexivity.
  - apply none_before. vm_compute. reflexivity.
  - exact E.
Defined.

(** ** Further properties of a run *)

(** For a file of plain ASCII text without carriage returns the decoded
    text has one character per byte, so the length [main] compares with
    10000 is the size of the file in bytes. *)
Theorem ascii_file_length_is_byte_count :
  forall bs : list byte,
    forallb plain_ascii bs = true ->
    read_text bs = Ok (map Byte.to_N bs)
    /\ len (map Byte.to_N bs) = len bs.
Proof.
  intros bs H. rewrite forallb_forall in H. unfold read_text, Utf8.decode_bytes.
  rewrite decode_ascii, universal_newlines_no_cr.
  - split; [reflexivity|]. unfold len. now rewrite length_map.
  - apply Forall_forall. intros c Hc. apply in_map_iff in Hc.
    destruct Hc as (b & <- & Hb). apply H in Hb. unfold plain_ascii in Hb.
    apply andb_prop in Hb. destruct Hb as [_ Hb].
    apply negb_true_iff in Hb. now apply N.eqb_neq in Hb.
  - apply Forall_forall. intros c Hc. apply in_map_iff in Hc.
    destruct Hc as (b & <- & Hb). apply H in Hb. unfold plain_ascii in Hb.
    apply andb_prop in Hb. destruct Hb as [Hb _]. now apply N.ltb_lt in Hb.
Qed.

(** The sample report is such a file. *)
Lemma ascii_file_length_witness :
  read_text sample_report = Ok (map Byte.to_N sample_report)
  /\ len (map Byte.to_N sample_report) = len sample_report.
Proof.
  apply (@ascii_file_length_is_byte_count sample_report).
  vm_compute. reflexivity.
Defined.

(** A run that ends without an exception has written one page per input
    file, named by the file's stem with [.html], in the order of the
    files, and then [index.html]. *)
Theorem one_page_per_file_then_index :
  forall (R : Runtime) (test_files : list (text * list byte))
         (w w' : world),
    main test_files w = (Ok tt, w') ->
    map fst (written w')
    = lit "index.html"
      :: rev (map (fun f => fst f ++ lit ".html") test_files)
      ++ map fst (written w).
Proof.
  intros R test_files w w' H. unfold main, bind in H.
  destruct (process_files [] test_files w) as [[tests|e] w1] eqn:P;
    [|discriminate].
  destruct (generate_index_html tests w1) as [[html|e] w2] eqn:G;
    [|discriminate].
  apply generate_index_html_Ok in G. destruct G as (_ & _ & _ & ->).
  rewrite (write_text_Ok _ _ _ H). simpl.
  now rewrite (proj1 (process_files_written _ _ _ P)).
Qed.

(** The run on the sample report. *)
Lemma one_page_per_file_witness :
  exists w' : world,
    main (R := Sample.runtime) [(lit "test_01", sample_report)]
         (world_at (noon 2025 11 27)) = (Ok tt, w')
    /\ map fst (written w') = [lit "index.html"; lit "test_01" ++ lit ".html"].
Proof.
  assert (E : exists w',
             main (R := Sample.runtime) [(lit "test_01", sample_report)]
                  (world_at (noon 2025 11 27)) = (Ok tt, w'))
    by evaluation.
  destruct E as [w' E]. exists w'. split; [exact E|].
  exact (@one_page_per_file_then_index Sample.runtime _ _ _ E).
Defined.


(** * Further properties of the code *)

(** ** The matcher: which match it finds *)

Lemma span_spec (p : Re.charset) (s : text) :
  s = fst (span p s) ++ snd (span p s)
  /\ forallb p (fst (span p s)) = true
  /\ stops p (snd (span p s)).
Proof.
  induction s as [|c r (IH1 & IH2 & IH3)]; simpl.
  - repeat split.
  - destruct (p c) eqn:Hc; simpl.
    + rewrite Hc, IH2. repeat split; [now f_equal | exact IH3].
    + repeat split. exact Hc.
Qed.

(** A greedy repetition whose continuation always succeeds takes the
    whole run. *)
Lemma rep_greedy_total (A : Type) (p : Re.charset) (k : text -> option A)
      (f : text -> A) :
  (forall s, k s = Some (f s)) ->
  forall s min,
    Re.rep_greedy p k min s =
    if (min <=? length (fst (span p s)))%nat
    then Some (f (snd (span p s))) else None.
Proof.
  intros Hk. induction s as [|c r IH]; intros min; simpl.
  - destruct min; simpl; [apply Hk | reflexivity].
  - destruct (p c) eqn:Hc; simpl.
    + rewrite IH. destruct min as [|m]; simpl.
      * reflexivity.
      * destruct (m <=? length (fst (span p r)))%nat; reflexivity.
    + destruct min; simpl; [apply Hk | reflexivity].
Qed.

(** A lazy repetition stops at the first place, from [min] characters on,
    at which its continuation succeeds. *)
Lemma rep_lazy_min (A : Type) (p : Re.charset) (k : text -> option A) :
  forall (s : text) (min : nat) (a : A),
    Re.rep_lazy p k min s = Some a ->
    exists pre suf,
      s = pre ++ suf /\ forallb p pre = true /\ (min <= length pre)%nat
      /\ k suf = Some a
      /\ forall j, (min <= j < length pre)%nat -> k (skipn j s) = None.
Proof.
  induction s as [|x s IH]; intros min a H.
  - destruct min; simpl in H; [|discriminate].
    destruct (k []) eqn:E; [|discriminate]. injection H as ->.
    exists [], []. repeat split; auto. simpl. intros j Hj. lia.
  - destruct min as [|m].
    + rewrite rep_lazy_unfold in H. destruct (k (x :: s)) eqn:E.
      * injection H as ->. exists [], (x :: s). repeat split; auto.
        simpl. intros j Hj. lia.
      * destruct (p x) eqn:Hx; [|discriminate].
        apply IH in H. destruct H as (pre & suf & -> & Hp & _ & Hk & Hn).
        exists (x :: pre), suf. simpl. rewrite Hx.
        repeat split; auto; [lia|].
        intros [|j] Hj; [exact E|]. apply Hn. lia.
    + simpl in H. destruct (p x) eqn:Hx; [|discriminate].
      apply IH in H. destruct H as (pre & suf & -> & Hp & Hm & Hk & Hn).
      exists (x :: pre), suf. simpl. rewrite Hx.
      repeat split; auto; [lia|].
      intros [|j] Hj; [lia|]. apply Hn. lia.
Qed.

(** A lazy repetition finds a place at which its continuation succeeds,
    if there is one. *)
Lemma rep_lazy_complete (A : Type) (p : Re.charset) (k : text -> option A) :
  forall (pre suf : text) (min : nat),
    forallb p pre = true -> (min <= length pre)%nat -> k suf <> None ->
    Re.rep_lazy p k min (pre ++ suf) <> None.
Proof.
  induction pre as [|x pre IH]; intros suf min Hp Hmin Hk.
  - simpl in Hmin. assert (min = 0%nat) as -> by lia. simpl.
    rewrite rep_lazy_unfold. destruct (k suf); [discriminate | contradiction].
  - simpl in Hp. apply andb_prop in Hp. destruct Hp as [Hx Hp].
    change ((x :: pre) ++ suf) with (x :: pre ++ suf).
    destruct min as [|m].
    + rewrite rep_lazy_unfold. destruct (k (x :: pre ++ suf)); [discriminate|].
      rewrite Hx. apply IH; auto. lia.
    + simpl. rewrite Hx. apply IH; auto. simpl in Hmin. lia.
Qed.

(** [re.search]: the match it returns is the engine's match at the first
    position that has one; it returns none when no position has one. *)
Lemma search_from_spec (r : Re.regex) :
  forall (s : text) (pos : nat),
    match Re.search_from r pos s with
    | Some m =>
      exists pre suf s',
        s = pre ++ suf
        /\ Re.match_here r suf = Some (s', Re.m_groups m)
        /\ Re.m_start m = (pos + length pre)%nat
        /\ Re.m_end m = (pos + length pre + (length suf - length s'))%nat
        /\ forall i, (i < length pre)%nat -> Re.occurs_at r s i = false
    | None => forall i, Re.occurs_at r s i = false
    end.
Proof.
  induction s as [|x s IH]; intros pos; cbn [Re.search_from].
  - destruct (Re.match_here r []) as [[s' g]|] eqn:E.
    + exists [], [], s'. simpl. repeat split; auto; try lia.
    + intros i. unfold Re.occurs_at. destruct i; simpl; now rewrite E.
  - destruct (Re.match_here r (x :: s)) as [[s' g]|] eqn:E.
    + exists [], (x :: s), s'. cbn [app length Re.mk Re.m_start Re.m_end Re.m_groups].
      repeat split; auto; try lia.
    + specialize (IH (S pos)).
      destruct (Re.search_from r (S pos) s) as [m|].
      * destruct IH as (pre & suf & s' & -> & Hm & Hs & He & Hn).
        exists (x :: pre), suf, s'. cbn [app length].
        repeat split; auto; try lia.
        intros [|i] Hi; [unfold Re.occurs_at; simpl; now rewrite E|].
        unfold Re.occurs_at. simpl. apply Hn. lia.
      * intros [|i]; [unfold Re.occurs_at; simpl; now rewrite E|].
        unfold Re.occurs_at. simpl. apply IH.
Qed.

Lemma search_spec (r : Re.regex) (s : text) :
  match Re.search r s with
  | Some m =>
    exists pre suf s',
      s = pre ++ suf
      /\ Re.match_here r suf = Some (s', Re.m_groups m)
      /\ forall i, (i < length pre)%nat -> Re.occurs_at r s i = false
  | None => forall i, Re.occurs_at r s i = false
  end.
Proof.
  unfold Re.search. pose proof (search_from_spec r s 0) as H.
  destruct (Re.search_from r 0 s) as [m|]; [|exact H].
  destruct H as (pre & suf & s' & E & Hm & _ & _ & Hn).
  exists pre, suf, s'. auto.
Qed.

Lemma skipn_app_length (A : Type) (pre suf : list A) :
  skipn (length pre) (pre ++ suf) = suf.
Proof. induction pre; simpl; auto. Qed.

Lemma occurs_at_app (r : Re.regex) (pre suf : text) (x : text * Re.groups) :
  Re.match_here r suf = Some x -> Re.occurs_at r (pre ++ suf) (length pre) = true.
Proof.
  intros H. unfold Re.occurs_at. now rewrite skipn_app_length, H.
Qed.
(** ** Patterns that capture a run of characters after a marker *)

Lemma greedy_capture_here (l : text) (p : Re.charset) (s : text) :
  Re.match_here (Re.Seq (Re.Lit l) (Re.Group 1 (Re.Rep true 1 p))) s =
  match Re.strip_prefix l s with
  | Some t =>
    if (1 <=? length (fst (span p t)))%nat
    then Some (snd (span p t), [(1%nat, fst (span p t))]) else None
  | None => None
  end.
Proof.
  unfold Re.match_here. cbn [Re.exec].
  destruct (Re.strip_prefix l s) as [t|]; [|reflexivity].
  rewrite (@rep_greedy_total _ p _
             (fun s'' => (s'', [(1%nat, firstn (length t - length s'') t)])))
    by reflexivity.
  destruct (1 <=? length (fst (span p t)))%nat; [|reflexivity].
  destruct (span_spec p t) as (E & _ & _).
  pose proof (firstn_consumed (fst (span p t)) (snd (span p t))) as F.
  rewrite <- E in F. now rewrite F.
Qed.

Lemma greedy_capture_occurs (l : text) (p : Re.charset) (s : text) (i : nat) :
  Re.occurs_at (Re.Seq (Re.Lit l) (Re.Group 1 (Re.Rep true 1 p))) s i
  = marker_at l p (skipn i s).
Proof.
  unfold Re.occurs_at, marker_at. rewrite greedy_capture_here.
  destruct (Re.strip_prefix l (skipn i s)) as [[|c t]|]; try reflexivity.
  simpl. destruct (p c); reflexivity.
Qed.

(** What [re.search] captures with such a pattern: the run after the
    first marker. *)
Lemma greedy_capture_search (l : text) (p : Re.charset) (md : text) :
  match option_map (Re.group 1)
          (Re.search (Re.Seq (Re.Lit l) (Re.Group 1 (Re.Rep true 1 p))) md) with
  | Some tok =>
    exists pre rest,
      md = pre ++ l ++ tok ++ rest
      /\ tok <> [] /\ forallb p tok = true /\ stops p rest
      /\ forall i, (i < length pre)%nat -> marker_at l p (skipn i md) = false
  | None => forall i, marker_at l p (skipn i md) = false
  end.
Proof.
  pose proof (search_spec (Re.Seq (Re.Lit l) (Re.Group 1 (Re.Rep true 1 p))) md)
    as H.
  destruct (Re.search _ md) as [m|]; simpl.
  - destruct H as (pre & suf & s' & E & Hm & Hn).
    rewrite greedy_capture_here in Hm.
    destruct (Re.strip_prefix l suf) as [t|] eqn:Ht; [|discriminate].
    apply strip_prefix_Some in Ht.
    destruct (span_spec p t) as (Et & Hp & Hs).
    destruct (1 <=? length (fst (span p t)))%nat eqn:Hl; [|discriminate].
    apply Nat.leb_le in Hl. injection Hm as <- Hg.
    unfold Re.group. rewrite <- Hg. simpl.
    exists pre, (snd (span p t)). repeat split; auto.
    + now rewrite E, Ht, Et at 1.
    + intros E0. rewrite E0 in Hl. simpl in Hl. lia.
    + intros i Hi. rewrite <- greedy_capture_occurs. now apply Hn.
  - intros i. rewrite <- greedy_capture_occurs. apply H.
Qed.
(** ** Patterns that capture the shortest text up to a closing mark *)

(** The lazy group of such a pattern, run on [t] with what closes it as
    the function [close]. *)
Lemma lazy_group_min (p : Re.charset) (close : text -> option text)
      (t s'' : text) (g : Re.groups) :
  Re.rep_lazy p
    (fun s' => match close s' with
               | Some r => Some (r, [(1%nat, firstn (length t - length s') t)])
               | None => None
               end) 1 t = Some (s'', g) ->
  exists v suf,
    t = v ++ suf /\ v <> [] /\ forallb p v = true
    /\ close suf = Some s'' /\ g = [(1%nat, v)]
    /\ forall j, (1 <= j < length v)%nat -> close (skipn j t) = None.
Proof.
  intros H. apply rep_lazy_min in H.
  destruct H as (v & suf & -> & Hp & Hl & Hk & Hn).
  exists v, suf. destruct (close suf) as [r|] eqn:Hc; [|discriminate].
  injection Hk as <- <-. rewrite firstn_consumed.
  repeat split; auto.
  - intros ->. simpl in Hl. lia.
  - intros j Hj. specialize (Hn j Hj).
    destruct (close (skipn j (v ++ suf))); [discriminate | reflexivity].
Qed.

Lemma lazy_group_complete (p : Re.charset) (close : text -> option text)
      (v suf : text) :
  v <> [] -> forallb p v = true -> close suf <> None ->
  Re.rep_lazy p
    (fun s' => match close s' with
               | Some r =>
                 Some (r, [(1%nat, firstn (length (v ++ suf) - length s')
                                          (v ++ suf))])
               | None => None
               end) 1 (v ++ suf) <> None.
Proof.
  intros Hne Hp Hc. apply rep_lazy_complete; auto.
  - destruct v; [contradiction | simpl; lia].
  - destruct (close suf); [discriminate | contradiction].
Qed.

(** The pattern [l(p+?)c]. *)
Lemma lazy_capture_here (l c : text) (p : Re.charset) (s s' : text)
      (g : Re.groups) :
  Re.match_here
    (Re.Seq (Re.Lit l) (Re.Seq (Re.Group 1 (Re.Rep false 1 p)) (Re.Lit c))) s
  = Some (s', g) ->
  exists v,
    s = l ++ v ++ c ++ s' /\ v <> [] /\ forallb p v = true /\ g = [(1%nat, v)]
    /\ forall j, (1 <= j < length v)%nat ->
                 starts_with c (skipn j (v ++ c ++ s')) = false.
Proof.
  unfold Re.match_here. cbn [Re.exec]. intros H.
  destruct (Re.strip_prefix l s) as [t|] eqn:Ht; [|discriminate].
  apply strip_prefix_Some in Ht.
  apply (@lazy_group_min p (Re.strip_prefix c)) in H.
  destruct H as (v & suf & -> & Hne & Hp & Hc & -> & Hn).
  apply strip_prefix_Some in Hc. subst suf.
  exists v. repeat split; auto.
  intros j Hj. unfold starts_with. now rewrite (Hn j Hj).
Qed.

Lemma lazy_capture_complete (l c : text) (p : Re.charset) (v rest : text) :
  v <> [] -> forallb p v = true ->
  Re.match_here
    (Re.Seq (Re.Lit l) (Re.Seq (Re.Group 1 (Re.Rep false 1 p)) (Re.Lit c)))
    (l ++ v ++ c ++ rest) <> None.
Proof.
  intros Hne Hp. unfold Re.match_here. cbn [Re.exec].
  rewrite strip_prefix_app.
  apply (@lazy_group_complete p (Re.strip_prefix c)); auto.
  now rewrite strip_prefix_app.
Qed.

(** What [re.search] captures with such a pattern: the shortest text
    between the first marker that has a closing mark after it and that
    mark. *)
Lemma lazy_capture_search (l c : text) (p : Re.charset) (md : text) :
  match option_map (Re.group 1)
          (Re.search
             (Re.Seq (Re.Lit l)
                     (Re.Seq (Re.Group 1 (Re.Rep false 1 p)) (Re.Lit c))) md)
  with
  | Some v =>
    exists pre rest,
      md = pre ++ l ++ v ++ c ++ rest
      /\ v <> [] /\ forallb p v = true
      /\ (forall j, (1 <= j < length v)%nat ->
                    starts_with c (skipn j (v ++ c ++ rest)) = false)
      /\ (forall pre' v' rest',
             md = pre' ++ l ++ v' ++ c ++ rest' ->
             v' <> [] -> forallb p v' = true ->
             (length pre <= length pre')%nat)
  | None =>
    forall pre v rest,
      md = pre ++ l ++ v ++ c ++ rest -> v <> [] -> forallb p v = true -> False
  end.
Proof.
  set (r := Re.Seq (Re.Lit l)
                   (Re.Seq (Re.Group 1 (Re.Rep false 1 p)) (Re.Lit c))).
  pose proof (search_spec r md) as H.
  assert (C : forall pre v rest,
             md = pre ++ l ++ v ++ c ++ rest -> v <> [] ->
             forallb p v = true -> Re.occurs_at r md (length pre) = true).
  { intros pre v rest -> Hne Hp. unfold Re.occurs_at.
    rewrite skipn_app_length.
    pose proof (@lazy_capture_complete l c p v rest Hne Hp) as Hc.
    fold r in Hc. destruct (Re.match_here r _); [reflexivity | contradiction]. }
  destruct (Re.search r md) as [m|]; simpl.
  - destruct H as (pre & suf & s' & E & Hm & Hn).
    apply lazy_capture_here in Hm.
    destruct Hm as (v & -> & Hne & Hp & Hg & Hmin).
    unfold Re.group. rewrite Hg. simpl.
    exists pre, s'. repeat split; auto.
    intros pre' v' rest' E' Hne' Hp'.
    destruct (Nat.le_gt_cases (length pre) (length pre')) as [|Hlt]; [assumption|].
    specialize (C _ _ _ E' Hne' Hp'). rewrite (Hn _ Hlt) in C. discriminate C.
  - intros pre v rest E Hne Hp. specialize (C _ _ _ E Hne Hp).
    rewrite H in C. discriminate C.
Qed.
Lemma rep_lazy_eq (A : Type) (p : Re.charset) (k k' : text -> option A) :
  (forall s, k s = k' s) ->
  forall s min, Re.rep_lazy p k min s = Re.rep_lazy p k' min s.
Proof.
  intros Hk. induction s as [|x s IH]; intros min; simpl.
  - destruct min; [now rewrite Hk | reflexivity].
  - destruct min; [rewrite Hk|]; rewrite IH; reflexivity.
Qed.

(** The fallback pattern, with what closes its group as a function. *)
Lemma fallback_exec (s : text) :
  Re.match_here final_output_fallback s =
  match Re.strip_prefix (lit "## Final Output\n\n") s with
  | Some t =>
    Re.rep_lazy space_or_not
      (fun s' => match (if ends_section s' then Some s' else None) with
                 | Some r => Some (r, [(1%nat, firstn (length t - length s') t)])
                 | None => None
                 end) 1 t
  | None => None
  end.
Proof.
  unfold Re.match_here, final_output_fallback. cbn [Re.exec].
  destruct (Re.strip_prefix (lit "## Final Output\n\n") s) as [t|];
    [|reflexivity].
  apply rep_lazy_eq. intros s'. unfold ends_section.
  destruct (Re.strip_prefix (lit "\n## ") s'); [reflexivity|].
  destruct (Re.at_eos s'); reflexivity.
Qed.

Lemma fallback_here (s s' : text) (g : Re.groups) :
  Re.match_here final_output_fallback s = Some (s', g) ->
  exists v,
    s = lit "## Final Output\n\n" ++ v ++ s' /\ v <> [] /\ g = [(1%nat, v)]
    /\ ends_section s' = true
    /\ forall j, (1 <= j < length v)%nat ->
                 ends_section (skipn j (v ++ s')) = false.
Proof.
  rewrite fallback_exec. intros H.
  destruct (Re.strip_prefix (lit "## Final Output\n\n") s) as [t|] eqn:Ht;
    [|discriminate].
  apply strip_prefix_Some in Ht.
  apply (@lazy_group_min space_or_not
           (fun s' => if ends_section s' then Some s' else None)) in H.
  destruct H as (v & suf & -> & Hne & _ & Hc & -> & Hn).
  destruct (ends_section suf) eqn:He; [|discriminate]. injection Hc as <-.
  exists v. repeat split; auto.
  intros j Hj. specialize (Hn j Hj).
  destruct (ends_section (skipn j (v ++ suf))); [discriminate | reflexivity].
Qed.

Lemma fallback_occurs (md : text) (i : nat) :
  Re.occurs_at final_output_fallback md i = heading_at (skipn i md).
Proof.
  unfold Re.occurs_at, heading_at. rewrite fallback_exec.
  destruct (Re.strip_prefix (lit "## Final Output\n\n") (skipn i md))
    as [[|c t]|]; try reflexivity.
  pose proof (@lazy_group_complete space_or_not
                (fun s' => if ends_section s' then Some s' else None)
                (c :: t) []) as H.
  rewrite app_nil_r in H.
  destruct (Re.rep_lazy _ _ 1 (c :: t)); [reflexivity|].
  exfalso. apply H; [discriminate | apply space_or_not_all | discriminate |
                     reflexivity].
Qed.

Lemma fence_head_split :
  lit "## Final Output\n\n```markdown\n"
  = lit "## Final Output\n\n" ++ lit "```markdown\n".
Proof. vm_compute. reflexivity. Qed.

(** The fenced pattern matches only where the heading is. *)
Lemma fenced_occurs (md : text) (i : nat) :
  Re.occurs_at final_output_pattern md i = true ->
  heading_at (skipn i md) = true.
Proof.
  unfold Re.occurs_at, heading_at.
  destruct (Re.match_here final_output_pattern (skipn i md)) as [[s' g]|] eqn:E;
    [|discriminate].
  intros _. unfold final_output_pattern in E.
  apply lazy_capture_here in E. destruct E as (v & -> & Hne & _).
  rewrite fence_head_split, <- app_assoc, strip_prefix_app.
  destruct v; [contradiction | reflexivity].
Qed.
Lemma strip_trimmed (s : text) : trimmed (strip s).
Proof.
  destruct (strip_spec s) as (a & b & _ & _ & _ & H1 & H2). split; assumption.
Qed.

(** ** The fields of a record *)

Section Fields.
Context {R : Runtime}.

Lemma extract_fields (md : text) (r : info float) :
  extract_test_info md = Ok r ->
  name r = option_map (Re.group 1) (Re.search title_pattern md)
  /\ name_heb r = option_map (fun tok => get_default TEST_NAMES_HEB tok tok)
                             (name r)
  /\ model r = option_map (Re.group 1) (Re.search config_pattern md)
  /\ user_request r = option_map (Re.group 1) (Re.search request_pattern md)
  /\ final_output r = extract_final_output md
  /\ filename r = None /\ status r = None.
Proof.
  unfold extract_test_info. intros H. apply rbind_Ok in H.
  destruct H as (sts & _ & E). injection E as <-. simpl.
  repeat split; auto. now destruct (Re.search title_pattern md).
Qed.

End Fields.

(** The identifier is the run of word characters after the first title
    marker that has a word character after it, and the label is read from
    the table with that run; without such a marker both are unset. *)
Theorem identifier_is_first_title_token :
  forall (R : Runtime) (md : text) (r : info float),
    extract_test_info md = Ok r ->
    match name r with
    | Some tok =>
      exists pre rest,
        md = pre ++ lit "# E2E Test Report: " ++ tok ++ rest
        /\ tok <> [] /\ forallb word tok = true /\ stops word rest
        /\ (forall i, (i < length pre)%nat ->
              marker_at (lit "# E2E Test Report: ") word (skipn i md) = false)
        /\ name_heb r = Some (get_default TEST_NAMES_HEB tok tok)
    | None =>
      (forall i, marker_at (lit "# E2E Test Report: ") word (skipn i md) = false)
      /\ name_heb r = None
    end.
Proof.
  intros R md r H. destruct (extract_fields _ H) as (Hn & Hh & _).
  pose proof (greedy_capture_search (lit "# E2E Test Report: ") word md) as S.
  fold title_pattern in S. rewrite <- Hn in S. rewrite Hh.
  destruct (name r) as [tok|]; simpl.
  - destruct S as (pre & rest & E & Hne & Hw & Hs & Hf).
    exists pre, rest. repeat split; auto.
  - split; [exact S | reflexivity].
Qed.

Lemma identifier_witness :
  exists r : info Sample.frac,
    extract_test_info (R := Sample.runtime) sample_text = Ok r
    /\ name r = Some (lit "Kibud_Av_VaEm")
    /\ match name r with
       | Some tok =>
         exists pre rest,
           sample_text = pre ++ lit "# E2E Test Report: " ++ tok ++ rest
           /\ tok <> [] /\ forallb (word (R := Sample.runtime)) tok = true
           /\ stops (word (R := Sample.runtime)) rest
           /\ (forall i, (i < length pre)%nat ->
                 marker_at (lit "# E2E Test Report: ")
                           (word (R := Sample.runtime))
                           (skipn i sample_text) = false)
           /\ name_heb r = Some (get_default TEST_NAMES_HEB tok tok)
       | None =>
         (forall i, marker_at (lit "# E2E Test Report: ")
                              (word (R := Sample.runtime))
                              (skipn i sample_text) = false)
         /\ name_heb r = None
       end.
Proof.
  assert (E : exists r, extract_test_info (R := Sample.runtime) sample_text = Ok r
                        /\ name r = Some (lit "Kibud_Av_VaEm"))
    by (vm_compute; eexists; split; reflexivity).
  destruct E as (r & E & En). exists r. split; [exact E|]. split; [exact En|].
  exact (identifier_is_first_title_token Sample.runtime sample_text E).
Defined.

(** The request is the rest of the line after the first request marker
    that has a character before the end of its line; without such a
    marker it is unset. *)
Theorem user_request_is_rest_of_line :
  forall (R : Runtime) (md : text) (r : info float),
    extract_test_info md = Ok r ->
    match user_request r with
    | Some req =>
      exists pre rest,
        md = pre ++ lit "**User Request:** " ++ req ++ rest
        /\ req <> [] /\ ~ In LF req
        /\ match rest with [] => True | c :: _ => c = LF end
        /\ (forall i, (i < length pre)%nat ->
              marker_at (lit "**User Request:** ") dot (skipn i md) = false)
    | None =>
      forall i, marker_at (lit "**User Request:** ") dot (skipn i md) = false
    end.
Proof.
  intros R md r H. destruct (extract_fields _ H) as (_ & _ & _ & Hu & _).
  pose proof (greedy_capture_search (lit "**User Request:** ") dot md) as S.
  fold request_pattern in S. rewrite <- Hu in S.
  destruct (user_request r) as [req|]; [|exact S].
  destruct S as (pre & rest & E & Hne & Hd & Hs & Hf).
  exists pre, rest. repeat split; auto.
  - intros Hin. rewrite forallb_forall in Hd. apply Hd in Hin.
    unfold dot in Hin. now rewrite N.eqb_refl in Hin.
  - destruct rest as [|c rest]; [exact I|]. simpl in Hs. unfold dot in Hs.
    apply negb_false_iff in Hs. now apply N.eqb_eq in Hs.
Qed.

Lemma user_request_witness :
  exists r : info Sample.frac,
    extract_test_info (R := Sample.runtime) sample_text = Ok r
    /\ user_request r = Some (lit "plan")
    /\ match user_request r with
       | Some req =>
         exists pre rest,
           sample_text = pre ++ lit "**User Request:** " ++ req ++ rest
           /\ req <> [] /\ ~ In LF req
           /\ match rest with [] => True | c :: _ => c = LF end
           /\ (forall i, (i < length pre)%nat ->
                 marker_at (lit "**User Request:** ") dot
                           (skipn i sample_text) = false)
       | None =>
         forall i, marker_at (lit "**User Request:** ") dot
                             (skipn i sample_text) = false
       end.
Proof.
  assert (E : exists r, extract_test_info (R := Sample.runtime) sample_text = Ok r
                        /\ user_request r = Some (lit "plan"))
    by (vm_compute; eexists; split; reflexivity).
  destruct E as (r & E & En). exists r. split; [exact E|]. split; [exact En|].
  exact (user_request_is_rest_of_line Sample.runtime sample_text E).
Defined.

(** The configuration value is the shortest non-empty text, without a
    newline, between the first model marker that has a closing [ |] on its
    line and that closing; without such a marker it is unset. *)
Theorem model_is_shortest_cell :
  forall (R : Runtime) (md : text) (r : info float),
    extract_test_info md = Ok r ->
    match model r with
    | Some v =>
      exists pre rest,
        md = pre ++ lit "| model | " ++ v ++ lit " |" ++ rest
        /\ v <> [] /\ ~ In LF v
        /\ (forall j, (1 <= j < length v)%nat ->
              starts_with (lit " |") (skipn j (v ++ lit " |" ++ rest)) = false)
        /\ (forall pre' v' rest',
               md = pre' ++ lit "| model | " ++ v' ++ lit " |" ++ rest' ->
               v' <> [] -> ~ In LF v' -> (length pre <= length pre')%nat)
    | None =>
      forall pre v rest,
        md = pre ++ lit "| model | " ++ v ++ lit " |" ++ rest ->
        v <> [] -> ~ In LF v -> False
    end.
Proof.
  intros R md r H. destruct (extract_fields _ H) as (_ & _ & Hm & _).
  pose proof (lazy_capture_search (lit "| model | ") (lit " |") dot md) as S.
  fold config_pattern in S. rewrite <- Hm in S.
  assert (D : forall v, forallb dot v = true <-> ~ In LF v).
  { intros v. rewrite forallb_forall. split.
    - intros Hd Hin. apply Hd in Hin. unfold dot in Hin.
      now rewrite N.eqb_refl in Hin.
    - intros Hn c Hc. unfold dot. apply negb_true_iff. apply N.eqb_neq.
      intros ->. contradiction. }
  destruct (model r) as [v|].
  - destruct S as (pre & rest & E & Hne & Hd & Hmin & Hf).
    exists pre, rest. repeat split; auto.
    + now apply D.
    + intros pre' v' rest' E' Hne' Hd'. apply (Hf pre' v' rest'); auto.
      now apply D.
  - intros pre v rest E Hne Hd. apply (S pre v rest); auto. now apply D.
Qed.

Lemma model_witness :
  exists r : info Sample.frac,
    extract_test_info (R := Sample.runtime) sample_text = Ok r
    /\ model r = Some (lit "opus")
    /\ match model r with
       | Some v =>
         exists pre rest,
           sample_text = pre ++ lit "| model | " ++ v ++ lit " |" ++ rest
           /\ v <> [] /\ ~ In LF v
           /\ (forall j, (1 <= j < length v)%nat ->
                 starts_with (lit " |") (skipn j (v ++ lit " |" ++ rest))
                 = false)
           /\ (forall pre' v' rest',
                  sample_text
                  = pre' ++ lit "| model | " ++ v' ++ lit " |" ++ rest' ->
                  v' <> [] -> ~ In LF v' -> (length pre <= length pre')%nat)
       | None =>
         forall pre v rest,
           sample_text = pre ++ lit "| model | " ++ v ++ lit " |" ++ rest ->
           v <> [] -> ~ In LF v -> False
       end.
Proof.
  assert (E : exists r, extract_test_info (R := Sample.runtime) sample_text = Ok r
                        /\ model r = Some (lit "opus"))
    by (vm_compute; eexists; split; reflexivity).
  destruct E as (r & E & En). exists r. split; [exact E|]. split; [exact En|].
  exact (model_is_shortest_cell Sample.runtime sample_text E).
Defined.
(** ** The final output: when it is set, and from what *)

(** The final output is set exactly when the text holds, somewhere, the
    heading [## Final Output], a blank line and at least one more
    character; when set, it neither begins nor ends with whitespace. *)
Theorem final_output_set_iff_heading :
  forall (R : Runtime) (md : text) (r : info float),
    extract_test_info md = Ok r ->
    (final_output r = None <-> forall i, heading_at (skipn i md) = false)
    /\ (forall v, final_output r = Some v -> trimmed v).
Proof.
  intros R md r H. destruct (extract_fields _ H) as (_ & _ & _ & _ & -> & _).
  unfold extract_final_output.
  pose proof (search_spec final_output_pattern md) as S1.
  pose proof (search_spec final_output_fallback md) as S2.
  destruct (Re.search final_output_pattern md) as [m1|].
  - split.
    + split; [intros Q; discriminate Q|]. intros Hno. exfalso.
      destruct S1 as (pre & suf & s' & E & Hm & _).
      specialize (Hno (length pre)).
      rewrite fenced_occurs in Hno; [discriminate Hno|].
      rewrite E. exact (occurs_at_app _ pre _ Hm).
    + intros v Hv. injection Hv as <-. apply strip_trimmed.
  - destruct (Re.search final_output_fallback md) as [m2|].
    + split.
      * split; [intros Q; discriminate Q|]. intros Hno. exfalso.
        destruct S2 as (pre & suf & s' & E & Hm & _).
        specialize (Hno (length pre)). rewrite <- fallback_occurs in Hno.
        rewrite E in Hno. rewrite (occurs_at_app _ pre _ Hm) in Hno.
        discriminate Hno.
      * intros v Hv. injection Hv as <-. apply strip_trimmed.
    + split; [|intros v Q; discriminate Q]. split; [|intros _; reflexivity].
      intros _ i. rewrite <- fallback_occurs. apply S2.
Qed.

Lemma final_output_set_witness :
  exists r : info Sample.frac,
    extract_test_info (R := Sample.runtime) sample_text = Ok r
    /\ final_output r = Some (lit "Hello")
    /\ trimmed (lit "Hello").
Proof.
  assert (E : exists r, extract_test_info (R := Sample.runtime) sample_text = Ok r
                        /\ final_output r = Some (lit "Hello"))
    by (vm_compute; eexists; split; reflexivity).
  destruct E as (r & E & Ef). exists r. split; [exact E|]. split; [exact Ef|].
  exact (proj2 (final_output_set_iff_heading Sample.runtime sample_text E)
               _ Ef).
Defined.

(** Where a final output comes from: the fenced block of the first
    heading that has one, closed by the first fence after the block's
    first character; or, when no heading has a fenced block, the text
    after the first heading up to the first place, after that text's first
    character, where a line begins with [## ] or the text ends.  In both
    cases the whitespace at the ends is removed. *)
Theorem final_output_source :
  forall (R : Runtime) (md : text) (r : info float) (v : text),
    extract_test_info md = Ok r ->
    final_output r = Some v ->
    (exists pre inner post,
        md = pre ++ lit "## Final Output\n\n```markdown\n" ++ inner
             ++ lit "```" ++ post
        /\ inner <> [] /\ v = strip inner
        /\ (forall j, (1 <= j < length inner)%nat ->
              at_fence (skipn j (inner ++ lit "```" ++ post)) = false)
        /\ (forall pre' inner' post',
               md = pre' ++ lit "## Final Output\n\n```markdown\n" ++ inner'
                    ++ lit "```" ++ post' ->
               inner' <> [] -> (length pre <= length pre')%nat))
    \/ ((forall pre inner post,
            md = pre ++ lit "## Final Output\n\n```markdown\n" ++ inner
                 ++ lit "```" ++ post ->
            inner <> [] -> False)
        /\ exists pre body post,
             md = pre ++ lit "## Final Output\n\n" ++ body ++ post
             /\ body <> [] /\ v = strip body
             /\ ends_section post = true
             /\ (forall j, (1 <= j < length body)%nat ->
                   ends_section (skipn j (body ++ post)) = false)
             /\ (forall i, (i < length pre)%nat ->
                   heading_at (skipn i md) = false)).
Proof.
  intros R md r v H Hv.
  destruct (extract_fields _ H) as (_ & _ & _ & _ & Hf & _).
  rewrite Hf in Hv. unfold extract_final_output in Hv.
  pose proof (lazy_capture_search (lit "## Final Output\n\n```markdown\n")
                (lit "```") space_or_not md) as S1.
  fold final_output_pattern in S1.
  pose proof (search_spec final_output_fallback md) as S2.
  destruct (Re.search final_output_pattern md) as [m1|]; cbn [option_map] in S1.
  - left. injection Hv as <-.
    destruct S1 as (pre & post & E & Hne & _ & Hmin & Hfirst).
    exists pre, (Re.group 1 m1), post. repeat split; auto.
    intros pre' inner' post' E' Hne'. apply (Hfirst pre' inner' post'); auto.
    apply space_or_not_all.
  - right. split.
    + intros pre inner post E Hne. apply (S1 pre inner post); auto.
      apply space_or_not_all.
    + destruct (Re.search final_output_fallback md) as [m2|]; [|discriminate].
      injection Hv as <-.
      destruct S2 as (pre & suf & s' & E & Hm & Hn).
      apply fallback_here in Hm. destruct Hm as (b & -> & Hne & Hg & He & Hmin).
      unfold Re.group. rewrite Hg. cbn [Re.lookup Nat.eqb].
      exists pre, b, s'. repeat split; auto.
      intros i Hi. rewrite <- fallback_occurs. now apply Hn.
Qed.

Lemma final_output_source_witness :
  exists r : info Sample.frac,
    extract_test_info (R := Sample.runtime)
      (report_title ++ lit "## Final Output\n\n```markdown\n" ++ fenced_body
       ++ lit "```" ++ next_section) = Ok r
    /\ final_output r = Some (lit "# Plan\nplay")
    /\ exists inner : text, lit "# Plan\nplay" = strip inner.
Proof.
  assert (E : exists r,
             extract_test_info (R := Sample.runtime)
               (report_title ++ lit "## Final Output\n\n```markdown\n"
                ++ fenced_body ++ lit "```" ++ next_section) = Ok r
             /\ final_output r = Some (lit "# Plan\nplay"))
    by (vm_compute; eexists; split; reflexivity).
  destruct E as (r & E & Ef). exists r. split; [exact E|]. split; [exact Ef|].
  destruct (final_output_source Sample.runtime _ E Ef)
    as [(pre & inner & post & _ & _ & Hs & _)
       |(_ & pre & body & post & _ & _ & Hs & _)]; eauto.
Defined.
(** ** Which exceptions the pages raise *)

Section Outcomes.
Context {R : Runtime}.

Lemma table_get_cases (table : dict text) (key default : json float) :
  if hashable key then exists v, table_get table key default = Ok v
  else table_get table key default = Raise TypeError.
Proof. destruct key; simpl; eauto. Qed.

Lemma all_str_cases (l : list (json float)) :
  if forallb is_str l then exists v, all_str l = Ok v
  else all_str l = Raise TypeError.
Proof.
  induction l as [|x l IH]; simpl; [eauto|].
  destruct x; simpl; try reflexivity.
  destruct (forallb is_str l).
  - destruct IH as [v ->]. simpl. eauto.
  - rewrite IH. reflexivity.
Qed.

Lemma join_value_cases (sep : text) (x : json float) :
  if joinable x then exists v, join_value sep x = Ok v
  else join_value sep x = Raise TypeError.
Proof.
  destruct x; simpl; eauto.
  pose proof (all_str_cases l) as H. destruct (forallb is_str l).
  - destruct H as [v ->]. simpl. eauto.
  - rewrite H. reflexivity.
Qed.

Lemma test_content_cases (test : info float) :
  match get_activity_details test with
  | JObj kv =>
    if hashable (activity_type_of kv) && hashable (age_group_of kv)
       && joinable (main_values_of kv)
    then exists content, test_content test = Ok content
    else test_content test = Raise TypeError
  | _ => test_content test = Raise AttributeError
  end.
Proof.
  unfold test_content.
  destruct (get_activity_details test) as [| | | | |l|kv]; try reflexivity.
  unfold json_get. cbn [rbind].
  fold (activity_type_of kv). fold (age_group_of kv). fold (main_values_of kv).
  pose proof (table_get_cases ACTIVITY_TYPES_HEB (activity_type_of kv)
                              (JStr (lit ""))) as H1.
  destruct (hashable (activity_type_of kv)); cbn [andb].
  - destruct H1 as [v1 ->]. cbn [rbind].
    pose proof (table_get_cases AGE_GROUPS_HEB (age_group_of kv)
                                (JStr (lit ""))) as H2.
    destruct (hashable (age_group_of kv)); cbn [andb].
    + destruct H2 as [v2 ->]. cbn [rbind].
      pose proof (join_value_cases (lit ", ") (main_values_of kv)) as H3.
      destruct (joinable (main_values_of kv)).
      * destruct H3 as [v3 ->]. cbn [rbind]. eauto.
      * rewrite H3. reflexivity.
    + rewrite H2. reflexivity.
  - rewrite H1. reflexivity.
Qed.

Lemma test_item_cases (test : info float) :
  match get_activity_details test with
  | JObj kv =>
    if hashable (activity_type_of kv) && hashable (age_group_of kv)
    then match filename test with
         | Some _ => exists row, test_item test = Ok row
         | None => test_item test = Raise KeyError
         end
    else test_item test = Raise TypeError
  | _ => test_item test = Raise AttributeError
  end.
Proof.
  unfold test_item.
  destruct (get_activity_details test) as [| | | | |l|kv]; try reflexivity.
  unfold json_get. cbn [rbind].
  fold (activity_type_of kv). fold (age_group_of kv).
  pose proof (table_get_cases ACTIVITY_TYPES_HEB (activity_type_of kv)
                              (activity_type_of kv)) as H1.
  destruct (hashable (activity_type_of kv)); cbn [andb].
  - destruct H1 as [v1 ->]. cbn [rbind].
    pose proof (table_get_cases AGE_GROUPS_HEB (age_group_of kv)
                                (age_group_of kv)) as H2.
    destruct (hashable (age_group_of kv)).
    + destruct H2 as [v2 ->]. cbn [rbind].
      destruct (filename test); eauto.
    + rewrite H2. reflexivity.
  - rewrite H1. reflexivity.
Qed.

(** A page is formatted from its content; the content decides. *)
Lemma generate_test_html_run (test : info float) (md : text) (w : world) :
  generate_test_html test md w =
  match test_content test with
  | Ok content =>
    (Ok (html_page (display_name test) content
                   (strftime_dmy (now_at w (ticks w)))), ticked w)
  | Raise e => (Raise e, w)
  end.
Proof.
  unfold generate_test_html, bind, lift, now.
  destruct (test_content test) as [content|e]; [|reflexivity].
  now rewrite format_html_template.
Qed.

Lemma generate_index_html_run (tests : list (info float)) (w : world) :
  generate_index_html tests w =
  match index_content tests with
  | Ok content =>
    (Ok (html_page INDEX_TITLE content
                   (strftime_dmy (now_at w (ticks w)))), ticked w)
  | Raise e => (Raise e, w)
  end.
Proof.
  unfold generate_index_html, bind, lift, now.
  destruct (index_content tests) as [content|e]; [|reflexivity].
  now rewrite format_html_template.
Qed.

End Outcomes.

(** [generate_test_html] returns a page, and has read the clock once,
    unless the activity details are not a dict ([AttributeError]) or the
    activity type or the age group is a list or a dict, or the main values
    are not an iterable of strings ([TypeError]); then it raises before
    reading the clock.  It raises nothing else. *)
Theorem detail_page_outcomes :
  forall (R : Runtime) (test : info float) (md : text) (w : world),
    match get_activity_details test with
    | JObj kv =>
      if hashable (activity_type_of kv) && hashable (age_group_of kv)
         && joinable (main_values_of kv)
      then exists page, generate_test_html test md w = (Ok page, ticked w)
      else generate_test_html test md w = (Raise TypeError, w)
    | _ => generate_test_html test md w = (Raise AttributeError, w)
    end.
Proof.
  intros R test md w. rewrite generate_test_html_run.
  pose proof (test_content_cases test) as H.
  destruct (get_activity_details test) as [| | | | |l|kv]; try (now rewrite H).
  destruct (hashable (activity_type_of kv) && hashable (age_group_of kv)
            && joinable (main_values_of kv)).
  - destruct H as [content ->]. eauto.
  - now rewrite H.
Qed.
(** ** A run, file by file *)

Section Run.
Context {R : Runtime}.

Lemma write_text_run (file_name content : text) (w : world) :
  write_text file_name content w =
  if encodable content then (Ok tt, after_write w file_name content)
  else (Raise UnicodeEncodeError, after_write w file_name []).
Proof.
  unfold write_text, encodable, after_write.
  destruct (existsb is_surrogate content); reflexivity.
Qed.

Lemma process_file_run (stem : text) (bytes : list byte) (w : world) :
  process_file (stem, bytes) w =
  match read_text bytes with
  | Raise e => (Raise e, w)
  | Ok md =>
    match extract_test_info md with
    | Raise e => (Raise e, w)
    | Ok r =>
      match test_content (with_file_and_status r stem md) with
      | Raise e => (Raise e, w)
      | Ok content =>
        let page :=
          html_page (display_name (with_file_and_status r stem md)) content
                    (strftime_dmy (now_at w (ticks w))) in
        if encodable page
        then (Ok (with_file_and_status r stem md),
              after_write (ticked w) (stem ++ lit ".html") page)
        else (Raise UnicodeEncodeError,
              after_write (ticked w) (stem ++ lit ".html") [])
      end
    end
  end.
Proof.
  unfold process_file, bind, lift, ret.
  destruct (read_text bytes) as [md|e]; [|reflexivity].
  destruct (extract_test_info md) as [r|e]; [|reflexivity].
  rewrite generate_test_html_run.
  destruct (test_content (with_file_and_status r stem md)) as [content|e];
    [|reflexivity].
  rewrite write_text_run. cbv zeta.
  destruct (encodable _); reflexivity.
Qed.

Lemma extract_raises (md : text) (e : exn) :
  extract_test_info md = Raise e -> e = ValueError.
Proof.
  unfold extract_test_info. intros H.
  destruct (collect_steps_cases (Re.finditer step_pattern md))
    as [(_ & sts & E)|(_ & E)]; rewrite E in H; simpl in H; congruence.
Qed.

Lemma test_content_raises (test : info float) (e : exn) :
  test_content test = Raise e -> e = AttributeError \/ e = TypeError.
Proof.
  intros H. pose proof (test_content_cases test) as C.
  destruct (get_activity_details test) as [| | | | |l|kv];
    try (left; congruence).
  destruct (hashable (activity_type_of kv) && hashable (age_group_of kv)
            && joinable (main_values_of kv)).
  - destruct C as [c C]. congruence.
  - right. congruence.
Qed.

(** A record whose detail page was rendered has a row in the index. *)
Lemma rendered_has_row (test : info float) (content : text) :
  test_content test = Ok content -> filename test <> None ->
  exists row, test_item test = Ok row.
Proof.
  intros H Hf. pose proof (test_content_cases test) as C.
  pose proof (test_item_cases test) as I.
  destruct (get_activity_details test) as [| | | | |l|kv]; try congruence.
  destruct (hashable (activity_type_of kv)); cbn [andb] in *; [|congruence].
  destruct (hashable (age_group_of kv)); cbn [andb] in *; [|congruence].
  destruct (filename test); [exact I | contradiction].
Qed.

Lemma test_items_Ok (tests : list (info float)) :
  Forall (fun t => exists row, test_item t = Ok row) tests ->
  forall acc, exists html, test_items acc tests = Ok html.
Proof.
  induction 1 as [|t tests [row Ht] _ IH]; intros acc; simpl; [eauto|].
  rewrite Ht. simpl. apply IH.
Qed.

Lemma index_content_total (tests : list (info float)) :
  Forall (fun t => exists row, test_item t = Ok row) tests ->
  exists content, index_content tests = Ok content.
Proof.
  intros H. unfold index_content.
  destruct (test_items_Ok H (lit "<div class=\x22test-list\x22>"))
    as [html ->].
  cbn [rbind]. eauto.
Qed.

(** What a failing file leaves behind, and what a processed one. *)
Lemma process_file_cases (file : text * list byte) (w : world) :
  match process_file file w with
  | (Ok i, w') =>
    (exists content, test_content i = Ok content)
    /\ filename i = Some (fst file)
    /\ exists page, page <> []
         /\ w' = after_write (ticked w) (fst file ++ lit ".html") page
  | (Raise e, w') =>
    (input_error e = true /\ w' = w)
    \/ (e = UnicodeEncodeError
        /\ w' = after_write (ticked w) (fst file ++ lit ".html") [])
  end.
Proof.
  destruct file as [stem bytes]. rewrite process_file_run. cbn [fst].
  destruct (read_text bytes) as [md|e] eqn:Er.
  - destruct (extract_test_info md) as [r|e] eqn:Ex.
    + destruct (test_content (with_file_and_status r stem md))
        as [content|e] eqn:Ec.
      * cbv zeta. destruct (encodable _).
        -- split; [eauto|]. split; [reflexivity|].
           eexists. split; [|reflexivity].
           unfold html_page. intros E. apply app_eq_nil in E.
           destruct E as [E _]. vm_compute in E. discriminate E.
        -- right. split; reflexivity.
      * left. split; [|reflexivity].
        destruct (test_content_raises _ Ec) as [-> | ->]; reflexivity.
    + left. split; [|reflexivity]. now rewrite (extract_raises _ Ex).
  - left. split; [|reflexivity]. unfold read_text in Er.
    destruct (Utf8.decode_bytes bytes); [discriminate|]. now injection Er as <-.
Qed.

Lemma process_files_cases (files : list (text * list byte)) :
  forall (tests : list (info float)) (w : world),
    Forall (fun t => exists row, test_item t = Ok row) tests ->
    match process_files tests files w with
    | (Ok tests', w') =>
      Forall (fun t => exists row, test_item t = Ok row) tests'
    | (Raise e, w') =>
      exists done file rest tests1 w1,
        files = done ++ file :: rest
        /\ process_files tests done w = (Ok tests1, w1)
        /\ ((input_error e = true /\ w' = w1)
            \/ (e = UnicodeEncodeError
                /\ w' = after_write (ticked w1) (fst file ++ lit ".html") []))
    end.
Proof.
  induction files as [|file rest IH]; intros tests w Ht.
  - exact Ht.
  - cbn [process_files]. unfold bind.
    pose proof (process_file_cases file w) as C.
    destruct (process_file file w) as [[i|e] w1] eqn:P.
    + destruct C as ([content Hc] & Hf & _).
      assert (Ht' : Forall (fun t => exists row, test_item t = Ok row)
                           (tests ++ [i])).
      { apply Forall_app. split; [exact Ht|]. constructor; [|constructor].
        apply (rendered_has_row _ Hc). rewrite Hf. discriminate. }
      specialize (IH (tests ++ [i]) w1 Ht').
      destruct (process_files (tests ++ [i]) rest w1) as [[tests'|e] w2].
      * exact IH.
      * destruct IH as (done & file' & rest' & tests1 & w3 & -> & Hp & Hc').
        exists (file :: done), file', rest', tests1, w3.
        split; [reflexivity|]. split; [|exact Hc'].
        cbn [process_files app]. unfold bind. now rewrite P.
    + exists [], file, rest, tests, w. split; [reflexivity|].
      split; [reflexivity | exact C].
Qed.

End Run.
(** ** A run that fails *)

Lemma html_page_not_empty (title content date : text) :
  html_page title content date <> [].
Proof.
  unfold html_page. intros E. apply app_eq_nil in E.
  destruct E as [E _]. vm_compute in E. discriminate E.
Qed.

Lemma cbind_unfold (A B : Type) (m : Console.C A) (f : A -> Console.C B)
      (st : Console.state) :
  Console.cbind m f st =
  match m st with
  | (Ok a, st') => f a st'
  | (Raise e, st') => (Raise e, st')
  end.
Proof. reflexivity. Qed.

Lemma cbind_print (A : Type) (stdout_encodes : codepoint -> bool)
      (line : text) (k : unit -> Console.C A) (st : Console.state) :
  Console.cbind (Console.print stdout_encodes line) k st =
  if forallb stdout_encodes line
  then k tt {| Console.disk := Console.disk st;
               Console.printed := line :: Console.printed st |}
  else (Raise UnicodeEncodeError, st).
Proof.
  unfold Console.cbind, Console.print.
  destruct (forallb stdout_encodes line); reflexivity.
Qed.

Lemma cbind_run (A B : Type) (m : M A) (k : A -> Console.C B)
      (w : world) (ls : list text) :
  Console.cbind (Console.run m) k
                {| Console.disk := w; Console.printed := ls |} =
  match m w with
  | (Ok a, w') => k a {| Console.disk := w'; Console.printed := ls |}
  | (Raise e, w') =>
    (Raise e, {| Console.disk := w'; Console.printed := ls |})
  end.
Proof.
  unfold Console.cbind, Console.run. cbn [Console.disk Console.printed].
  destruct (m w) as [[a|e] w']; reflexivity.
Qed.

Section ConsoleRun.
Context {R : Runtime}.
Variable stdout_encodes : codepoint -> bool.
Variable output_dir : text.

Lemma console_process_files_cases (files : list (text * list byte)) :
  forall (tests : list (info float)) (st : Console.state),
    Forall (fun t => exists row, test_item t = Ok row) tests ->
    match Console.process_files stdout_encodes tests files st with
    | (Ok tests', st') =>
      Forall (fun t => exists row, test_item t = Ok row) tests'
      /\ length tests' = (length tests + length files)%nat
      /\ map fst (written (Console.disk st'))
         = rev (map (fun f => fst f ++ lit ".html") files)
           ++ map fst (written (Console.disk st))
    | (Raise e, st') =>
      exists done file rest,
        files = done ++ file :: rest
        /\ ((e = UnicodeEncodeError
             /\ forallb stdout_encodes
                        (lit "Processing: " ++ fst file ++ lit ".md") = false
             /\ map fst (written (Console.disk st'))
                = rev (map (fun f => fst f ++ lit ".html") done)
                  ++ map fst (written (Console.disk st)))
            \/ (input_error e = true
                /\ map fst (written (Console.disk st'))
                   = rev (map (fun f => fst f ++ lit ".html") done)
                     ++ map fst (written (Console.disk st)))
            \/ (e = UnicodeEncodeError
                /\ exists before,
                     written (Console.disk st')
                     = (fst file ++ lit ".html", []) :: before
                     /\ map fst before
                        = rev (map (fun f => fst f ++ lit ".html") done)
                          ++ map fst (written (Console.disk st)))
            \/ (e = UnicodeEncodeError
                /\ forallb stdout_encodes
                           (lit "  Created: " ++ fst file ++ lit ".html")
                   = false
                /\ exists page before,
                     page <> []
                     /\ written (Console.disk st')
                        = (fst file ++ lit ".html", page) :: before
                     /\ map fst before
                        = rev (map (fun f => fst f ++ lit ".html") done)
                          ++ map fst (written (Console.disk st))))
    end.
Proof.
  induction files as [|file rest IH]; intros tests st Ht.
  - cbn [Console.process_files length map rev app]. split; [exact Ht|].
    split; [lia | reflexivity].
  - cbn [Console.process_files]. unfold Console.cbind at 1.
    unfold Console.print at 1.
    destruct (forallb stdout_encodes
                      (lit "Processing: " ++ fst file ++ lit ".md")) eqn:E1.
    2:{ exists [], file, rest. split; [reflexivity|]. left.
        split; [reflexivity | split; [exact E1 | reflexivity]]. }
    unfold Console.cbind at 1. unfold Console.run at 1.
    cbn [Console.disk Console.printed].
    pose proof (process_file_cases file (Console.disk st)) as C.
    destruct (process_file file (Console.disk st)) as [[i|e] w1].
    2:{ exists [], file, rest. split; [reflexivity|]. right.
        destruct C as [(Hi & ->)|(-> & ->)].
        - left. split; [exact Hi | reflexivity].
        - right. left. split; [reflexivity|]. eexists.
          split; reflexivity. }
    destruct C as ([content Hc] & Hf & page & Hpage & ->).
    unfold Console.cbind at 1. unfold Console.print at 1.
    cbn [Console.disk Console.printed].
    destruct (forallb stdout_encodes
                      (lit "  Created: " ++ fst file ++ lit ".html")) eqn:E2.
    2:{ exists [], file, rest. split; [reflexivity|]. right. right. right.
        split; [reflexivity|]. split; [exact E2|].
        exists page. eexists. split; [exact Hpage|].
        split; reflexivity. }
    assert (Ht' : Forall (fun t => exists row, test_item t = Ok row)
                         (tests ++ [i])).
    { apply Forall_app. split; [exact Ht|]. constructor; [|constructor].
      apply (rendered_has_row _ Hc). rewrite Hf. discriminate. }
    match goal with
    | |- match Console.process_files _ _ _ ?s with _ => _ end =>
      specialize (IH (tests ++ [i]) s Ht');
      destruct (Console.process_files stdout_encodes (tests ++ [i]) rest s)
        as [[tests'|e] st2]
    end.
    + destruct IH as (F & Hl & Hw). split; [exact F|]. split.
      * rewrite Hl, length_app. simpl. lia.
      * rewrite Hw. cbn [Console.disk after_write written map fst rev].
        now rewrite <- app_assoc.
    + destruct IH as (done & file' & rest' & -> & IH).
      exists (file :: done), file', rest'. split; [reflexivity|].
      cbn [Console.disk after_write written map fst rev] in *.
      rewrite <- !app_assoc. exact IH.
Qed.

End ConsoleRun.

(** A run that raises, prints included.  It stops in the loop, at a
    file: at the line that announces it, when standard output cannot
    encode that line; at the file itself, when it cannot be read
    ([UnicodeDecodeError]), extracted ([ValueError]) or rendered
    ([AttributeError], [TypeError]); at its page, which is left empty, when
    the page cannot be encoded; or at the line that reports the page, which
    is then written in full.  In each case the files before it have their
    pages and the files after it have none.  Or it stops after the loop,
    when every file has its page: at the index page, which is left empty,
    when it cannot be encoded; or at one of the three closing lines, and
    then the index page is written in full although the run fails.
    Errors of the operating system apart (a directory or a file that
    cannot be opened, a standard output that is closed), which are not
    modelled, no other exception leaves the run. *)
Theorem failed_run_outcomes :
  forall (R : Runtime) (stdout_encodes : codepoint -> bool)
         (output_dir : text) (test_files : list (text * list byte))
         (st st' : Console.state) (e : exn),
    Console.main stdout_encodes output_dir test_files st = (Raise e, st') ->
    (exists done file rest,
        test_files = done ++ file :: rest
        /\ ((e = UnicodeEncodeError
             /\ forallb stdout_encodes
                        (lit "Processing: " ++ fst file ++ lit ".md") = false
             /\ map fst (written (Console.disk st'))
                = rev (map (fun f => fst f ++ lit ".html") done)
                  ++ map fst (written (Console.disk st)))
            \/ (input_error e = true
                /\ map fst (written (Console.disk st'))
                   = rev (map (fun f => fst f ++ lit ".html") done)
                     ++ map fst (written (Console.disk st)))
            \/ (e = UnicodeEncodeError
                /\ exists before,
                     written (Console.disk st')
                     = (fst file ++ lit ".html", []) :: before
                     /\ map fst before
                        = rev (map (fun f => fst f ++ lit ".html") done)
                          ++ map fst (written (Console.disk st)))
            \/ (e = UnicodeEncodeError
                /\ forallb stdout_encodes
                           (lit "  Created: " ++ fst file ++ lit ".html")
                   = false
                /\ exists page before,
                     page <> []
                     /\ written (Console.disk st')
                        = (fst file ++ lit ".html", page) :: before
                     /\ map fst before
                        = rev (map (fun f => fst f ++ lit ".html") done)
                          ++ map fst (written (Console.disk st)))))
    \/ (e = UnicodeEncodeError
        /\ exists before,
             written (Console.disk st') = (lit "index.html", []) :: before
             /\ map fst before
                = rev (map (fun f => fst f ++ lit ".html") test_files)
                  ++ map fst (written (Console.disk st)))
    \/ (e = UnicodeEncodeError
        /\ (forallb stdout_encodes (lit "\nCreated index: index.html") = false
            \/ forallb stdout_encodes
                       (lit "\n✅ Generated " ++ str_int (len test_files)
                        ++ lit " test reports + index page") = false
            \/ forallb stdout_encodes
                       (lit "📁 Output directory: " ++ output_dir) = false)
        /\ exists page before,
             page <> []
             /\ written (Console.disk st') = (lit "index.html", page) :: before
             /\ map fst before
                = rev (map (fun f => fst f ++ lit ".html") test_files)
                  ++ map fst (written (Console.disk st))).
Proof.
  intros R stdout_encodes output_dir test_files [w ls] st' e H.
  unfold Console.main in H. rewrite cbind_unfold in H.
  pose proof (@console_process_files_cases
                R stdout_encodes test_files []
                {| Console.disk := w; Console.printed := ls |}
                (Forall_nil _)) as C.
  destruct (Console.process_files stdout_encodes [] test_files _)
    as [[tests|e1] [w1 ls1]].
  2:{ left. apply pair_equal_spec in H. destruct H as [He <-].
      injection He as <-. exact C. }
  right. destruct C as (F & Hl & Hw).
  cbn [Console.disk] in Hw.
  assert (El : len tests = len test_files) by (unfold len; now rewrite Hl).
  rewrite cbind_run, generate_index_html_run in H.
  destruct (index_content_total F) as [content Hc]. rewrite Hc in H.
  rewrite cbind_run, write_text_run in H.
  pose proof (@html_page_not_empty INDEX_TITLE content
                (strftime_dmy (now_at w1 (ticks w1)))) as Hpage.
  revert H Hpage.
  generalize (html_page INDEX_TITLE content
                        (strftime_dmy (now_at w1 (ticks w1)))).
  intros page H Hpage.
  destruct (encodable page).
  2:{ left. apply pair_equal_spec in H. destruct H as [He <-].
      split; [congruence|]. eexists. split; [reflexivity | exact Hw]. }
  right. rewrite El in H.
  assert (W : forall ls2,
             exists page0 before,
               page0 <> []
               /\ written (Console.disk
                             {| Console.disk :=
                                  after_write (ticked w1) (lit "index.html")
                                              page;
                                Console.printed := ls2 |})
                  = (lit "index.html", page0) :: before
               /\ map fst before
                  = rev (map (fun f => fst f ++ lit ".html") test_files)
                    ++ map fst (written w)).
  { intros ls2. exists page. eexists. split; [exact Hpage|].
    split; [reflexivity | exact Hw]. }
  cbn [Console.disk]. revert H W.
  generalize (lit "\nCreated index: index.html").
  generalize (lit "\n✅ Generated " ++ str_int (len test_files)
              ++ lit " test reports + index page").
  generalize (lit "📁 Output directory: " ++ output_dir).
  intros l3 l2 l1 H W.
  rewrite cbind_print in H.
  destruct (forallb stdout_encodes l1) eqn:E1.
  2:{ apply pair_equal_spec in H. destruct H as [He <-].
      split; [congruence|]. split; [left; reflexivity | apply W]. }
  rewrite cbind_print in H.
  destruct (forallb stdout_encodes l2) eqn:E2.
  2:{ apply pair_equal_spec in H. destruct H as [He <-].
      split; [congruence|]. split; [right; left; reflexivity | apply W]. }
  unfold Console.print in H.
  destruct (forallb stdout_encodes l3) eqn:E3; [discriminate H|].
  apply pair_equal_spec in H. destruct H as [He <-].
  split; [congruence|]. split; [right; right; reflexivity | apply W].
Qed.

(** A run on a standard output in Latin-1: the page of the sample report
    and the index page are written in full, and the line with the check
    mark raises [UnicodeEncodeError]. *)
Lemma failed_run_witness :
  exists st' : Console.state,
    Console.main (R := Sample.runtime) latin1 (lit "html")
                 [(lit "test_01", sample_report)] fresh_console = (Raise UnicodeEncodeError, st')
    /\ map fst (written (Console.disk st'))
       = [lit "index.html"; lit "test_01.html"]
    /\ (
    (exists done file rest,
        [(lit "test_01", sample_report)] = done ++ file :: rest
        /\ ((UnicodeEncodeError = UnicodeEncodeError
             /\ forallb latin1
                        (lit "Processing: " ++ fst file ++ lit ".md") = false
             /\ map fst (written (Console.disk st'))
                = rev (map (fun f => fst f ++ lit ".html") done)
                  ++ map fst (written (Console.disk fresh_console)))
            \/ (input_error UnicodeEncodeError = true
                /\ map fst (written (Console.disk st'))
                   = rev (map (fun f => fst f ++ lit ".html") done)
                     ++ map fst (written (Console.disk fresh_console)))
            \/ (UnicodeEncodeError = UnicodeEncodeError
                /\ exists before,
                     written (Console.disk st')
                     = (fst file ++ lit ".html", []) :: before
                     /\ map fst before
                        = rev (map (fun f => fst f ++ lit ".html") done)
                          ++ map fst (written (Console.disk fresh_console)))
            \/ (UnicodeEncodeError = UnicodeEncodeError
                /\ forallb latin1
                           (lit "  Created: " ++ fst file ++ lit ".html")
                   = false
                /\ exists page before,
                     page <> []
                     /\ written (Console.disk st')
                        = (fst file ++ lit ".html", page) :: before
                     /\ map fst before
                        = rev (map (fun f => fst f ++ lit ".html") done)
                          ++ map fst (written (Console.disk fresh_console)))))
    \/ (UnicodeEncodeError = UnicodeEncodeError
        /\ exists before,
             written (Console.disk st') = (lit "index.html", []) :: before
             /\ map fst before
                = rev (map (fun f => fst f ++ lit ".html") [(lit "test_01", sample_report)])
                  ++ map fst (written (Console.disk fresh_console)))
    \/ (UnicodeEncodeError = UnicodeEncodeError
        /\ (forallb latin1 (lit "\nCreated index: index.html") = false
            \/ forallb latin1
                       (lit "\n✅ Generated " ++ str_int (len [(lit "test_01", sample_report)])
                        ++ lit " test reports + index page") = false
            \/ forallb latin1
                       (lit "📁 Output directory: " ++ (lit "html")) = false)
        /\ exists page before,
             page <> []
             /\ written (Console.disk st') = (lit "index.html", page) :: before
             /\ map fst before
                = rev (map (fun f => fst f ++ lit ".html") [(lit "test_01", sample_report)])
                  ++ map fst (written (Console.disk fresh_console)))).
Proof.
  assert (E : exists st',
             Console.main (R := Sample.runtime) latin1 (lit "html")
                 [(lit "test_01", sample_report)] fresh_console = (Raise UnicodeEncodeError, st')
             /\ map fst (written (Console.disk st'))
                = [lit "index.html"; lit "test_01.html"]).
  { vm_compute. eexists. split; reflexivity. }
  destruct E as (st' & E & Hw). exists st'. split; [exact E|].
  split; [exact Hw|].
  exact (@failed_run_outcomes Sample.runtime latin1 (lit "html")
           [(lit "test_01", sample_report)] fresh_console st' _ E).
Defined.
(** ** What the pages show *)

Section Shown.
Context {R : Runtime}.

Lemma table_get_index (table : dict text) (key v : json float) :
  table_get table key key = Ok v -> py_str v = index_tag table key.
Proof.
  destruct key; simpl; intros H; try discriminate; injection H as <-;
    try reflexivity.
  destruct (dict_get table s); reflexivity.
Qed.

Lemma table_get_detail (table : dict text) (key v : json float) :
  table_get table key (JStr (lit "")) = Ok v -> py_str v = detail_tag table key.
Proof.
  destruct key; simpl; intros H; try discriminate; injection H as <-;
    try reflexivity.
  destruct (dict_get table s); reflexivity.
Qed.

Lemma test_item_Ok (test : info float) (row : text) :
  test_item test = Ok row ->
  exists kv file,
    get_activity_details test = JObj kv /\ filename test = Some file
    /\ row = index_row test file kv.
Proof.
  unfold test_item.
  destruct (get_activity_details test) as [| | | | |l|kv];
    try (intros Q; discriminate Q).
  unfold json_get. cbn [rbind].
  fold (activity_type_of kv). fold (age_group_of kv).
  intros H. apply rbind_Ok in H. destruct H as (v1 & H1 & H).
  apply rbind_Ok in H. destruct H as (v2 & H2 & H).
  destruct (filename test) as [file|]; [|discriminate H].
  injection H as <-. exists kv, file. repeat split.
  unfold index_row.
  now rewrite (table_get_index _ _ H1), (table_get_index _ _ H2).
Qed.

Lemma test_items_rows (tests : list (info float)) :
  forall acc html,
    test_items acc tests = Ok html ->
    exists rows,
      Forall2 (fun t row => test_item t = Ok row) tests rows
      /\ html = acc ++ concat rows.
Proof.
  induction tests as [|t tests IH]; intros acc html H.
  - injection H as <-. exists []. split; [constructor|].
    simpl. now rewrite app_nil_r.
  - cbn [test_items] in H. apply rbind_Ok in H.
    destruct H as (row & Hr & H). apply IH in H.
    destruct H as (rows & F & ->). exists (row :: rows).
    split; [constructor; assumption|]. simpl. now rewrite <- app_assoc.
Qed.

Lemma all_str_strings (l : list text) : all_str (map JStr l) = Ok l.
Proof.
  induction l as [|s l IH]; simpl; [reflexivity|].
  rewrite IH. reflexivity.
Qed.

Lemma test_content_fields (test : info float) (content : text) :
  test_content test = Ok content ->
  exists kv values,
    get_activity_details test = JObj kv
    /\ join_value (lit ", ") (main_values_of kv) = Ok values
    /\ content = detail_content test kv values.
Proof.
  unfold test_content.
  destruct (get_activity_details test) as [| | | | |l|kv];
    try (intros Q; discriminate Q).
  unfold json_get. cbn [rbind].
  fold (activity_type_of kv). fold (age_group_of kv). fold (main_values_of kv).
  intros H. apply rbind_Ok in H. destruct H as (v1 & H1 & H).
  apply rbind_Ok in H. destruct H as (v2 & H2 & H).
  apply rbind_Ok in H. destruct H as (values & H3 & H).
  injection H as <-. exists kv, values. repeat split; [exact H3|].
  unfold detail_content.
  now rewrite (table_get_detail _ _ H1), (table_get_detail _ _ H2).
Qed.

Lemma generate_index_html_rows (tests : list (info float)) (w w' : world)
      (page : text) :
  generate_index_html tests w = (Ok page, w') ->
  exists rows : list text,
    Forall2 (fun test row =>
               exists kv file,
                 get_activity_details test = JObj kv
                 /\ filename test = Some file
                 /\ row = index_row test file kv) tests rows
    /\ page =
       html_page INDEX_TITLE
         (index_template
            (stats_html (len tests) (count_passed tests)
                        (len tests - count_passed tests)
                        (py_sum (map get_total_duration tests)))
            (lit "<div class=\x22test-list\x22>" ++ concat rows
             ++ lit "</div>"))
         (strftime_dmy (now_at w (ticks w)))
    /\ w' = ticked w.
Proof.
  intros H. rewrite generate_index_html_run in H.
  destruct (index_content tests) as [content|e] eqn:Hc; [|discriminate H].
  apply pair_equal_spec in H. destruct H as [Hp Hw].
  unfold index_content in Hc. apply rbind_Ok in Hc.
  destruct Hc as (html & Hi & Hc). apply test_items_rows in Hi.
  destruct Hi as (rows & F & ->). exists rows. split; [|split].
  - eapply Forall2_impl; [|exact F]. intros t row. apply test_item_Ok.
  - rewrite <- app_assoc in Hc. congruence.
  - congruence.
Qed.

End Shown.


(** The index page lists the records in order, one row each, under the
    heading of the list and before the closing tags and the footer.  A row
    links to the record's file and shows the mark of its status, its
    display name (the Hebrew name, else the name, else [Unknown]), the
    labels of its activity type and age group (the key itself when a table
    has no label for it), its duration in minutes and its time, in minutes
    with one decimal as [.1f] gives it. *)
Theorem index_rows_in_order :
  forall (R : Runtime) (tests : list (info float)) (w w' : world)
         (page : text),
    generate_index_html tests w = (Ok page, w') ->
    exists (rows : list text) (before : text),
      page =
      before ++
      lit "
        </div>
        
        <div class=\x22card\x22>
            <h2>📋 רשימת בדיקות</h2>
            " ++
      lit "<div class=\x22test-list\x22>" ++ concat rows ++ lit "</div>" ++
      lit "
        </div>
    </div>
    " ++
      lit "
    <footer>
        <p>נוצר על ידי Agadah-Bot | מודל: Claude Opus 4.5 | " ++ strftime_dmy (now_at w (ticks w)) ++
      lit "</p>
    </footer>
</body>
</html>
"
      /\ Forall2
           (fun (test : info float) (row : text) =>
              exists (kv : dict (json float)) (file : text),
                match activity_details test with
                | Some o => o
                | None => JObj []
                end = JObj kv
                /\ filename test = Some file
                /\ row =
                   let passes :=
                     match status test with
                     | Some s => text_eqb s (lit "PASS")
                     | None => false
                     end in
                   lit "
        <a href=\x22" ++ file ++
                   lit ".html\x22 class=\x22test-item\x22>
            <div class=\x22test-status " ++ (if passes then lit "pass" else lit "fail") ++
                   lit "\x22>" ++ (if passes then lit "✓" else lit "✗") ++
                   lit "</div>
            <div class=\x22test-info\x22>
                <div class=\x22test-name\x22>" ++
                   match name_heb test with
                   | Some s => s
                   | None =>
                     match name test with
                     | Some s => s
                     | None => lit "Unknown"
                     end
                   end ++
                   lit "</div>
                <div class=\x22test-meta\x22>
                    <span class=\x22badge badge-primary\x22>" ++
                   index_tag ACTIVITY_TYPES_HEB (activity_type_of kv) ++
                   lit "</span>
                    <span class=\x22badge badge-primary\x22>" ++
                   index_tag AGE_GROUPS_HEB (age_group_of kv) ++
                   lit "</span>
                    <span class=\x22badge badge-primary\x22>" ++
                   py_str (get_default kv (lit "duration_minutes") (JInt 0)) ++
                   lit " דקות</span>
                </div>
            </div>
            <div class=\x22test-duration\x22>" ++
                   format_1f
                     (float_div
                        (to_float match total_duration test with
                                  | Some x => x
                                  | None => PyInt 0
                                  end)
                        (float_of_int 60)) ++
                   lit " דק'</div>
        </a>
        ")
           tests rows.
Proof.
  intros R tests w w' page H.
  destruct (generate_index_html_rows _ _ H) as (rows & F & -> & _).
  exists rows.
  cut (exists before,
          html_page INDEX_TITLE
            (index_template
               (stats_html (len tests) (count_passed tests)
                           (len tests - count_passed tests)
                           (py_sum (map get_total_duration tests)))
               (lit "<div class=\x22test-list\x22>" ++ concat rows
                ++ lit "</div>"))
            (strftime_dmy (now_at w (ticks w)))
          = before ++
            lit "
        </div>
        
        <div class=\x22card\x22>
            <h2>📋 רשימת בדיקות</h2>
            " ++
            lit "<div class=\x22test-list\x22>" ++ concat rows
            ++ lit "</div>" ++
            lit "
        </div>
    </div>
    " ++
            page_part 2 ++ strftime_dmy (now_at w (ticks w)) ++ page_part 3).
  { destruct page_footer as [<- <-]. intros [before E]. exists before.
    split; [exact E|]. clear E.
    eapply Forall2_impl; [|exact F]. clear F.
    intros test row (kv & file & Hk & Hf & ->). exists kv, file.
    split; [exact Hk|]. split; [exact Hf|]. reflexivity. }
  unfold html_page, index_template. rewrite <- !app_assoc.
  do 5 apply ends_with_more. apply ends_with_refl.
Qed.

(** The index page of two records has two rows. *)
Lemma index_rows_witness :
  exists (page : text) (w' : world),
    generate_index_html (R := Sample.runtime) two_tests
                        (world_at (noon 2025 11 27)) = (Ok page, w')
    /\ exists (rows : list text) (before : text),
         page =
         before ++
         lit "
        </div>
        
        <div class=\x22card\x22>
            <h2>📋 רשימת בדיקות</h2>
            " ++
         lit "<div class=\x22test-list\x22>" ++ concat rows ++ lit "</div>" ++
         lit "
        </div>
    </div>
    " ++
         lit "
    <footer>
        <p>נוצר על ידי Agadah-Bot | מודל: Claude Opus 4.5 | " ++ lit "27/11/2025" ++
         lit "</p>
    </footer>
</body>
</html>
"
         /\ length rows = 2%nat.
Proof.
  assert (E : exists page w',
             generate_index_html (R := Sample.runtime) two_tests
                                 (world_at (noon 2025 11 27)) = (Ok page, w'))
    by evaluation.
  destruct E as (page & w' & E). exists page, w'. split; [exact E|].
  destruct (index_rows_in_order Sample.runtime two_tests _ E)
    as (rows & before & Hp & F).
  exists rows, before. split.
  - rewrite Hp. clear.
    replace (strftime_dmy
               (now_at (world_at (noon 2025 11 27))
                       (ticks (world_at (noon 2025 11 27)))))
      with (lit "27/11/2025") by (vm_compute; reflexivity).
    reflexivity.
  - apply Forall2_length in F. rewrite <- F. reflexivity.
Defined.

(** The detail page, from its head to the block of the final output.
    The title and the heading are the record's display name (the Hebrew
    name, else the name, else [Unknown]); under it stands the user
    request.  The table shows, for the activity type and the age group,
    the label of the table, and nothing when the table has no label; for
    the other fields of the activity details their values, with [0] for an
    unset duration and nothing for an unset topic or closing theme; and
    the main values joined with a comma and a space.  After the steps
    table comes the record's total duration in minutes, with one decimal
    as [.1f] gives it. *)
Theorem detail_page_fields :
  forall (R : Runtime) (test : info float) (md : text) (w w' : world)
         (page : text),
    generate_test_html test md w = (Ok page, w') ->
    exists (kv : dict (json float)) (values steps_table shown : text),
      match activity_details test with
      | Some o => o
      | None => JObj []
      end = JObj kv
      /\ join_value (lit ", ") (main_values_of kv) = Ok values
      /\ (forall l, main_values_of kv = JArr (map JStr l) ->
                    values = join (lit ", ") l)
      /\ page =
         let shown_name :=
           match name_heb test with
           | Some s => s
           | None =>
             match name test with
             | Some s => s
             | None => lit "Unknown"
             end
           end in
         html_page shown_name
           (lit "
    <header>
        <div class=\x22container\x22>
            <h1>" ++ shown_name ++
            lit "</h1>
            <p>" ++
            match user_request test with Some s => s | None => lit "" end ++
            lit "</p>
        </div>
    </header>
    <div class=\x22container\x22>
        <div class=\x22breadcrumb\x22>
            <a href=\x22index.html\x22>← חזרה לרשימת הבדיקות</a>
        </div>
        
        <div class=\x22card\x22>
            <h2>📋 פרטי הפעילות</h2>
            <table>
                <tr><th>סוג פעילות</th><td>" ++
            detail_tag ACTIVITY_TYPES_HEB (activity_type_of kv) ++
            lit "</td></tr>
                <tr><th>קבוצת גיל</th><td>" ++
            detail_tag AGE_GROUPS_HEB (age_group_of kv) ++
            lit "</td></tr>
                <tr><th>משך</th><td>" ++
            py_str (get_default kv (lit "duration_minutes") (JInt 0)) ++
            lit " דקות</td></tr>
                <tr><th>נושא מרכזי</th><td>" ++
            py_str (get_default kv (lit "main_topic") (JStr (lit ""))) ++
            lit "</td></tr>
                <tr><th>ערכים</th><td>" ++ values ++
            lit "</td></tr>
                <tr><th>מסר סיום</th><td>" ++
            py_str (get_default kv (lit "closing_message_theme")
                                (JStr (lit ""))) ++
            lit "</td></tr>
            </table>
        </div>
        
        <div class=\x22card\x22>
            <h2>⏱️ שלבי הביצוע</h2>
            " ++ steps_table ++
            lit "
            <p style=\x22margin-top: 1rem; color: var(--text-muted);\x22>
                <strong>סה\x22כ זמן ביצוע:</strong> " ++
            format_1f
              (float_div
                 (to_float match total_duration test with
                           | Some x => x
                           | None => PyInt 0
                           end)
                 (float_of_int 60)) ++
            lit " דקות
            </p>
        </div>
        
        <div class=\x22card\x22>
            <h2>📄 תוכנית הפעילות</h2>
            <div class=\x22activity-content\x22>
                " ++ shown ++
            lit "
            </div>
        </div>
    </div>
    ")
           (strftime_dmy (now_at w (ticks w))).
Proof.
  intros R test md w w' page H. rewrite generate_test_html_run in H.
  destruct (test_content test) as [content|e] eqn:Hc; [|discriminate H].
  apply pair_equal_spec in H. destruct H as [Hp _].
  apply test_content_fields in Hc. destruct Hc as (kv & values & Hk & Hj & ->).
  exists kv, values, (steps_html test), (final_output_html test).
  split; [exact Hk|]. split; [exact Hj|]. split.
  - intros l Hl. rewrite Hl in Hj. simpl in Hj. rewrite all_str_strings in Hj.
    simpl in Hj. congruence.
  - apply Ok_inj in Hp. rewrite <- Hp. reflexivity.
Qed.

(** The detail page of a record whose activity type has a label, whose
    age group has none, and with two main values. *)
Lemma detail_page_fields_witness :
  exists (page : text) (w' : world),
    generate_test_html (R := Sample.runtime) passed_test []
                       (world_at (noon 2025 11 27)) = (Ok page, w')
    /\ exists before after : text,
         page =
         before ++
         lit "</p>
        </div>
    </header>
    <div class=\x22container\x22>
        <div class=\x22breadcrumb\x22>
            <a href=\x22index.html\x22>← חזרה לרשימת הבדיקות</a>
        </div>
        
        <div class=\x22card\x22>
            <h2>📋 פרטי הפעילות</h2>
            <table>
                <tr><th>סוג פעילות</th><td>" ++ lit "דיון" ++
         lit "</td></tr>
                <tr><th>קבוצת גיל</th><td>" ++
         lit "</td></tr>
                <tr><th>משך</th><td>" ++ lit "0" ++
         lit " דקות</td></tr>
                <tr><th>נושא מרכזי</th><td>" ++
         lit "</td></tr>
                <tr><th>ערכים</th><td>" ++ lit "light, rest" ++
         lit "</td></tr>
                <tr><th>מסר סיום</th><td>" ++
         lit "</td></tr>
            </table>
        </div>
        
        <div class=\x22card\x22>
            <h2>⏱️ שלבי הביצוע</h2>
            " ++ after.
Proof.
  assert (E : exists page w',
             generate_test_html (R := Sample.runtime) passed_test []
                                (world_at (noon 2025 11 27)) = (Ok page, w'))
    by evaluation.
  destruct E as (page & w' & E). exists page, w'. split; [exact E|].
  destruct (detail_page_fields Sample.runtime passed_test _ _ E)
    as (kv & values & steps_table & shown & Hk & _ & Hl & Hp).
  unfold passed_test in Hk. cbn [activity_details] in Hk.
  injection Hk as <-.
  rewrite (Hl [lit "light"; lit "rest"] eq_refl) in Hp.
  rewrite Hp. clear. cbv zeta. unfold html_page.
  rewrite <- !app_assoc.
  do 7 skip_piece. part_here.
Defined.
(** ** The index page of a run *)

Section RunIndex.
Context {R : Runtime}.

Lemma is_pass_status (r : info float) (stem md : text) :
  is_pass (with_file_and_status r stem md) = (10000 <? len md)%Z.
Proof.
  unfold is_pass, with_file_and_status, status_of. cbn [status].
  destruct (10000 <? len md)%Z; vm_compute; reflexivity.
Qed.

(** The records of a run, file by file, and the clock after it. *)
Lemma process_files_records (files : list (text * list byte)) :
  forall (tests tests' : list (info float)) (w w' : world),
    process_files tests files w = (Ok tests', w') ->
    (exists new,
        tests' = tests ++ new
        /\ Forall2 (fun file i =>
                      exists md r,
                        read_text (snd file) = Ok md
                        /\ extract_test_info md = Ok r
                        /\ i = with_file_and_status r (fst file) md)
                   files new)
    /\ now_at w' = now_at w
    /\ ticks w' = (ticks w + length files)%nat.
Proof.
  induction files as [|[stem bytes] rest IH]; intros tests tests' w w' H.
  - injection H as <- <-. split; [|split; [reflexivity | simpl; lia]].
    exists []. split; [now rewrite app_nil_r | constructor].
  - cbn [process_files] in H. unfold bind in H.
    rewrite process_file_run in H.
    destruct (read_text bytes) as [md|e] eqn:Er; [|discriminate H].
    destruct (extract_test_info md) as [r|e] eqn:Ex; [|discriminate H].
    destruct (test_content _) as [content|e]; [|discriminate H].
    cbv zeta in H. destruct (encodable _); [|discriminate H].
    apply IH in H. destruct H as ((new & -> & F) & Hn & Ht).
    split; [|split].
    + exists (with_file_and_status r stem md :: new).
      split; [now rewrite <- app_assoc|].
      constructor; [|exact F]. exists md, r. auto.
    + exact Hn.
    + rewrite Ht. simpl. lia.
Qed.

Lemma count_passed_files (files : list (text * list byte)) :
  forall tests : list (info float),
    Forall2 (fun file i =>
               exists md r,
                 read_text (snd file) = Ok md
                 /\ extract_test_info md = Ok r
                 /\ i = with_file_and_status r (fst file) md) files tests ->
    count_passed tests = len (filter long_file files).
Proof.
  unfold count_passed, len.
  induction 1 as [|file i files tests (md & r & Hr & _ & ->) _ IH];
    [reflexivity|].
  cbn [filter]. rewrite is_pass_status. unfold long_file at 1. rewrite Hr.
  destruct (10000 <? len md)%Z; cbn [length]; lia.
Qed.

End RunIndex.


Lemma Forall2_compose (A B C : Type) (P : A -> B -> Prop)
      (Q : B -> C -> Prop) (l1 : list A) (l2 : list B) :
  Forall2 P l1 l2 ->
  forall l3, Forall2 Q l2 l3 ->
             Forall2 (fun a c => exists b, P a b /\ Q b c) l1 l3.
Proof.
  induction 1 as [|a b l1 l2 Hp _ IH]; intros l3 H; inversion H; subst;
    constructor; eauto.
Qed.

Lemma Forall2_one (A B : Type) (P : A -> B -> Prop) (a : A) (l : list B) :
  Forall2 P [a] l -> exists b, l = [b] /\ P a b.
Proof.
  intros H. inversion H as [|? b ? l' Hp H']; subst.
  inversion H'; subst. now exists b.
Qed.

Section RunRows.
Context {R : Runtime}.

(** The row of a record that [main] made of a file. *)
Lemma index_row_of_file (r : info float) (stem md file : text)
      (kv : dict (json float)) :
  index_row (with_file_and_status r stem md) file kv =
  lit "
        <a href=\x22" ++ file ++
  lit ".html\x22 class=\x22test-item\x22>
            <div class=\x22test-status " ++ (if (10000 <? len md)%Z then lit "pass" else lit "fail") ++
  lit "\x22>" ++ (if (10000 <? len md)%Z then lit "✓" else lit "✗") ++
  lit "</div>
            <div class=\x22test-info\x22>
                <div class=\x22test-name\x22>" ++
  match name_heb r with
  | Some s => s
  | None => match name r with Some s => s | None => lit "Unknown" end
  end ++
  lit "</div>
                <div class=\x22test-meta\x22>
                    <span class=\x22badge badge-primary\x22>" ++ index_tag ACTIVITY_TYPES_HEB (activity_type_of kv) ++
  lit "</span>
                    <span class=\x22badge badge-primary\x22>" ++ index_tag AGE_GROUPS_HEB (age_group_of kv) ++
  lit "</span>
                    <span class=\x22badge badge-primary\x22>" ++ py_str (get_default kv (lit "duration_minutes") (JInt 0)) ++
  lit " דקות</span>
                </div>
            </div>
            <div class=\x22test-duration\x22>" ++
  format_1f
    (float_div
       (to_float match total_duration r with
                 | Some x => x
                 | None => PyInt 0
                 end)
       (float_of_int 60)) ++
  lit " דק'</div>
        </a>
        ".
Proof.
  unfold index_row. rewrite is_pass_status. reflexivity.
Qed.

End RunRows.

(** The index page of a run that ends without an exception: it is the
    last file written, and it is dated by the reading of the clock that
    follows one reading per input file.  Its statistics show the number of
    input files, the number of them whose decoded text is longer than
    10000 characters as passed and the number of the others as failed.
    Its list has one row per input file, in order: the row links to the
    page named after the file, carries the pass mark exactly when the
    file's decoded text is longer than 10000 characters, and shows what
    the extractor read off that text. *)
Theorem run_index_statistics :
  forall (R : Runtime) (test_files : list (text * list byte))
         (w w' : world),
    main test_files w = (Ok tt, w') ->
    exists (page total_minutes : text) (rows : list text)
           (before : list (text * text)),
      written w' = (lit "index.html", page) :: before
      /\ page =
         html_page (lit "דוחות בדיקות Agadah-Bot")
           (lit "
    <header>
        <div class=\x22container\x22>
            <h1>🕎 דוחות בדיקות Agadah-Bot</h1>
            <p>בדיקות קצה-לקצה ליצירת פעילויות חינוכיות | Claude Opus 4.5</p>
        </div>
    </header>
    <div class=\x22container\x22>
        <div class=\x22card\x22>
            <h2>📊 סיכום כללי</h2>
            " ++
            (lit "
    <div class=\x22stats-grid\x22>
        <div class=\x22stat-card\x22>
            <div class=\x22stat-value\x22>" ++ str_int (len test_files) ++
             lit "</div>
            <div class=\x22stat-label\x22>סה\x22כ בדיקות</div>
        </div>
        <div class=\x22stat-card\x22>
            <div class=\x22stat-value\x22 style=\x22color: var(--success)\x22>" ++ str_int (len (filter long_file test_files)) ++
             lit "</div>
            <div class=\x22stat-label\x22>עברו בהצלחה</div>
        </div>
        <div class=\x22stat-card\x22>
            <div class=\x22stat-value\x22 style=\x22color: var(--danger)\x22>" ++
             str_int (len (filter (fun f => negb (long_file f))
                                  test_files)) ++
             lit "</div>
            <div class=\x22stat-label\x22>נכשלו</div>
        </div>
        <div class=\x22stat-card\x22>
            <div class=\x22stat-value\x22>" ++ total_minutes ++
             lit "</div>
            <div class=\x22stat-label\x22>דקות סה\x22כ</div>
        </div>
    </div>
    ") ++
            lit "
        </div>
        
        <div class=\x22card\x22>
            <h2>📋 רשימת בדיקות</h2>
            " ++
            (lit "<div class=\x22test-list\x22>" ++ concat rows
             ++ lit "</div>") ++
            lit "
        </div>
    </div>
    ")
           (strftime_dmy (now_at w (ticks w + length test_files)))
      /\ Forall2
           (fun (file : text * list byte) (row : text) =>
              exists (md : text) (r : info float) (kv : dict (json float)),
                read_text (snd file) = Ok md
                /\ extract_test_info md = Ok r
                /\ match activity_details r with
                   | Some o => o
                   | None => JObj []
                   end = JObj kv
                /\ row =
                   lit "
        <a href=\x22" ++ fst file ++
                   lit ".html\x22 class=\x22test-item\x22>
            <div class=\x22test-status " ++
                   (if (10000 <? len md)%Z then lit "pass" else lit "fail") ++
                   lit "\x22>" ++
                   (if (10000 <? len md)%Z then lit "✓" else lit "✗") ++
                   lit "</div>
            <div class=\x22test-info\x22>
                <div class=\x22test-name\x22>" ++
                   match name_heb r with
                   | Some s => s
                   | None =>
                     match name r with
                     | Some s => s
                     | None => lit "Unknown"
                     end
                   end ++
                   lit "</div>
                <div class=\x22test-meta\x22>
                    <span class=\x22badge badge-primary\x22>" ++
                   index_tag ACTIVITY_TYPES_HEB (activity_type_of kv) ++
                   lit "</span>
                    <span class=\x22badge badge-primary\x22>" ++
                   index_tag AGE_GROUPS_HEB (age_group_of kv) ++
                   lit "</span>
                    <span class=\x22badge badge-primary\x22>" ++
                   py_str (get_default kv (lit "duration_minutes") (JInt 0)) ++
                   lit " דקות</span>
                </div>
            </div>
            <div class=\x22test-duration\x22>" ++
                   format_1f
                     (float_div
                        (to_float match total_duration r with
                                  | Some x => x
                                  | None => PyInt 0
                                  end)
                        (float_of_int 60)) ++
                   lit " דק'</div>
        </a>
        ")
           test_files rows.
Proof.
  intros R test_files w w' H. unfold main, bind in H.
  destruct (process_files [] test_files w) as [[tests|e] w1] eqn:P;
    [|discriminate H].
  destruct (generate_index_html tests w1) as [[html|e] w2] eqn:G;
    [|discriminate H].
  apply write_text_Ok in H.
  apply process_files_records in P.
  destruct P as ((new & E & F) & Hn & Ht). simpl in E. subst new.
  apply generate_index_html_rows in G. destruct G as (rows & Fr & Hp & ->).
  exists html, (minutes (py_sum (map get_total_duration tests))), rows,
         (written (ticked w1)).
  split; [exact H|]. split.
  - rewrite Hp, Hn, Ht. unfold stats_html.
    rewrite (count_passed_files F).
    assert (El : len tests = len test_files).
    { unfold len. now rewrite <- (Forall2_length F). }
    rewrite El.
    pose proof (filter_partition_length long_file test_files) as Hf.
    replace (len test_files - len (filter long_file test_files))%Z
      with (len (filter (fun f => negb (long_file f)) test_files)) by lia.
    unfold INDEX_TITLE, index_template, stats_template. reflexivity.
  - eapply Forall2_impl; [|exact (Forall2_compose F Fr)].
    intros file row (i & (md & r & Hr & Hx & ->) & kv & stem & Hk & Hf & ->).
    exists md, r, kv. split; [exact Hr|]. split; [exact Hx|].
    split; [exact Hk|].
    cbn [filename with_file_and_status] in Hf. injection Hf as <-.
    apply index_row_of_file.
Qed.

(** The run on the sample report: one file, none passed, one failed, and
    the row of [test_01] with the fail mark. *)
Lemma run_index_witness :
  exists w' : world,
    main (R := Sample.runtime) [(lit "test_01", sample_report)]
         (world_at (noon 2025 11 27)) = (Ok tt, w')
    /\ exists (page total_minutes rest : text) (before : list (text * text)),
         written w' = (lit "index.html", page) :: before
         /\ page =
            html_page (lit "דוחות בדיקות Agadah-Bot")
              (lit "
    <header>
        <div class=\x22container\x22>
            <h1>🕎 דוחות בדיקות Agadah-Bot</h1>
            <p>בדיקות קצה-לקצה ליצירת פעילויות חינוכיות | Claude Opus 4.5</p>
        </div>
    </header>
    <div class=\x22container\x22>
        <div class=\x22card\x22>
            <h2>📊 סיכום כללי</h2>
            " ++
               (lit "
    <div class=\x22stats-grid\x22>
        <div class=\x22stat-card\x22>
            <div class=\x22stat-value\x22>" ++ lit "1" ++
                lit "</div>
            <div class=\x22stat-label\x22>סה\x22כ בדיקות</div>
        </div>
        <div class=\x22stat-card\x22>
            <div class=\x22stat-value\x22 style=\x22color: var(--success)\x22>" ++ lit "0" ++
                lit "</div>
            <div class=\x22stat-label\x22>עברו בהצלחה</div>
        </div>
        <div class=\x22stat-card\x22>
            <div class=\x22stat-value\x22 style=\x22color: var(--danger)\x22>" ++ lit "1" ++
                lit "</div>
            <div class=\x22stat-label\x22>נכשלו</div>
        </div>
        <div class=\x22stat-card\x22>
            <div class=\x22stat-value\x22>" ++ total_minutes ++
                lit "</div>
            <div class=\x22stat-label\x22>דקות סה\x22כ</div>
        </div>
    </div>
    ") ++
               lit "
        </div>
        
        <div class=\x22card\x22>
            <h2>📋 רשימת בדיקות</h2>
            " ++
               (lit "<div class=\x22test-list\x22>" ++
                concat
                  [ lit "
        <a href=\x22" ++ lit "test_01" ++
                    lit ".html\x22 class=\x22test-item\x22>
            <div class=\x22test-status " ++ lit "fail" ++
                    lit "\x22>" ++ lit "✗" ++
                    lit "</div>
            <div class=\x22test-info\x22>
                <div class=\x22test-name\x22>" ++ rest ]
                ++ lit "</div>") ++
               lit "
        </div>
    </div>
    ")
              (lit "27/11/2025").
Proof.
  assert (E : exists w',
             main (R := Sample.runtime) [(lit "test_01", sample_report)]
                  (world_at (noon 2025 11 27)) = (Ok tt, w'))
    by evaluation.
  destruct E as [w' E]. exists w'. split; [exact E|].
  destruct (@run_index_statistics Sample.runtime _ _ _ E)
    as (page & total_minutes & rows & before & Hw & Hp & F).
  apply Forall2_one in F.
  destruct F as (row & -> & md & r & kv & Hr & _ & _ & ->).
  assert (Hm : (10000 <? len md)%Z = false).
  { vm_compute in Hr. apply Ok_inj in Hr. rewrite <- Hr.
    vm_compute. reflexivity. }
  rewrite Hm in Hp. cbn [fst] in Hp.
  exists page, total_minutes. eexists. exists before.
  split; [exact Hw|]. rewrite Hp. clear.
  apply (f_equal (fun d => html_page _ _ d)). vm_compute. reflexivity.
Defined.
(** ** The decoder *)

Lemma lor_shiftl_add (a y k : N) :
  (y < 2 ^ k)%N -> N.lor (N.shiftl a k) y = (a * 2 ^ k + y)%N.
Proof.
  intros Hy.
  assert (L : N.land (N.shiftl a k) y = 0%N).
  { apply N.bits_inj. intros m. rewrite N.land_spec, N.bits_0.
    destruct (N.lt_ge_cases m k) as [Hm|Hm].
    - now rewrite N.shiftl_spec_low.
    - rewrite <- (N.mod_small y (2 ^ k)) by exact Hy.
      rewrite N.mod_pow2_bits_high by exact Hm. apply andb_false_r. }
  rewrite <- N.lxor_lor, <- N.add_nocarry_lxor by exact L.
  now rewrite N.shiftl_mul_pow2.
Qed.

Lemma land_low (b q k : N) :
  (q * 2 ^ k <= b < (q + 1) * 2 ^ k)%N ->
  N.land b (N.ones k) = (b - q * 2 ^ k)%N.
Proof.
  intros H. rewrite N.land_ones. symmetry.
  apply (N.mod_unique b (2 ^ k) q); lia.
Qed.

Lemma between_spec (lo hi b : N) :
  Utf8.between lo hi b = true <-> (lo <= b <= hi)%N.
Proof.
  unfold Utf8.between. rewrite andb_true_iff, !N.leb_le. reflexivity.
Qed.

Lemma low6_cont (b : N) : Utf8.cont b = true -> Utf8.low6 b = (b - 128)%N.
Proof.
  unfold Utf8.cont. rewrite between_spec. intros H. unfold Utf8.low6.
  change 0x3F%N with (N.ones 6). apply (@land_low b 2 6). simpl. lia.
Qed.

Lemma cp2_value (b0 b1 : N) :
  Utf8.between 0xC2 0xDF b0 = true -> Utf8.cont b1 = true ->
  Utf8.cp2 b0 b1 = ((b0 - 192) * 64 + (b1 - 128))%N.
Proof.
  intros H0 H1. unfold Utf8.cp2. rewrite (low6_cont _ H1).
  apply between_spec in H0. unfold Utf8.cont in H1. apply between_spec in H1.
  change 0x1F%N with (N.ones 5). rewrite (@land_low b0 6 5) by (simpl; lia).
  rewrite lor_shiftl_add by (simpl; lia). reflexivity.
Qed.

Lemma cp3_value (b0 b1 b2 : N) :
  Utf8.between 0xE0 0xEF b0 = true -> Utf8.cont b1 = true ->
  Utf8.cont b2 = true ->
  Utf8.cp3 b0 b1 b2 = ((b0 - 224) * 4096 + ((b1 - 128) * 64 + (b2 - 128)))%N.
Proof.
  intros H0 H1 H2. unfold Utf8.cp3. rewrite (low6_cont _ H1), (low6_cont _ H2).
  apply between_spec in H0. unfold Utf8.cont in H1, H2.
  apply between_spec in H1. apply between_spec in H2.
  change 0x0F%N with (N.ones 4). rewrite (@land_low b0 14 4) by (simpl; lia).
  rewrite (@lor_shiftl_add (b1 - 128) (b2 - 128) 6) by (simpl; lia).
  rewrite lor_shiftl_add by (simpl; lia). reflexivity.
Qed.

Lemma cp4_value (b0 b1 b2 b3 : N) :
  Utf8.between 0xF0 0xF4 b0 = true -> Utf8.cont b1 = true ->
  Utf8.cont b2 = true -> Utf8.cont b3 = true ->
  Utf8.cp4 b0 b1 b2 b3 =
  ((b0 - 240) * 262144
   + ((b1 - 128) * 4096 + ((b2 - 128) * 64 + (b3 - 128))))%N.
Proof.
  intros H0 H1 H2 H3. unfold Utf8.cp4.
  rewrite (low6_cont _ H1), (low6_cont _ H2), (low6_cont _ H3).
  apply between_spec in H0. unfold Utf8.cont in H1, H2, H3.
  apply between_spec in H1. apply between_spec in H2. apply between_spec in H3.
  change 0x07%N with (N.ones 3). rewrite (@land_low b0 30 3) by (simpl; lia).
  rewrite (@lor_shiftl_add (b2 - 128) (b3 - 128) 6) by (simpl; lia).
  rewrite (@lor_shiftl_add (b1 - 128) _ 12) by (simpl; lia).
  rewrite lor_shiftl_add by (simpl; lia). reflexivity.
Qed.

Lemma second3_cont (b0 b1 : N) : Utf8.second3 b0 b1 = true -> Utf8.cont b1 = true.
Proof.
  unfold Utf8.second3, Utf8.cont.
  destruct (b0 =? 0xE0)%N; [|destruct (b0 =? 0xED)%N]; auto;
    rewrite !between_spec; lia.
Qed.

Lemma second4_cont (b0 b1 : N) : Utf8.second4 b0 b1 = true -> Utf8.cont b1 = true.
Proof.
  unfold Utf8.second4, Utf8.cont.
  destruct (b0 =? 0xF0)%N; [|destruct (b0 =? 0xF4)%N]; auto;
    rewrite !between_spec; lia.
Qed.

Lemma is_scalar_spec (c : codepoint) :
  is_scalar c = true <-> (c < 0xD800 \/ 0xDFFF < c < 0x110000)%N.
Proof.
  unfold is_scalar, is_surrogate. rewrite andb_true_iff, negb_true_iff.
  rewrite N.ltb_lt. destruct (Utf8.between 0xD800 0xDFFF c) eqn:E.
  - apply between_spec in E. split; [intros [_ Q]; discriminate Q | lia].
  - assert (~ (0xD800 <= c <= 0xDFFF)%N).
    { intros Q. apply between_spec in Q. congruence. }
    split; [lia | intros; split; [lia | reflexivity]].
Qed.

(** One step of the decoder: the bytes of one character, its code point,
    and the bytes that remain. *)
Lemma decode_step (bs : list N) (t : text) :
  Utf8.decode bs = Some t ->
  bs = [] /\ t = []
  \/ exists seq rest c t',
       bs = seq ++ rest /\ t = c :: t' /\ Utf8.decode rest = Some t'
       /\ (1 <= length seq <= 4)%nat
       /\ is_scalar c = true
       /\ (c = CR -> seq = [CR])
       /\ ((c < 128)%N <-> length seq = 1%nat).
Proof.
  destruct bs as [|b0 r0]; cbn [Utf8.decode].
  - intros H. injection H as <-. left. split; reflexivity.
  - intros H. right.
    destruct (N.ltb_spec b0 0x80) as [L0|L0].
    { destruct (Utf8.decode r0) as [t'|] eqn:E; [|discriminate H].
      injection H as <-. exists [b0], r0, b0, t'.
      repeat split; auto; try (simpl; lia).
      - apply is_scalar_spec. lia.
      - intros ->. reflexivity. }
    destruct (Utf8.between 0xC2 0xDF b0) eqn:B2.
    { destruct r0 as [|b1 r1]; [discriminate H|].
      destruct (Utf8.cont b1) eqn:C1; [|discriminate H].
      destruct (Utf8.decode r1) as [t'|] eqn:E; [|discriminate H].
      injection H as <-. exists [b0; b1], r1, (Utf8.cp2 b0 b1), t'.
      pose proof (cp2_value _ _ B2 C1) as V.
      apply between_spec in B2. unfold Utf8.cont in C1.
      apply between_spec in C1.
      repeat split; auto; try (simpl; lia);
        [apply is_scalar_spec; lia | intros Q; unfold CR in Q; lia]. }
    destruct (Utf8.between 0xE0 0xEF b0) eqn:B3.
    { destruct r0 as [|b1 [|b2 r2]]; try discriminate H.
      destruct (Utf8.second3 b0 b1) eqn:S1; [|discriminate H].
      destruct (Utf8.cont b2) eqn:C2; [|discriminate H]. cbn [andb] in H.
      destruct (Utf8.decode r2) as [t'|] eqn:E; [|discriminate H].
      injection H as <-. exists [b0; b1; b2], r2, (Utf8.cp3 b0 b1 b2), t'.
      pose proof (cp3_value _ _ _ B3 (second3_cont _ _ S1) C2) as V.
      apply between_spec in B3. unfold Utf8.cont in C2.
      apply between_spec in C2.
      assert (S1' : (128 <= b1 <= 191
                     /\ (b0 = 0xE0 -> 0xA0 <= b1)
                     /\ (b0 = 0xED -> b1 <= 0x9F))%N).
      { unfold Utf8.second3 in S1.
        destruct (N.eqb_spec b0 0xE0); [apply between_spec in S1; lia|].
        destruct (N.eqb_spec b0 0xED); [apply between_spec in S1; lia|].
        unfold Utf8.cont in S1. apply between_spec in S1. lia. }
      repeat split; auto; try (simpl; lia);
        [apply is_scalar_spec; lia | intros Q; unfold CR in Q; lia]. }
    destruct (Utf8.between 0xF0 0xF4 b0) eqn:B4; [|discriminate H].
    destruct r0 as [|b1 [|b2 [|b3 r3]]]; try discriminate H.
    destruct (Utf8.second4 b0 b1) eqn:S1; [|discriminate H].
    destruct (Utf8.cont b2) eqn:C2; [|discriminate H].
    destruct (Utf8.cont b3) eqn:C3; [|discriminate H]. cbn [andb] in H.
    destruct (Utf8.decode r3) as [t'|] eqn:E; [|discriminate H].
    injection H as <-. exists [b0; b1; b2; b3], r3, (Utf8.cp4 b0 b1 b2 b3), t'.
    pose proof (cp4_value _ _ _ _ B4 (second4_cont _ _ S1) C2 C3) as V.
    apply between_spec in B4. unfold Utf8.cont in C2, C3.
    apply between_spec in C2. apply between_spec in C3.
    assert (S1' : (128 <= b1 <= 191
                   /\ (b0 = 0xF0 -> 0x90 <= b1)
                   /\ (b0 = 0xF4 -> b1 <= 0x8F))%N).
    { unfold Utf8.second4 in S1.
      destruct (N.eqb_spec b0 0xF0); [apply between_spec in S1; lia|].
      destruct (N.eqb_spec b0 0xF4); [apply between_spec in S1; lia|].
      unfold Utf8.cont in S1. apply between_spec in S1. lia. }
    repeat split; auto; try (simpl; lia);
      [apply is_scalar_spec; lia | intros Q; unfold CR in Q; lia].
Qed.

Lemma decode_scalar (n : nat) :
  forall (bs : list N) (t : text),
    (length bs <= n)%nat -> Utf8.decode bs = Some t ->
    forallb is_scalar t = true /\ (length t <= length bs)%nat.
Proof.
  induction n as [|n IH]; intros bs t Hn H;
    destruct (decode_step _ H)
      as [[-> ->]|(seq & rest & c & t' & -> & -> & Hd & Hl & Hs & _)];
    try (split; [reflexivity | simpl; lia]).
  - rewrite length_app in Hn. lia.
  - rewrite length_app in Hn |- *.
    destruct (IH rest t' ltac:(lia) Hd) as [Hf Hlen].
    cbn [forallb length]. rewrite Hs, Hf. split; [reflexivity | lia].
Qed.

Lemma universal_newlines_spec (s : text) :
  (length (universal_newlines s) <= length s)%nat
  /\ ~ In CR (universal_newlines s)
  /\ (forall (f : codepoint -> bool),
        f LF = true -> forallb f s = true ->
        forallb f (universal_newlines s) = true).
Proof.
  assert (G : forall n s, (length s <= n)%nat ->
              (length (universal_newlines s) <= length s)%nat
              /\ ~ In CR (universal_newlines s)
              /\ (forall (f : codepoint -> bool),
                    f LF = true -> forallb f s = true ->
                    forallb f (universal_newlines s) = true)).
  { clear s. induction n as [|n IH]; intros [|c r] Hn;
      try (simpl; repeat split; auto; lia).
    - simpl in Hn. lia.
    - simpl in Hn. cbn [universal_newlines].
      destruct (N.eqb_spec c CR) as [->|Hc].
      + destruct r as [|d r'].
        * repeat split; simpl; auto; try lia.
          -- intros [Q|[]]. discriminate Q.
          -- intros f Hf _. now rewrite Hf.
        * destruct (N.eqb_spec d LF) as [->|Hd].
          -- destruct (IH r' ltac:(simpl in Hn; lia)) as (L & N0 & F).
             repeat split.
             ++ simpl. lia.
             ++ intros [Q|Q]; [discriminate Q | contradiction].
             ++ intros f Hf Hall. cbn [forallb] in Hall |- *.
                apply andb_prop in Hall. destruct Hall as [_ Hall].
                apply andb_prop in Hall. destruct Hall as [_ Hall].
                rewrite Hf. now apply F.
          -- destruct (IH (d :: r') ltac:(simpl in Hn |- *; lia)) as (L & N0 & F).
             repeat split.
             ++ simpl in L |- *. lia.
             ++ intros [Q|Q]; [discriminate Q | contradiction].
             ++ intros f Hf Hall. cbn [forallb] in Hall |- *.
                apply andb_prop in Hall. destruct Hall as [_ Hall].
                rewrite Hf. now apply F.
      + destruct (IH r ltac:(lia)) as (L & N0 & F). repeat split.
        * simpl. lia.
        * intros [Q|Q]; [congruence | contradiction].
        * intros f Hf Hall. cbn [forallb] in Hall |- *.
          apply andb_prop in Hall. destruct Hall as [Hc' Hall].
          rewrite Hc'. now apply F. }
  exact (G (length s) s (Nat.le_refl _)).
Qed.
Lemma scalar_encodable (s : text) :
  forallb is_scalar s = true -> encodable s = true.
Proof.
  unfold encodable. induction s as [|c s IH]; [reflexivity|].
  cbn [forallb existsb]. intros H. apply andb_prop in H. destruct H as [Hc Hs].
  unfold is_scalar in Hc. apply andb_prop in Hc. destruct Hc as [_ Hc].
  apply negb_true_iff in Hc. rewrite Hc. cbn [orb]. now apply IH.
Qed.

Lemma read_text_spec (bs : list byte) (md : text) :
  read_text bs = Ok md ->
  forallb is_scalar md = true /\ ~ In CR md /\ (len md <= len bs)%Z.
Proof.
  unfold read_text, Utf8.decode_bytes.
  destruct (Utf8.decode (map Byte.to_N bs)) as [t|] eqn:E;
    [|intros Q; discriminate Q].
  intros H. injection H as <-.
  destruct (@decode_scalar _ _ _ (Nat.le_refl _) E) as [Hs Hl].
  destruct (universal_newlines_spec t) as (L & N0 & F).
  split; [|split].
  - apply F; [reflexivity | exact Hs].
  - exact N0.
  - unfold len. rewrite length_map in Hl. lia.
Qed.

(** The text of a report, as the extractor receives it, holds Unicode
    scalar values only (no surrogate, so it can be written back) and no
    carriage return, whatever the bytes of the file; a file that is not
    UTF-8 is refused with [UnicodeDecodeError]. *)
Theorem report_text_is_clean :
  forall bs : list byte,
    match read_text bs with
    | Ok md_content =>
      forallb is_scalar md_content = true
      /\ encodable md_content = true
      /\ ~ In CR md_content
    | Raise e => e = UnicodeDecodeError /\ Utf8.decode_bytes bs = None
    end.
Proof.
  intros bs. destruct (read_text bs) as [md|e] eqn:E.
  - destruct (read_text_spec _ E) as (Hs & Hn & _).
    split; [exact Hs|]. split; [now apply scalar_encodable | exact Hn].
  - unfold read_text in E. destruct (Utf8.decode_bytes bs); [discriminate E|].
    injection E as <-. split; reflexivity.
Qed.

(** A file marked as passed holds more than 10000 bytes: the decoded text
    is never longer than the file. *)
Theorem passed_file_is_large :
  forall (R : Runtime) (stem : text) (bytes : list byte) (w w' : world)
         (i : info float),
    process_file (stem, bytes) w = (Ok i, w') ->
    (exists md_content,
        read_text bytes = Ok md_content
        /\ (len md_content <= len bytes)%Z)
    /\ (status i = Some (lit "PASS") -> (10000 < len bytes)%Z).
Proof.
  intros R stem bytes w w' i H.
  destruct (process_file_Ok _ _ _ H) as (md & r & Hr & _ & ->).
  destruct (read_text_spec _ Hr) as (_ & _ & Hl).
  split; [exists md; split; assumption|].
  cbn [status with_file_and_status]. intros Hs. injection Hs as Hs.
  apply (proj1 (status_of_cases md)) in Hs. lia.
Qed.

Lemma passed_file_witness :
  exists (i : info Sample.frac) (w' : world),
    process_file (R := Sample.runtime) (lit "test_01", sample_report)
                 (world_at (noon 2025 11 27)) = (Ok i, w')
    /\ (exists md_content,
           read_text sample_report = Ok md_content
           /\ (len md_content <= len sample_report)%Z)
    /\ (status i = Some (lit "PASS") -> (10000 < len sample_report)%Z).
Proof.
  assert (E : exists i w',
             process_file (R := Sample.runtime) (lit "test_01", sample_report)
                          (world_at (noon 2025 11 27)) = (Ok i, w'))
    by evaluation.
  destruct E as (i & w' & E). exists i, w'. split; [exact E|].
  exact (@passed_file_is_large Sample.runtime _ _ _ _ _ E).
Defined.
(** ** The encoder, and reading back what was written *)

Lemma shiftr_6 (c : N) : N.shiftr c 6 = (c / 64)%N.
Proof. now rewrite N.shiftr_div_pow2. Qed.

Lemma shiftr_12 (c : N) : N.shiftr c 12 = (c / 64 / 64)%N.
Proof. rewrite N.shiftr_div_pow2, N.Div0.div_div. reflexivity. Qed.

Lemma shiftr_18 (c : N) : N.shiftr c 18 = (c / 64 / 64 / 64)%N.
Proof. rewrite N.shiftr_div_pow2, !N.Div0.div_div. reflexivity. Qed.

Lemma land_63 (c : N) : N.land c 0x3F = (c mod 64)%N.
Proof. change 0x3F%N with (N.ones 6). now rewrite N.land_ones. Qed.

Lemma lor_lead (a k y : N) (lead : N) :
  lead = N.shiftl a k -> (y < 2 ^ k)%N -> N.lor lead y = (lead + y)%N.
Proof.
  intros -> Hy. rewrite lor_shiftl_add by exact Hy.
  now rewrite N.shiftl_mul_pow2.
Qed.

Lemma div_mod_64 (c : N) : (c = 64 * (c / 64) + c mod 64 /\ c mod 64 < 64)%N.
Proof.
  split; [apply N.div_mod; discriminate | apply N.mod_lt; discriminate].
Qed.

(** The bytes of one character decode to that character. *)
Lemma encode_char_decode (c : codepoint) :
  match encode_char c with
  | Some bs =>
    is_scalar c = true
    /\ Forall (fun b => (b < 256)%N) bs
    /\ forall rest, Utf8.decode (bs ++ rest)
                    = option_map (cons c) (Utf8.decode rest)
  | None => True
  end.
Proof.
  unfold encode_char.
  rewrite shiftr_6, shiftr_12, shiftr_18, !land_63.
  destruct (div_mod_64 c) as [E1 L1].
  destruct (div_mod_64 (c / 64)) as [E2 L2].
  destruct (div_mod_64 (c / 64 / 64)) as [E3 L3].
  set (q1 := (c / 64)%N) in *. set (r1 := (c mod 64)%N) in *.
  set (q2 := (q1 / 64)%N) in *. set (r2 := (q1 mod 64)%N) in *.
  set (q3 := (q2 / 64)%N) in *. set (r3 := (q2 mod 64)%N) in *.
  destruct (N.ltb_spec c 0x80) as [C1|C1].
  { split; [apply is_scalar_spec; lia|].
    split; [repeat constructor; lia|].
    intros rest. cbn [app Utf8.decode].
    destruct (N.ltb_spec c 0x80); [reflexivity | lia]. }
  destruct (N.ltb_spec c 0x800) as [C2|C2].
  { split; [apply is_scalar_spec; lia|].
    rewrite (@lor_lead 6 5 q1 0xC0) by (try reflexivity; simpl; lia).
    rewrite (@lor_lead 2 6 r1 0x80) by (try reflexivity; simpl; lia).
    split; [repeat constructor; lia|].
    intros rest. cbn [app Utf8.decode].
    destruct (N.ltb_spec (0xC0 + q1) 0x80); [lia|].
    assert (B : Utf8.between 0xC2 0xDF (0xC0 + q1) = true)
      by (apply between_spec; lia).
    assert (K : Utf8.cont (0x80 + r1) = true)
      by (apply between_spec; lia).
    rewrite B, K, (cp2_value _ _ B K).
    replace ((0xC0 + q1 - 192) * 64 + (0x80 + r1 - 128))%N with c by lia.
    reflexivity. }
  destruct (N.ltb_spec c 0x10000) as [C3|C3].
  { destruct (is_surrogate c) eqn:S; [exact I|].
    assert (S' : ~ (0xD800 <= c <= 0xDFFF)%N).
    { intros Q. apply between_spec in Q. unfold is_surrogate in S. congruence. }
    split; [apply is_scalar_spec; lia|].
    rewrite (@lor_lead 14 4 q2 0xE0) by (try reflexivity; simpl; lia).
    rewrite (@lor_lead 2 6 r2 0x80) by (try reflexivity; simpl; lia).
    rewrite (@lor_lead 2 6 r1 0x80) by (try reflexivity; simpl; lia).
    split; [repeat constructor; lia|].
    intros rest. cbn [app Utf8.decode].
    destruct (N.ltb_spec (0xE0 + q2) 0x80); [lia|].
    assert (B2 : Utf8.between 0xC2 0xDF (0xE0 + q2) = false).
    { apply not_true_is_false. rewrite between_spec. lia. }
    assert (B : Utf8.between 0xE0 0xEF (0xE0 + q2) = true)
      by (apply between_spec; lia).
    assert (K2 : Utf8.cont (0x80 + r2) = true) by (apply between_spec; lia).
    assert (K1 : Utf8.cont (0x80 + r1) = true) by (apply between_spec; lia).
    assert (S3 : Utf8.second3 (0xE0 + q2) (0x80 + r2) = true).
    { unfold Utf8.second3.
      destruct (N.eqb_spec (0xE0 + q2) 0xE0); [apply between_spec; lia|].
      destruct (N.eqb_spec (0xE0 + q2) 0xED); [apply between_spec; lia|].
      exact K2. }
    rewrite B2, B, S3, K1. cbn [andb]. rewrite (cp3_value _ _ _ B K2 K1).
    replace ((0xE0 + q2 - 224) * 4096
             + ((0x80 + r2 - 128) * 64 + (0x80 + r1 - 128)))%N with c by lia.
    reflexivity. }
  destruct (N.ltb_spec c 0x110000) as [C4|C4]; [|exact I].
  split; [apply is_scalar_spec; lia|].
  rewrite (@lor_lead 30 3 q3 0xF0) by (try reflexivity; simpl; lia).
  rewrite (@lor_lead 2 6 r3 0x80) by (try reflexivity; simpl; lia).
  rewrite (@lor_lead 2 6 r2 0x80) by (try reflexivity; simpl; lia).
  rewrite (@lor_lead 2 6 r1 0x80) by (try reflexivity; simpl; lia).
  split; [repeat constructor; lia|].
  intros rest. cbn [app Utf8.decode].
  destruct (N.ltb_spec (0xF0 + q3) 0x80); [lia|].
  assert (B2 : Utf8.between 0xC2 0xDF (0xF0 + q3) = false).
  { apply not_true_is_false. rewrite between_spec. lia. }
  assert (B3 : Utf8.between 0xE0 0xEF (0xF0 + q3) = false).
  { apply not_true_is_false. rewrite between_spec. lia. }
  assert (B : Utf8.between 0xF0 0xF4 (0xF0 + q3) = true)
    by (apply between_spec; lia).
  assert (K3 : Utf8.cont (0x80 + r3) = true) by (apply between_spec; lia).
  assert (K2 : Utf8.cont (0x80 + r2) = true) by (apply between_spec; lia).
  assert (K1 : Utf8.cont (0x80 + r1) = true) by (apply between_spec; lia).
  assert (S4 : Utf8.second4 (0xF0 + q3) (0x80 + r3) = true).
  { unfold Utf8.second4.
    destruct (N.eqb_spec (0xF0 + q3) 0xF0); [apply between_spec; lia|].
    destruct (N.eqb_spec (0xF0 + q3) 0xF4); [apply between_spec; lia|].
    exact K3. }
  rewrite B2, B3, B, S4, K2, K1. cbn [andb].
  rewrite (cp4_value _ _ _ _ B K3 K2 K1).
  replace ((0xF0 + q3 - 240) * 262144
           + ((0x80 + r3 - 128) * 4096
              + ((0x80 + r2 - 128) * 64 + (0x80 + r1 - 128))))%N with c by lia.
  reflexivity.
Qed.

Lemma encode_char_None (c : codepoint) :
  encode_char c = None -> is_scalar c = false.
Proof.
  unfold encode_char, is_scalar.
  destruct (N.ltb_spec c 0x80); [intros Q; discriminate Q|].
  destruct (N.ltb_spec c 0x800); [intros Q; discriminate Q|].
  destruct (N.ltb_spec c 0x10000).
  - destruct (is_surrogate c); [|intros Q; discriminate Q].
    intros _. apply andb_false_r.
  - destruct (N.ltb_spec c 0x110000); [intros Q; discriminate Q|].
    intros _. destruct (N.ltb_spec c 0x110000); [lia | reflexivity].
Qed.

(** The strict encoder accepts exactly the texts of Unicode scalar
    values, and the strict decoder gives the text back from the bytes. *)
Lemma encode_decode (s : text) :
  match encode s with
  | Some bs =>
    forallb is_scalar s = true
    /\ Forall (fun b => (b < 256)%N) bs
    /\ Utf8.decode bs = Some s
  | None => forallb is_scalar s = false
  end.
Proof.
  induction s as [|c s IH]; cbn [encode forallb].
  - repeat split. constructor.
  - pose proof (encode_char_decode c) as Hc.
    destruct (encode_char c) as [a|] eqn:Ec.
    + destruct Hc as (Hs & Hb & Hd). rewrite Hs.
      destruct (encode s) as [b|].
      * destruct IH as (Is & Ib & Id). rewrite Is. repeat split.
        -- apply Forall_app. split; assumption.
        -- rewrite Hd, Id. reflexivity.
      * rewrite IH. reflexivity.
    + now rewrite (encode_char_None _ Ec).
Qed.

Lemma encodable_scalar (s : text) :
  Forall (fun c => (c < 0x110000)%N) s ->
  encodable s = forallb is_scalar s.
Proof.
  unfold encodable. induction 1 as [|c s Hc _ IH]; [reflexivity|].
  cbn [existsb forallb]. rewrite negb_orb, IH. f_equal.
  unfold is_scalar. apply N.ltb_lt in Hc. now rewrite Hc.
Qed.

(** A page that [write_text] accepts is written as bytes that the strict
    decoder reads back as the same text; a page it refuses is one the
    strict encoder refuses, and the only exception is
    [UnicodeEncodeError].  (The code points of a Python [str] are below
    0x110000.) *)
Theorem written_page_reads_back :
  forall (file_name content : text) (w : world),
    Forall (fun c => (c < 0x110000)%N) content ->
    match write_text file_name content w with
    | (Ok _, w') =>
      written w' = (file_name, content) :: written w
      /\ exists bs, encode content = Some bs
                    /\ Forall (fun b => (b < 256)%N) bs
                    /\ Utf8.decode bs = Some content
    | (Raise e, w') =>
      e = UnicodeEncodeError /\ encode content = None
      /\ written w' = (file_name, []) :: written w
    end.
Proof.
  intros file_name content w H. rewrite write_text_run.
  rewrite (encodable_scalar H). pose proof (encode_decode content) as E.
  destruct (encode content) as [bs|].
  - destruct E as (-> & Hb & Hd). split; [reflexivity|]. eauto.
  - rewrite E. repeat split.
Qed.

Lemma written_page_witness :
  Forall (fun c => (c < 0x110000)%N) (lit "<p>שלום</p>")
  /\ match write_text (lit "index.html") (lit "<p>שלום</p>")
                      (world_at (noon 2025 11 27)) with
     | (Ok _, w') =>
       written w' = (lit "index.html", lit "<p>שלום</p>")
                    :: written (world_at (noon 2025 11 27))
       /\ exists bs, encode (lit "<p>שלום</p>") = Some bs
                     /\ Forall (fun b => (b < 256)%N) bs
                     /\ Utf8.decode bs = Some (lit "<p>שלום</p>")
     | (Raise e, w') =>
       e = UnicodeEncodeError /\ encode (lit "<p>שלום</p>") = None
       /\ written w' = (lit "index.html", [])
                       :: written (world_at (noon 2025 11 27))
     end.
Proof.
  assert (H : Forall (fun c => (c < 0x110000)%N) (lit "<p>שלום</p>")).
  { apply Forall_forall. intros c Hc. vm_compute in Hc.
    repeat (destruct Hc as [<-|Hc]; [reflexivity|]). contradiction. }
  split; [exact H|].
  exact (@written_page_reads_back (lit "index.html") (lit "<p>שלום</p>")
           (world_at (noon 2025 11 27)) H).
Defined.
(** ** The date of a page *)

Lemma zrange_In (n : nat) : forall start z,
  (start <= z < start + Z.of_nat n)%Z -> In z (zrange start n).
Proof.
  induction n as [|n IH]; intros start z H; [lia|].
  cbn [zrange]. destruct (Z.eq_dec start z) as [->|Hne];
    [now left | right; apply IH; lia].
Qed.

Lemma below_checked (P : Z -> bool) (n : Z) :
  forallb P (zrange 0 (Z.to_nat n)) = true ->
  forall z, (0 <= z < n)%Z -> P z = true.
Proof.
  intros H z Hz. rewrite forallb_forall in H. apply H. apply zrange_In. lia.
Qed.

Lemma same_text_eq (a b : text) : same_text a b = true -> a = b.
Proof.
  revert b. induction a as [|x a IH]; intros [|y b] H; try discriminate H;
    [reflexivity|].
  simpl in H. apply andb_prop in H. destruct H as [Hx H].
  apply N.eqb_eq in Hx. subst y. f_equal. now apply IH.
Qed.

Lemma zero_pad_2 (z : Z) : (0 <= z < 100)%Z -> zero_pad 2 z = two_digits z.
Proof.
  intros H. apply same_text_eq.
  apply (@below_checked (fun z => same_text (zero_pad 2 z) (two_digits z)) 100);
    [vm_compute; reflexivity | exact H].
Qed.

Lemma zero_pad_4 (z : Z) : (0 <= z < 10000)%Z -> zero_pad 4 z = four_digits z.
Proof.
  intros H. apply same_text_eq.
  apply (@below_checked (fun z => same_text (zero_pad 4 z) (four_digits z))
                        10000);
    [vm_compute; reflexivity | exact H].
Qed.

Lemma valid_date_spec (d : datetime) :
  valid_date d = true ->
  (1 <= day d <= 31 /\ 1 <= month d <= 12 /\ 1000 <= year d <= 9999)%Z.
Proof.
  unfold valid_date. rewrite !andb_true_iff, !Z.leb_le. lia.
Qed.

Lemma slash : lit "/" = [47%N].
Proof. vm_compute. reflexivity. Qed.

Lemma strftime_dmy_digits (d : datetime) :
  valid_date d = true ->
  strftime_dmy d
  = two_digits (day d) ++ lit "/" ++ two_digits (month d) ++ lit "/"
    ++ four_digits (year d).
Proof.
  intros H. apply valid_date_spec in H. unfold strftime_dmy.
  rewrite !zero_pad_2, zero_pad_4 by lia. reflexivity.
Qed.

Ltac zdiv := Z.to_euclidean_division_equations; lia.

Lemma digit_inj (a b : Z) :
  (0 <= a < 10)%Z -> (0 <= b < 10)%Z -> digit a = digit b -> a = b.
Proof. unfold digit. intros Ha Hb H. apply Z2N.inj in H; lia. Qed.

Lemma two_digits_inj (a b : Z) :
  (0 <= a < 100)%Z -> (0 <= b < 100)%Z -> two_digits a = two_digits b -> a = b.
Proof.
  unfold two_digits. intros Ha Hb H. injection H as H1 H0.
  apply digit_inj in H1; [|zdiv|zdiv]. apply digit_inj in H0; [|zdiv|zdiv].
  zdiv.
Qed.

Lemma four_digits_inj (a b : Z) :
  (0 <= a < 10000)%Z -> (0 <= b < 10000)%Z ->
  four_digits a = four_digits b -> a = b.
Proof.
  unfold four_digits. intros Ha Hb H. injection H as H3 H2 H1 H0.
  apply digit_inj in H3; [|zdiv|zdiv]. apply digit_inj in H2; [|zdiv|zdiv].
  apply digit_inj in H1; [|zdiv|zdiv]. apply digit_inj in H0; [|zdiv|zdiv].
  zdiv.
Qed.

Lemma strftime_dmy_inj (d1 d2 : datetime) :
  valid_date d1 = true -> valid_date d2 = true ->
  strftime_dmy d1 = strftime_dmy d2 -> same_day d1 d2.
Proof.
  intros H1 H2 E. rewrite !strftime_dmy_digits in E by assumption.
  rewrite slash in E.
  apply valid_date_spec in H1. apply valid_date_spec in H2.
  unfold two_digits, four_digits in E. cbn [app] in E.
  injection E as Ed1 Ed0 Em1 Em0 Ey3 Ey2 Ey1 Ey0.
  unfold same_day. split; [|split].
  - apply two_digits_inj; [lia | lia |]. unfold two_digits.
    now rewrite Ed1, Ed0.
  - apply two_digits_inj; [lia | lia |]. unfold two_digits.
    now rewrite Em1, Em0.
  - apply four_digits_inj; [lia | lia |]. unfold four_digits.
    now rewrite Ey3, Ey2, Ey1, Ey0.
Qed.

Lemma same_day_strftime (d1 d2 : datetime) :
  same_day d1 d2 -> strftime_dmy d1 = strftime_dmy d2.
Proof.
  intros (Hd & Hm & Hy). unfold strftime_dmy. rewrite Hd, Hm, Hy. reflexivity.
Qed.

Lemma app_inv_same_length (A : Type) (x1 x2 d1 d2 : list A) :
  x1 ++ d1 = x2 ++ d2 -> length d1 = length d2 -> d1 = d2.
Proof.
  intros E L.
  assert (Lx : length x1 = length x2).
  { apply (f_equal (@length A)) in E. rewrite !length_app in E. lia. }
  apply (f_equal (skipn (length x1))) in E.
  rewrite skipn_app_length in E. rewrite Lx, skipn_app_length in E. exact E.
Qed.

Lemma strftime_dmy_length (d : datetime) :
  valid_date d = true -> length (strftime_dmy d) = 10%nat.
Proof.
  intros H. rewrite strftime_dmy_digits by exact H. rewrite slash. reflexivity.
Qed.

Lemma page_tail (p0 p1 p2 p3 t1 c1 x1 t2 c2 x2 : text) :
  p0 ++ t1 ++ p1 ++ c1 ++ p2 ++ x1 ++ p3
  = p0 ++ t2 ++ p1 ++ c2 ++ p2 ++ x2 ++ p3 ->
  length x1 = length x2 -> x1 = x2.
Proof.
  intros E L.
  assert (A : forall t c x, p0 ++ t ++ p1 ++ c ++ p2 ++ x ++ p3
                            = (p0 ++ t ++ p1 ++ c ++ p2) ++ x ++ p3)
    by (intros; now rewrite <- !app_assoc).
  rewrite !A in E. apply app_inv_same_length in E.
  - now apply app_inv_tail in E.
  - rewrite !length_app. lia.
Qed.

Lemma html_page_parts (title content date : text) :
  html_page title content date
  = page_part 0 ++ title ++ page_part 1 ++ content ++ page_part 2 ++ date
    ++ page_part 3.
Proof. reflexivity. Qed.

(** Two pages with dates of the calendar are equal only if their dates
    are. *)
Lemma html_page_date (t1 c1 t2 c2 : text) (d1 d2 : datetime) :
  valid_date d1 = true -> valid_date d2 = true ->
  html_page t1 c1 (strftime_dmy d1) = html_page t2 c2 (strftime_dmy d2) ->
  same_day d1 d2.
Proof.
  intros H1 H2 E. apply strftime_dmy_inj; try assumption.
  pose proof (strftime_dmy_length _ H1) as L1.
  pose proof (strftime_dmy_length _ H2) as L2.
  rewrite !html_page_parts in E.
  revert E L1 L2.
  generalize (strftime_dmy d1), (strftime_dmy d2), (page_part 0),
    (page_part 1), (page_part 2), (page_part 3).
  intros x1 x2 p0 p1 p2 p3 E L1 L2.
  apply (@page_tail p0 p1 p2 p3 t1 c1 x1 t2 c2 x2 E). now rewrite L1, L2.
Qed.
(** The footer date: two digits for the day, two for the month and four
    for the year, separated by [/]; ten characters in all, which
    determine the day of the calendar. *)
Theorem footer_date_format :
  forall d : datetime,
    valid_date d = true ->
    strftime_dmy d
    = two_digits (day d) ++ lit "/" ++ two_digits (month d) ++ lit "/"
      ++ four_digits (year d)
    /\ length (strftime_dmy d) = 10%nat
    /\ forall d' : datetime,
         valid_date d' = true ->
         (strftime_dmy d' = strftime_dmy d <-> same_day d' d).
Proof.
  intros d H. split; [now apply strftime_dmy_digits|].
  split; [now apply strftime_dmy_length|].
  intros d' H'. split; [now apply strftime_dmy_inj | apply same_day_strftime].
Qed.

Lemma footer_date_witness :
  strftime_dmy (noon 2025 11 27) = lit "27/11/2025"
  /\ length (strftime_dmy (noon 2025 11 27)) = 10%nat.
Proof.
  destruct (@footer_date_format (noon 2025 11 27) eq_refl) as (E & L & _).
  split; [|exact L]. rewrite E. vm_compute. reflexivity.
Defined.

Lemma cons_eq_inv (A : Type) (a b : A) (l l' : list A) :
  a :: l = b :: l' -> a = b /\ l = l'.
Proof. intros H. split; congruence. Qed.

Section RunPages.
Context {R : Runtime}.

(** The pages of a run, in the order of the files: the page of the
    [k]-th file is dated by the [k]-th reading of the clock. *)
Lemma process_files_pages (files : list (text * list byte)) :
  forall (tests tests' : list (info float)) (w w' : world),
    process_files tests files w = (Ok tests', w') ->
    exists pages : list (text * text),
      written w' = rev pages ++ written w
      /\ length pages = length files
      /\ forall k, (k < length files)%nat ->
           exists title content,
             nth k pages ([], [])
             = (fst (nth k files ([], [])) ++ lit ".html",
                html_page title content
                          (strftime_dmy (now_at w (ticks w + k)))).
Proof.
  induction files as [|[stem bytes] rest IH]; intros tests tests' w w' H.
  - injection H as <- <-. exists []. repeat split. intros k Hk.
    simpl in Hk. lia.
  - cbn [process_files] in H. unfold bind in H.
    rewrite process_file_run in H.
    destruct (read_text bytes) as [md|e]; [|discriminate H].
    destruct (extract_test_info md) as [r|e]; [|discriminate H].
    destruct (test_content _) as [content|e]; [|discriminate H].
    cbv zeta in H. destruct (encodable _); [|discriminate H].
    apply IH in H. destruct H as (pages & Hw & Hl & Hk).
    eexists ((_, _) :: pages). split; [|split].
    + rewrite Hw. cbn [rev after_write written ticked].
      rewrite <- app_assoc. reflexivity.
    + simpl. now rewrite Hl.
    + intros [|k] Hlt.
      * cbn [nth fst]. rewrite Nat.add_0_r. eauto.
      * cbn [nth]. destruct (Hk k ltac:(simpl in Hlt; lia)) as (t & c & E).
        exists t, c. cbn [after_write ticked now_at ticks] in E. rewrite E.
        replace (ticks w + S k)%nat with (S (ticks w) + k)%nat by lia.
        reflexivity.
Qed.

Lemma main_pages (files : list (text * list byte)) (w w' : world) :
  main files w = (Ok tt, w') ->
  exists (pages : list (text * text)) (content : text),
    written w'
    = (lit "index.html",
       html_page INDEX_TITLE content
                 (strftime_dmy (now_at w (ticks w + length files))))
      :: rev pages ++ written w
    /\ length pages = length files
    /\ forall k, (k < length files)%nat ->
         exists title content,
           nth k pages ([], [])
           = (fst (nth k files ([], [])) ++ lit ".html",
              html_page title content
                        (strftime_dmy (now_at w (ticks w + k)))).
Proof.
  intros H. unfold main, bind in H.
  destruct (process_files [] files w) as [[tests|e] w1] eqn:P;
    [|discriminate H].
  destruct (process_files_records _ _ _ P) as (_ & Hn & Ht).
  apply process_files_pages in P. destruct P as (pages & Hw & Hl & Hk).
  rewrite generate_index_html_run in H.
  destruct (index_content tests) as [content|e]; [|discriminate H].
  apply write_text_Ok in H. exists pages, content.
  split; [|split; assumption].
  rewrite H. cbn [ticked written]. now rewrite Hw, Hn, Ht.
Qed.

End RunPages.

(** Two runs on the same files that leave the same output directory read
    their clocks on the same days: a run on another day writes other
    pages. *)
Theorem same_pages_same_days :
  forall (R : Runtime) (test_files : list (text * list byte))
         (w1 w2 w1' w2' : world),
    main test_files w1 = (Ok tt, w1') ->
    main test_files w2 = (Ok tt, w2') ->
    written w1 = written w2 ->
    (forall k, (k <= length test_files)%nat ->
       valid_date (now_at w1 (ticks w1 + k)) = true
       /\ valid_date (now_at w2 (ticks w2 + k)) = true) ->
    written w1' = written w2' ->
    forall k, (k <= length test_files)%nat ->
      same_day (now_at w1 (ticks w1 + k)) (now_at w2 (ticks w2 + k)).
Proof.
  intros R files w1 w2 w1' w2' H1 H2 Hw Hv E k Hk.
  destruct (main_pages _ _ H1) as (pages1 & c1 & E1 & L1 & P1).
  destruct (main_pages _ _ H2) as (pages2 & c2 & E2 & L2 & P2).
  rewrite E1, E2, Hw in E. apply cons_eq_inv in E. destruct E as [Ei Ep].
  apply pair_equal_spec in Ei. destruct Ei as [_ Ei].
  apply app_inv_tail in Ep.
  assert (Ep' : pages1 = pages2).
  { rewrite <- (rev_involutive pages1), <- (rev_involutive pages2).
    now rewrite Ep. }
  destruct (Hv k Hk) as [V1 V2].
  destruct (Nat.eq_dec k (length files)) as [->|Hne].
  - exact (@html_page_date _ _ _ _ _ _ V1 V2 Ei).
  - assert (Hlt : (k < length files)%nat) by lia.
    destruct (P1 k Hlt) as (t1 & k1 & Q1).
    destruct (P2 k Hlt) as (t2 & k2 & Q2).
    rewrite Ep', Q2 in Q1. apply pair_equal_spec in Q1.
    destruct Q1 as [_ Q1]. symmetry in Q1.
    exact (@html_page_date _ _ _ _ _ _ V1 V2 Q1).
Qed.
(** Two runs on the sample report, on the same day. *)
Lemma same_pages_witness :
  written (snd (main (R := Sample.runtime) [(lit "test_01", sample_report)]
                     (world_at (noon 2025 11 27))))
  = written (snd (main (R := Sample.runtime) [(lit "test_01", sample_report)]
                       (ticking_from {| year := 2025; month := 11; day := 27;
                                        hour := 23; minute := 59;
                                        second := 0 |})))
  /\ same_day
       (now_at (world_at (noon 2025 11 27))
               (ticks (world_at (noon 2025 11 27)) + 1))
       (now_at (ticking_from {| year := 2025; month := 11; day := 27;
                                hour := 23; minute := 59; second := 0 |})
               (ticks (ticking_from {| year := 2025; month := 11; day := 27;
                                       hour := 23; minute := 59;
                                       second := 0 |}) + 1)).
Proof.
  set (w1 := world_at (noon 2025 11 27)).
  set (w2 := ticking_from {| year := 2025; month := 11; day := 27;
                             hour := 23; minute := 59; second := 0 |}).
  set (files := [(lit "test_01", sample_report)]).
  assert (H1 : main (R := Sample.runtime) files w1
               = (Ok tt, snd (main (R := Sample.runtime) files w1)))
    by (vm_compute; reflexivity).
  assert (H2 : main (R := Sample.runtime) files w2
               = (Ok tt, snd (main (R := Sample.runtime) files w2)))
    by (vm_compute; reflexivity).
  assert (E : written (snd (main (R := Sample.runtime) files w1))
              = written (snd (main (R := Sample.runtime) files w2)))
    by (vm_compute; reflexivity).
  split; [exact E|].
  apply (@same_pages_same_days Sample.runtime files w1 w2 _ _ H1 H2).
  - reflexivity.
  - intros k _. split; reflexivity.
  - exact E.
  - simpl. lia.
Defined.

Section IndexOutcomes.
Context {R : Runtime}.

Lemma row_error_spec (test : info float) :
  match row_error test with
  | None => exists row, test_item test = Ok row
  | Some e => test_item test = Raise e
  end.
Proof.
  unfold row_error. pose proof (test_item_cases test) as H.
  destruct (get_activity_details test) as [| | | | |l|kv]; try exact H.
  destruct (hashable (activity_type_of kv) && hashable (age_group_of kv));
    [|exact H].
  destruct (filename test); exact H.
Qed.

Lemma test_items_first_error (tests : list (info float)) :
  forall acc,
    match first_error tests with
    | None => exists html, test_items acc tests = Ok html
    | Some e => test_items acc tests = Raise e
    end.
Proof.
  induction tests as [|t tests IH]; intros acc; cbn [first_error test_items].
  - eauto.
  - pose proof (row_error_spec t) as H. destruct (row_error t) as [e|].
    + now rewrite H.
    + destruct H as [row ->]. cbn [rbind]. apply IH.
Qed.

End IndexOutcomes.

(** [generate_index_html] returns a page, and has read the clock once,
    when every record has a row; otherwise it raises, before reading the
    clock, the exception of the first record that has none:
    [AttributeError] when its activity details are not a dict,
    [TypeError] when its activity type or age group is a list or a dict,
    [KeyError] when it has no file name. *)
Theorem index_page_outcomes :
  forall (R : Runtime) (tests : list (info float)) (w : world),
    match first_error tests with
    | None => exists page, generate_index_html tests w = (Ok page, ticked w)
    | Some e => generate_index_html tests w = (Raise e, w)
    end.
Proof.
  intros R tests w. rewrite generate_index_html_run. unfold index_content.
  pose proof (test_items_first_error tests (lit "<div class=\x22test-list\x22>"))
    as H.
  destruct (first_error tests) as [e|].
  - now rewrite H.
  - destruct H as [html ->]. cbn [rbind]. eauto.
Qed.
(** ** The JSON block *)

Lemma strip_prefix_two (a b s : text) :
  Re.strip_prefix (a ++ b) s
  = match Re.strip_prefix a s with
    | Some s' => Re.strip_prefix b s'
    | None => None
    end.
Proof.
  revert s. induction a as [|c a IH]; intros s; [reflexivity|].
  destruct s as [|x s]; [reflexivity|]. cbn [app Re.strip_prefix].
  destruct (x =? c)%N; [apply IH | reflexivity].
Qed.

Lemma json_close_split : lit "}\n```" = lit "}" ++ lit "\n```".
Proof. vm_compute. reflexivity. Qed.

(** The pattern of the JSON block, with its lazy repetition run by
    [Re.rep_lazy] on the text after the opening brace. *)
Lemma json_exec (s : text) :
  Re.match_here json_pattern s =
  match Re.strip_prefix (lit "```json\n") s with
  | Some t =>
    match Re.strip_prefix (lit "{") t with
    | Some t1 =>
      Re.rep_lazy space_or_not
        (fun s' => match Re.strip_prefix (lit "}\n```") s' with
                   | Some r =>
                     Some (r, [(1%nat,
                                firstn (length t - (length (lit "\n```")
                                                    + length r)) t)])
                   | None => None
                   end) 0 t1
    | None => None
    end
  | None => None
  end.
Proof.
  unfold Re.match_here, json_pattern. cbn [Re.exec].
  destruct (Re.strip_prefix (lit "```json\n") s) as [t|]; [|reflexivity].
  destruct (Re.strip_prefix (lit "{") t) as [t1|]; [|reflexivity].
  apply rep_lazy_eq. intros s'. rewrite json_close_split, strip_prefix_two.
  destruct (Re.strip_prefix (lit "}") s') as [s3|]; [|reflexivity].
  destruct (Re.strip_prefix (lit "\n```") s3) as [r|] eqn:E; [|reflexivity].
  apply strip_prefix_Some in E. subst s3. now rewrite length_app.
Qed.

Lemma json_here (s s' : text) (g : Re.groups) :
  Re.match_here json_pattern s = Some (s', g) ->
  exists body,
    s = lit "```json\n" ++ lit "{" ++ body ++ lit "}\n```" ++ s'
    /\ g = [(1%nat, lit "{" ++ body ++ lit "}")]
    /\ forall j, (j < length body)%nat ->
         starts_with (lit "}\n```") (skipn j (body ++ lit "}\n```" ++ s'))
         = false.
Proof.
  rewrite json_exec. intros H.
  destruct (Re.strip_prefix (lit "```json\n") s) as [t|] eqn:Ht;
    [|discriminate H].
  apply strip_prefix_Some in Ht.
  destruct (Re.strip_prefix (lit "{") t) as [t1|] eqn:Ht1; [|discriminate H].
  apply strip_prefix_Some in Ht1.
  apply rep_lazy_min in H. destruct H as (body & suf & E1 & _ & _ & Hk & Hn).
  destruct (Re.strip_prefix (lit "}\n```") suf) as [r|] eqn:Hc;
    [|discriminate Hk].
  apply strip_prefix_Some in Hc.
  assert (Hk' : (r, [(1%nat,
                       firstn (length t - (length (lit "\n```")
                                           + length r)) t)]) = (s', g))
    by congruence.
  clear Hk. apply pair_equal_spec in Hk'. destruct Hk' as [-> <-].
  exists body. subst suf t1 t s. split; [reflexivity|]. split.
  - f_equal. f_equal.
    rewrite json_close_split, <- !app_assoc.
    rewrite (app_assoc (lit "{")), (app_assoc (lit "{" ++ body)).
    rewrite <- (length_app (lit "\n```") s').
    apply firstn_consumed.
  - intros j Hj. specialize (Hn j ltac:(lia)). unfold starts_with.
    destruct (Re.strip_prefix (lit "}\n```")
                (skipn j (body ++ lit "}\n```" ++ s')));
      [discriminate Hn | reflexivity].
Qed.

Lemma json_complete (body rest : text) :
  Re.match_here json_pattern
    (lit "```json\n" ++ lit "{" ++ body ++ lit "}\n```" ++ rest) <> None.
Proof.
  rewrite json_exec, !strip_prefix_app.
  apply rep_lazy_complete.
  - apply space_or_not_all.
  - lia.
  - rewrite strip_prefix_app. discriminate.
Qed.

(** The activity details are decoded from the first fenced block that
    opens with [```json], a newline and a brace and closes with a brace, a
    newline and a fence; the text handed to [json.loads] runs from that
    brace to the first closing.  Without such a block the field is
    unset. *)
Theorem json_block_is_first_closed_object :
  forall (R : Runtime) (md : text) (r : info float),
    extract_test_info md = Ok r ->
    (exists pre body rest,
        md = pre ++ lit "```json\n" ++ lit "{" ++ body ++ lit "}\n```" ++ rest
        /\ activity_details r = json_loads (lit "{" ++ body ++ lit "}")
        /\ (forall j, (j < length body)%nat ->
              starts_with (lit "}\n```")
                          (skipn j (body ++ lit "}\n```" ++ rest)) = false)
        /\ (forall pre' body' rest',
               md = pre' ++ lit "```json\n" ++ lit "{" ++ body'
                    ++ lit "}\n```" ++ rest' ->
               (length pre <= length pre')%nat))
    \/ (activity_details r = None
        /\ forall pre body rest,
             md <> pre ++ lit "```json\n" ++ lit "{" ++ body
                   ++ lit "}\n```" ++ rest).
Proof.
  intros R md r H.
  destruct (@extract_Ok R md r H) as (_ & _ & _ & _ & _ & _ & -> & _).
  unfold extract_activity_details.
  pose proof (search_spec json_pattern md) as S.
  assert (C : forall pre body rest,
             md = pre ++ lit "```json\n" ++ lit "{" ++ body
                  ++ lit "}\n```" ++ rest ->
             Re.occurs_at json_pattern md (length pre) = true).
  { intros pre body rest ->. unfold Re.occurs_at. rewrite skipn_app_length.
    pose proof (json_complete body rest) as Hc.
    destruct (Re.match_here json_pattern _); [reflexivity | contradiction]. }
  destruct (Re.search json_pattern md) as [m|].
  - left. destruct S as (pre & suf & s' & E & Hm & Hn).
    apply json_here in Hm. destruct Hm as (body & -> & Hg & Hmin).
    exists pre, body, s'. split; [exact E|]. split; [|split].
    + unfold Re.group. rewrite Hg. cbn [Re.lookup Nat.eqb]. reflexivity.
    + exact Hmin.
    + intros pre' body' rest' E'.
      destruct (Nat.le_gt_cases (length pre) (length pre')) as [|Hlt];
        [assumption|].
      specialize (C _ _ _ E'). rewrite (Hn _ Hlt) in C. discriminate C.
  - right. split; [reflexivity|]. intros pre body rest E.
    specialize (C _ _ _ E). rewrite S in C. discriminate C.
Qed.

Lemma json_block_witness :
  exists r : info Sample.frac,
    extract_test_info (R := Sample.runtime)
      (lit "intro\n```json\n{}\n```\n") = Ok r
    /\ activity_details r = Some (JObj []).
Proof.
  assert (E : exists r, extract_test_info (R := Sample.runtime)
                          (lit "intro\n```json\n{}\n```\n") = Ok r
                        /\ activity_details r = Some (JObj []))
    by (vm_compute; eexists; split; reflexivity).
  destruct E as (r & E & Ea). exists r. split; [exact E|].
  destruct (@json_block_is_first_closed_object Sample.runtime _ r E)
    as [(pre & body & rest & _ & _)|(Hn & _)]; [exact Ea|].
  rewrite Hn in Ea. discriminate Ea.
Defined.

(** ** A report without a title *)

(** The pages of a report that has no title line (no title marker
    followed by a word character) are titled [Unknown]. *)
Theorem untitled_report_is_unknown :
  forall (R : Runtime) (md : text) (r : info float) (stem : text),
    extract_test_info md = Ok r ->
    (forall i, marker_at (lit "# E2E Test Report: ") word (skipn i md) = false) ->
    name r = None
    /\ display_name (with_file_and_status r stem md) = lit "Unknown"
    /\ forall (w w' : world) (page : text),
         generate_test_html (with_file_and_status r stem md) md w
         = (Ok page, w') ->
         exists content,
           page = html_page (lit "Unknown") content
                            (strftime_dmy (now_at w (ticks w))).
Proof.
  intros R md r stem H Hno.
  destruct (extract_fields _ H) as (Hn & Hh & _).
  pose proof (greedy_capture_search (lit "# E2E Test Report: ") word md) as S.
  fold title_pattern in S. rewrite <- Hn in S.
  assert (N0 : name r = None).
  { destruct (name r) as [tok|]; [|reflexivity]. exfalso.
    cbn beta iota in S. destruct S as (pre & rest & E & Hne & Hw & _).
    specialize (Hno (length pre)). rewrite E, skipn_app_length in Hno.
    unfold marker_at in Hno. rewrite strip_prefix_app in Hno.
    destruct tok as [|c tok]; [contradiction|].
    cbn [forallb] in Hw. apply andb_prop in Hw. destruct Hw as [Hw _].
    cbn [app] in Hno. congruence. }
  assert (D : display_name (with_file_and_status r stem md) = lit "Unknown").
  { unfold display_name, with_file_and_status. cbn [name_heb name].
    rewrite Hh, N0. reflexivity. }
  split; [exact N0|]. split; [exact D|].
  intros w w' page G. rewrite generate_test_html_run in G.
  destruct (test_content _) as [content|e]; [|discriminate G].
  apply pair_equal_spec in G. destruct G as [G _].
  exists content. rewrite <- D. congruence.
Qed.

Lemma untitled_report_witness :
  exists r : info Sample.frac,
    extract_test_info (R := Sample.runtime) (lit "no title here\n") = Ok r
    /\ display_name (R := Sample.runtime)
         (with_file_and_status (R := Sample.runtime) r (lit "test_03")
                               (lit "no title here\n"))
       = lit "Unknown".
Proof.
  assert (E : exists r, extract_test_info (R := Sample.runtime)
                          (lit "no title here\n") = Ok r)
    by evaluation.
  destruct E as (r & E). exists r. split; [exact E|].
  apply (@untitled_report_is_unknown Sample.runtime _ r (lit "test_03") E).
  intros i.
  destruct (Nat.le_gt_cases (length (lit "no title here\n")) i) as [Hi|Hi].
  - rewrite skipn_all2 by exact Hi. reflexivity.
  - revert i Hi. apply none_before. vm_compute. reflexivity.
Defined.
(** ** Which texts can keep a page from being written *)

Lemma encodable_app (a b : text) :
  encodable (a ++ b) = encodable a && encodable b.
Proof. unfold encodable. now rewrite existsb_app, negb_orb. Qed.

Lemma encodable_part (a b c s : text) :
  s = a ++ b ++ c -> encodable s = true -> encodable b = true.
Proof.
  intros -> H. rewrite !encodable_app in H.
  apply andb_prop in H. destruct H as [_ H].
  apply andb_prop in H. now destruct H.
Qed.

Lemma encodable_concat (l : list text) :
  Forall (fun s => encodable s = true) l -> encodable (concat l) = true.
Proof.
  induction 1 as [|s l Hs _ IH]; [reflexivity|].
  cbn [concat]. now rewrite encodable_app, Hs, IH.
Qed.

Lemma encodable_cons (c : codepoint) (s : text) :
  is_surrogate c = false -> encodable s = true -> encodable (c :: s) = true.
Proof.
  unfold encodable. cbn [existsb]. intros -> H. exact H.
Qed.

Lemma encodable_uint (d : Decimal.uint) : encodable (uint_text d) = true.
Proof.
  induction d; cbn [uint_text]; try reflexivity;
    (apply encodable_cons; [reflexivity | assumption]).
Qed.

Lemma encodable_str_int (z : Z) : encodable (str_int z) = true.
Proof.
  unfold str_int. destruct (Z.to_int z); [apply encodable_uint|].
  apply encodable_cons; [reflexivity | apply encodable_uint].
Qed.

Lemma encodable_repeat (c : codepoint) (n : nat) :
  is_surrogate c = false -> encodable (repeat c n) = true.
Proof.
  intros H. induction n as [|n IH]; [reflexivity|].
  cbn [repeat]. now apply encodable_cons.
Qed.

Lemma encodable_strftime (d : datetime) : encodable (strftime_dmy d) = true.
Proof.
  unfold strftime_dmy, zero_pad. rewrite !encodable_app.
  rewrite !encodable_repeat, !encodable_str_int by reflexivity.
  replace (encodable (lit "/")) with true by (vm_compute; reflexivity).
  reflexivity.
Qed.

Lemma encodable_page_parts :
  encodable (page_part 0) = true /\ encodable (page_part 1) = true
  /\ encodable (page_part 2) = true /\ encodable (page_part 3) = true.
Proof. repeat split; vm_compute; reflexivity. Qed.

Lemma encodable_html_page (title content : text) (d : datetime) :
  encodable title = true -> encodable content = true ->
  encodable (html_page title content (strftime_dmy d)) = true.
Proof.
  intros Ht Hc. destruct encodable_page_parts as (P0 & P1 & P2 & P3).
  rewrite html_page_parts, !encodable_app.
  now rewrite P0, P1, P2, P3, Ht, Hc, encodable_strftime.
Qed.

(** The literal parts of the templates hold no surrogate. *)
Ltac literals :=
  repeat match goal with
         | |- context [encodable (lit ?s)] =>
           replace (encodable (lit s)) with true by (vm_compute; reflexivity)
         end.

Lemma encodable_step_row_template (name duration badge label : text) :
  encodable name = true -> encodable duration = true ->
  encodable badge = true -> encodable label = true ->
  encodable (step_row_template name duration badge label) = true.
Proof.
  intros H1 H2 H3 H4. unfold step_row_template. rewrite !encodable_app.
  rewrite H1, H2, H3, H4. literals. reflexivity.
Qed.

Lemma encodable_test_template (a1 a2 a3 a4 a5 a6 a7 a8 a9 a10 a11 : text) :
  encodable a1 = true -> encodable a2 = true -> encodable a3 = true ->
  encodable a4 = true -> encodable a5 = true -> encodable a6 = true ->
  encodable a7 = true -> encodable a8 = true -> encodable a9 = true ->
  encodable a10 = true -> encodable a11 = true ->
  encodable (test_template a1 a2 a3 a4 a5 a6 a7 a8 a9 a10 a11) = true.
Proof.
  intros H1 H2 H3 H4 H5 H6 H7 H8 H9 H10 H11.
  unfold test_template. rewrite !encodable_app.
  rewrite H1, H2, H3, H4, H5, H6, H7, H8, H9, H10, H11. literals.
  reflexivity.
Qed.

Lemma encodable_table_value (table : dict text) :
  forallb (fun kv => encodable (snd kv)) table = true ->
  forall key v, dict_get table key = Some v -> encodable v = true.
Proof.
  induction table as [|[k x] table IH]; intros H key v Hg; [discriminate Hg|].
  cbn [forallb snd] in H. apply andb_prop in H. destruct H as [Hx H].
  cbn [dict_get] in Hg. destruct (text_eqb k key).
  - now injection Hg as <-.
  - now apply (IH H key).
Qed.

Lemma step_text_parts (md pre n g1 d g2 s post l1 l2 l3 l4 l5 : text) :
  md = pre ++ (l1 ++ n ++ l2 ++ g1 ++ l3 ++ d ++ l4 ++ g2 ++ l5 ++ s) ++ post ->
  (exists a c, md = a ++ n ++ c) /\ (exists a c, md = a ++ s ++ c).
Proof.
  intros ->. split.
  - exists (pre ++ l1),
           (l2 ++ g1 ++ l3 ++ d ++ l4 ++ g2 ++ l5 ++ s ++ post).
    now rewrite <- !app_assoc.
  - exists (pre ++ l1 ++ n ++ l2 ++ g1 ++ l3 ++ d ++ l4 ++ g2 ++ l5), post.
    now rewrite <- !app_assoc.
Qed.

Section Sources.
Context {R : Runtime}.

Lemma encodable_detail_tag (table : dict text) (key : json float) :
  forallb (fun kv => encodable (snd kv)) table = true ->
  encodable (detail_tag table key) = true.
Proof.
  intros H. destruct key; try (vm_compute; reflexivity).
  cbn [detail_tag]. destruct (dict_get table s) as [v|] eqn:E.
  - exact (encodable_table_value _ H _ E).
  - vm_compute. reflexivity.
Qed.

(** The texts the extractor takes from an encodable report are
    encodable. *)
Lemma encodable_record (md : text) (r : info float) :
  extract_test_info md = Ok r -> encodable md = true ->
  (forall stem, encodable (display_name (with_file_and_status r stem md))
                = true)
  /\ encodable (match user_request r with Some s => s | None => lit "" end)
     = true
  /\ Forall (fun st => encodable (Step.name st) = true
                       /\ encodable (Step.status st) = true)
            (get_steps r).
Proof.
  intros H Hmd. destruct (extract_fields _ H) as (Hn & Hh & _ & Hu & _).
  split; [|split].
  - intros stem. unfold display_name, with_file_and_status.
    cbn [name_heb name]. rewrite Hh.
    pose proof (greedy_capture_search (lit "# E2E Test Report: ") word md) as S.
    fold title_pattern in S. rewrite <- Hn in S.
    destruct (name r) as [tok|]; cbn [option_map];
      [|vm_compute; reflexivity].
    cbn beta iota in S. destruct S as (pre & rest & E & _).
    assert (Ht : encodable tok = true).
    { rewrite (app_assoc pre) in E. exact (encodable_part _ _ _ E Hmd). }
    unfold get_default. destruct (dict_get TEST_NAMES_HEB tok) as [v|] eqn:Eg;
      [|exact Ht].
    apply (@encodable_table_value TEST_NAMES_HEB) with (key := tok);
      [vm_compute; reflexivity | exact Eg].
  - pose proof (greedy_capture_search (lit "**User Request:** ") dot md) as S.
    fold request_pattern in S. rewrite <- Hu in S.
    destruct (user_request r) as [req|]; [|vm_compute; reflexivity].
    cbn beta iota in S. destruct S as (pre & rest & E & _).
    rewrite (app_assoc pre) in E. exact (encodable_part _ _ _ E Hmd).
  - destruct (@extract_Ok R md r H) as (sts & Hc & Hs & _).
    unfold get_steps. rewrite Hs. clear Hs.
    apply collect_steps_Ok in Hc.
    destruct (finditer_spec step_pattern md) as (F & _).
    revert F. induction Hc as [|m st ms sts Hst _ IH]; intros F;
      [constructor|].
    apply Forall_cons_iff in F. destruct F as [Fm F].
    constructor; [|exact (IH F)].
    destruct Hst as (Hname & _ & _ & Hstatus).
    apply step_match_shape in Fm.
    destruct Fm as (gap1 & gap2 & E & _).
    unfold step_text in E. rewrite Hname, Hstatus.
    destruct (step_text_parts _ _ _ _ _ _ _ _ _ _ _ _ E)
      as [(a & c & E1) (a' & c' & E3)].
    split; [exact (encodable_part _ _ _ E1 Hmd)
           | exact (encodable_part _ _ _ E3 Hmd)].
Qed.

Lemma encodable_steps_html (test : info float) :
  Forall (fun st => encodable (Step.name st) = true
                    /\ encodable (Step.status st) = true) (get_steps test) ->
  Forall (fun s => encodable s = true)
         (map (fun step => format_1f (Step.duration step)) (get_steps test)) ->
  encodable (steps_html test) = true.
Proof.
  intros Hn Hd. rewrite steps_html_rows, !encodable_app.
  unfold STEPS_TABLE_HEAD. literals. cbn [andb]. rewrite andb_true_r.
  apply encodable_concat. apply Forall_map.
  apply Forall_map in Hd. revert Hd.
  induction Hn as [|st sts [Hname _] _ IH]; intros Hd; [constructor|].
  apply Forall_cons_iff in Hd. destruct Hd as [Hd Hds].
  constructor; [|exact (IH Hds)].
  unfold step_row. apply encodable_step_row_template; auto;
    destruct (is_success st); vm_compute; reflexivity.
Qed.

End Sources.

Lemma forallb_false_Exists (A : Type) (f : A -> bool) (l : list A) :
  forallb f l = false -> Exists (fun x => f x = false) l.
Proof.
  induction l as [|x l IH]; [intros Q; discriminate Q|].
  cbn [forallb]. destruct (f x) eqn:E.
  - intros H. right. now apply IH.
  - intros _. now left.
Qed.

(** When the detail page of a report cannot be encoded, the surrogate
    comes from a value of the activity details that is shown as it is,
    from the joined main values, from a formatted number or from the
    rendered final output; never from the title, the request, a step name
    or a status, which are parts of the report, nor from a label of the
    tables. *)
Theorem encode_error_sources :
  forall (R : Runtime) (stem : text) (bytes : list byte) (w w' : world),
    process_file (stem, bytes) w = (Raise UnicodeEncodeError, w') ->
    exists (md : text) (r : info float) (kv : dict (json float))
           (values : text),
      read_text bytes = Ok md /\ extract_test_info md = Ok r
      /\ get_activity_details r = JObj kv
      /\ join_value (lit ", ") (main_values_of kv) = Ok values
      /\ Exists (fun s => encodable s = false)
                (foreign_texts (with_file_and_status r stem md) kv values).
Proof.
  intros R stem bytes w w' H. rewrite process_file_run in H.
  destruct (read_text bytes) as [md|e] eqn:Er.
  2:{ unfold read_text in Er. destruct (Utf8.decode_bytes bytes);
        [discriminate Er|]. injection Er as <-. discriminate H. }
  destruct (extract_test_info md) as [r|e] eqn:Ex.
  2:{ rewrite (extract_raises _ Ex) in H. discriminate H. }
  destruct (test_content (with_file_and_status r stem md))
    as [content|e] eqn:Ec.
  2:{ destruct (test_content_raises _ Ec) as [-> | ->]; discriminate H. }
  cbv zeta in H.
  destruct (encodable (html_page _ _ _)) eqn:Ep; [discriminate H|].
  apply test_content_fields in Ec. destruct Ec as (kv & values & Hk & Hj & ->).
  exists md, r, kv, values.
  split; [reflexivity|]. split; [exact Ex|]. split; [exact Hk|].
  split; [exact Hj|].
  apply forallb_false_Exists.
  destruct (forallb encodable
              (foreign_texts (with_file_and_status r stem md) kv values))
    eqn:F; [exfalso | reflexivity].
  destruct (read_text_spec _ Er) as (Hs & _).
  destruct (@encodable_record R md r Ex (scalar_encodable _ Hs))
    as (Hd & Hu & Hst).
  unfold foreign_texts in F. rewrite forallb_app in F.
  apply andb_prop in F. destruct F as [F Fs].
  cbn [forallb] in F.
  repeat (apply andb_prop in F; let G := fresh "G" in destruct F as [G F]).
  rewrite encodable_html_page in Ep; [discriminate Ep | apply Hd |].
  unfold detail_content. apply encodable_test_template; auto.
  - apply encodable_detail_tag. vm_compute. reflexivity.
  - apply encodable_detail_tag. vm_compute. reflexivity.
  - apply encodable_steps_html; [exact Hst|].
    apply Forall_forall. rewrite forallb_forall in Fs. exact Fs.
Qed.

(** A report whose JSON block gives the main topic as an escaped lone
    surrogate: the page cannot be encoded. *)
Lemma encode_error_witness :
  exists w' : world,
    process_file (R := surrogate_runtime) (lit "test_04", surrogate_report)
                 (world_at (noon 2025 11 27))
    = (Raise UnicodeEncodeError, w')
    /\ exists (md : text) (r : info Sample.frac)
              (kv : dict (json Sample.frac)) (values : text),
         read_text surrogate_report = Ok md
         /\ extract_test_info (R := surrogate_runtime) md = Ok r
         /\ get_activity_details (R := surrogate_runtime) r = JObj kv
         /\ join_value (R := surrogate_runtime) (lit ", ") (main_values_of kv)
            = Ok values
         /\ Exists (fun s => encodable s = false)
                   (foreign_texts (R := surrogate_runtime)
                      (with_file_and_status (R := surrogate_runtime) r
                                            (lit "test_04") md)
                      kv values).
Proof.
  assert (E : exists w',
             process_file (R := surrogate_runtime)
                          (lit "test_04", surrogate_report)
                          (world_at (noon 2025 11 27))
             = (Raise UnicodeEncodeError, w'))
    by evaluation.
  destruct E as [w' E]. exists w'. split; [exact E|].
  exact (@encode_error_sources surrogate_runtime _ _ _ _ E).
Defined.
(** ** Step names stay on their line *)

Lemma rep_lazy_success (A B : Type) (p : Re.charset)
      (k : text -> option A) (k' : text -> option B) :
  (forall s, k s <> None -> k' s <> None) ->
  forall s min, Re.rep_lazy p k min s <> None -> Re.rep_lazy p k' min s <> None.
Proof.
  intros Hk. induction s as [|x s IH]; intros min H.
  - destruct min; simpl in *; [|congruence].
    specialize (Hk []). destruct (k []); [|congruence].
    destruct (k' []); [discriminate | apply Hk; discriminate].
  - destruct min as [|m].
    + rewrite rep_lazy_unfold in *. specialize (Hk (x :: s)).
      destruct (k (x :: s)).
      * destruct (k' (x :: s));
          [discriminate | exfalso; apply Hk; [discriminate | reflexivity]].
      * destruct (k' (x :: s)); [discriminate|].
        destruct (p x); [now apply IH | congruence].
    + simpl in *. destruct (p x); [now apply IH | congruence].
Qed.

Lemma rep_greedy_success (A B : Type) (p : Re.charset)
      (k : text -> option A) (k' : text -> option B) :
  (forall s, k s <> None -> k' s <> None) ->
  forall s min,
    Re.rep_greedy p k min s <> None -> Re.rep_greedy p k' min s <> None.
Proof.
  intros Hk. induction s as [|x s IH]; intros min H.
  - destruct min; simpl in *; [now apply Hk | congruence].
  - cbn [Re.rep_greedy] in *. destruct (p x).
    + specialize (IH (pred min)).
      destruct (Re.rep_greedy p k (pred min) s).
      * destruct (Re.rep_greedy p k' (pred min) s);
          [discriminate | exfalso; apply IH; [discriminate | reflexivity]].
      * destruct (Re.rep_greedy p k' (pred min) s); [discriminate|].
        destruct min; [now apply Hk | congruence].
    + destruct min; [now apply Hk | congruence].
Qed.

(** Whether a pattern matches does not depend on the groups captured so
    far, nor on what its continuation returns. *)
Lemma exec_success (r : Re.regex) :
  forall (A B : Type) (s : text) (g g' : Re.groups)
         (k : text -> Re.groups -> option A)
         (k' : text -> Re.groups -> option B),
    (forall s' h h', k s' h <> None -> k' s' h' <> None) ->
    Re.exec r s g k <> None -> Re.exec r s g' k' <> None.
Proof.
  induction r as [l|gr min p|a IHa b IHb|a IHa b IHb|n r IH|r IH|];
    intros A B s g g' k k' Hk H; cbn [Re.exec] in *.
  - destruct (Re.strip_prefix l s); [now apply (Hk _ g g') | congruence].
  - destruct gr.
    + revert H. apply rep_greedy_success. intros s'. apply Hk.
    + revert H. apply rep_lazy_success. intros s'. apply Hk.
  - revert H. apply IHa. intros s' h h'. apply IHb. exact Hk.
  - specialize (IHa _ _ s g g' k k' Hk).
    destruct (Re.exec a s g k).
    + destruct (Re.exec a s g' k');
        [discriminate | exfalso; apply IHa; [discriminate | reflexivity]].
    + destruct (Re.exec a s g' k'); [discriminate|].
      now apply (IHb _ _ s g g' k k' Hk).
  - revert H. apply IH. intros s' h h'. apply Hk.
  - pose proof (IH _ _ s g g' (fun _ g0 => Some g0) (fun _ g0 => Some g0)
                   ltac:(intros; discriminate)) as G.
    destruct (Re.exec r s g (fun _ g0 => Some g0)) as [g1|]; [|congruence].
    destruct (Re.exec r s g' (fun _ g0 => Some g0)) as [g2|];
      [|exfalso; apply G; [discriminate | reflexivity]].
    now apply (Hk _ g1 g2).
  - destruct (Re.at_eos s); [now apply (Hk _ g g') | congruence].
Qed.

Lemma In_skipn_cons (A : Type) (x : A) (l : list A) (j : nat) :
  nth_error l j = Some x -> exists u, skipn j l = x :: u.
Proof.
  revert l. induction j as [|j IH]; intros [|y l] H; try discriminate H.
  - injection H as ->. exists l. reflexivity.
  - simpl in *. now apply IH.
Qed.

Lemma dot_all_all (s : text) : forallb dot_all s = true.
Proof. induction s as [|c s IH]; [reflexivity | exact IH]. Qed.

(** A pattern that captures a name lazily, then wants a newline and then
    anything up to the rest: the name holds no newline after its first
    character. *)
Lemma lazy_name_line (l : text) (rest : Re.regex) (s s' : text)
      (g : Re.groups) :
  Re.match_here
    (Re.Seq (Re.Lit l)
       (Re.Seq (Re.Group 1 (Re.Rep false 1 dot_all))
          (Re.Seq (Re.Lit [LF]) (Re.Seq (Re.Rep false 0 dot_all) rest)))) s
  = Some (s', g) ->
  exists name suf,
    s = l ++ name ++ suf
    /\ Re.exec (Re.Seq (Re.Lit [LF]) (Re.Seq (Re.Rep false 0 dot_all) rest))
               suf [(1%nat, name)] (fun s'' g'' => Some (s'', g''))
       = Some (s', g)
    /\ match name with
       | [] => False
       | _ :: more => ~ In LF more
       end.
Proof.
  unfold Re.match_here. cbn [Re.exec]. intros H.
  destruct (Re.strip_prefix l s) as [t|] eqn:Ht; [|discriminate H].
  apply strip_prefix_Some in Ht. apply rep_lazy_min in H.
  destruct H as (name & suf & -> & _ & Hl & Hk & Hn).
  rewrite firstn_consumed in Hk.
  exists name, suf. split; [exact Ht|]. split; [exact Hk|].
  destruct name as [|c more]; [simpl in Hl; lia|].
  intros Hin. apply In_nth_error in Hin. destruct Hin as [j Hj].
  assert (Hjl : (j < length more)%nat)
    by (apply nth_error_Some; rewrite Hj; discriminate).
  specialize (Hn (S j) ltac:(simpl; lia)).
  destruct (In_skipn_cons _ _ Hj) as [u Hu].
  change (skipn (S j) ((c :: more) ++ suf)) with (skipn j (more ++ suf)) in Hn.
  rewrite skipn_app in Hn. rewrite Hu in Hn.
  replace (j - length more)%nat with 0%nat in Hn by lia.
  cbn [skipn app Re.strip_prefix] in Hn. rewrite N.eqb_refl in Hn.
  destruct (Re.strip_prefix [LF] suf) as [v|] eqn:Hv; [|discriminate Hk].
  apply strip_prefix_Some in Hv. subst suf.
  apply rep_lazy_sound in Hk. destruct Hk as (a & b & -> & _ & _ & Hb).
  revert Hn.
  replace (u ++ [LF] ++ a ++ b) with ((u ++ [LF] ++ a) ++ b)
    by (now rewrite <- !app_assoc).
  apply rep_lazy_complete.
  - apply dot_all_all.
  - lia.
  - apply (@exec_success rest _ _ b [(1%nat, c :: more)] _
                         (fun s'' g'' => Some (s'', g''))
                         (fun s'' g'' => Some (s'', g'')));
      [intros; discriminate
      | intros Q; pose proof (eq_trans (eq_sym Hb) Q) as Z; discriminate Z].
Qed.

Lemma newline_lit : lit "\n" = [LF].
Proof. vm_compute. reflexivity. Qed.

Section StepNames.
Context {R : Runtime}.

Lemma step_name_line (md : text) (m : Re.match_obj) :
  is_match_at step_pattern md m -> on_one_line (Re.group 1 m).
Proof.
  intros (_ & s' & H & _). unfold step_pattern in H.
  rewrite newline_lit in H. apply lazy_name_line in H.
  destruct H as (name & suf & _ & H & Hline).
  apply exec_sound in H. destruct H as (s1 & g1 & H & Hk).
  injection Hk as Hk1 Hk2.
  cbn [Re.matches] in H.
  destruct H as (s2 & g2 & [_ ->] & s3 & g3 & (_ & _ & _ & _ & ->)
                 & s4 & g4 & [_ ->] & s5 & g5 & (g4' & (_ & _ & _ & _ & ->) & ->)
                 & s6 & g6 & [_ ->] & s7 & g7 & (_ & _ & _ & _ & ->)
                 & s8 & g8 & [_ ->] & g8' & (_ & _ & _ & _ & ->) & Hg).
  unfold Re.group. rewrite <- Hk2, Hg. cbn [Re.lookup Nat.eqb]. exact Hline.
Qed.

End StepNames.

(** A step name never runs over the end of its line, although the step
    pattern is used with [re.DOTALL]: it is not empty and holds no newline
    after its first character. *)
Theorem step_names_stay_on_their_line :
  forall (R : Runtime) (md : text) (r : info float),
    extract_test_info md = Ok r ->
    Forall (fun step => on_one_line (Step.name step)) (get_steps r).
Proof.
  intros R md r H. destruct (@extract_Ok R md r H) as (sts & Hc & Hs & _).
  unfold get_steps. rewrite Hs. clear Hs.
  apply collect_steps_Ok in Hc.
  destruct (finditer_spec step_pattern md) as (F & _).
  revert F. induction Hc as [|m st ms sts Hst _ IH]; intros F; [constructor|].
  apply Forall_cons_iff in F. destruct F as [Fm F].
  constructor; [|exact (IH F)].
  destruct Hst as (-> & _). exact (step_name_line Fm).
Qed.

Lemma step_names_witness :
  exists r : info Sample.frac,
    extract_test_info (R := Sample.runtime) sample_text = Ok r
    /\ Forall (fun step => on_one_line (Step.name step))
              (get_steps (R := Sample.runtime) r).
Proof.
  assert (E : exists r, extract_test_info (R := Sample.runtime) sample_text = Ok r)
    by evaluation.
  destruct E as [r E]. exists r. split; [exact E|].
  exact (step_names_stay_on_their_line Sample.runtime sample_text E).
Defined.

(** ** What a run prints *)

Section ConsoleOk.
Context {R : Runtime}.
Variable stdout_encodes : codepoint -> bool.

Lemma console_process_files_nil (tests : list (info float))
      (st : Console.state) :
  Console.process_files stdout_encodes tests [] st = (Ok tests, st).
Proof. reflexivity. Qed.

Lemma console_process_files_cons (tests : list (info float))
      (file : text * list byte) (rest : list (text * list byte))
      (line1 line2 : text) :
  line1 = lit "Processing: " ++ fst file ++ lit ".md" ->
  line2 = lit "  Created: " ++ fst file ++ lit ".html" ->
  Console.process_files stdout_encodes tests (file :: rest) =
  Console.cbind (Console.print stdout_encodes line1) (fun _ =>
  Console.cbind (Console.run (process_file file)) (fun test_info =>
  Console.cbind (Console.print stdout_encodes line2) (fun _ =>
  Console.process_files stdout_encodes (tests ++ [test_info]) rest))).
Proof. intros -> ->. reflexivity. Qed.

Lemma console_process_files_Ok (files : list (text * list byte)) :
  forall (tests tests' : list (info float)) (st st' : Console.state),
    Console.process_files stdout_encodes tests files st = (Ok tests', st') ->
    process_files tests files (Console.disk st) = (Ok tests', Console.disk st')
    /\ Console.printed st'
       = rev (concat
                (map (fun f =>
                        [lit "Processing: " ++ fst f ++ lit ".md";
                         lit "  Created: " ++ fst f ++ lit ".html"]) files))
         ++ Console.printed st.
Proof.
  induction files as [|file rest IH]; intros tests tests' [w ls] st' H.
  - rewrite console_process_files_nil in H. apply pair_equal_spec in H.
    destruct H as [Ht <-]. apply Ok_inj in Ht. subst tests'.
    split; reflexivity.
  - cbn [map concat rev app].
    remember (lit "Processing: " ++ fst file ++ lit ".md") as line1 eqn:E1.
    remember (lit "  Created: " ++ fst file ++ lit ".html") as line2 eqn:E2.
    rewrite (@console_process_files_cons tests file rest line1 line2 E1 E2) in H.
    rewrite cbind_print in H.
    destruct (forallb stdout_encodes line1); [|discriminate H].
    cbn [Console.disk Console.printed] in H. rewrite cbind_run in H.
    cbn [process_files Console.disk]. unfold bind at 1.
    destruct (process_file file w) as [[i|e] w1]; [|discriminate H].
    rewrite cbind_print in H.
    destruct (forallb stdout_encodes line2); [|discriminate H].
    apply IH in H. destruct H as [Hp Hl].
    cbn [Console.disk Console.printed] in *. split; [exact Hp|].
    rewrite Hl, E1, E2. rewrite <- !app_assoc. reflexivity.
Qed.

End ConsoleOk.

(** A run that ends without an exception has printed, for each input
    file in order, the line that announces it and the line that reports
    its page, and then three closing lines, the second with the number of
    input files; and it has written what [main] writes when the prints are
    left out. *)
Theorem successful_run_prints :
  forall (R : Runtime) (stdout_encodes : codepoint -> bool)
         (output_dir : text) (test_files : list (text * list byte))
         (st st' : Console.state),
    Console.main stdout_encodes output_dir test_files st = (Ok tt, st') ->
    main test_files (Console.disk st) = (Ok tt, Console.disk st')
    /\ rev (Console.printed st')
       = rev (Console.printed st)
         ++ concat
              (map (fun f =>
                      [lit "Processing: " ++ fst f ++ lit ".md";
                       lit "  Created: " ++ fst f ++ lit ".html"])
                   test_files)
         ++ [lit "\nCreated index: index.html";
             lit "\n✅ Generated " ++ str_int (len test_files)
             ++ lit " test reports + index page";
             lit "📁 Output directory: " ++ output_dir].
Proof.
  intros R stdout_encodes output_dir test_files [w ls] st' H.
  unfold Console.main in H. rewrite cbind_unfold in H.
  destruct (Console.process_files stdout_encodes [] test_files _)
    as [[tests|e1] [w1 ls1]] eqn:P; [|discriminate H].
  apply console_process_files_Ok in P. destruct P as [P Hl].
  cbn [Console.disk Console.printed] in *.
  assert (El : len tests = len test_files).
  { unfold len. now rewrite (proj2 (process_files_written _ _ _ P)). }
  rewrite El in H. clear El.
  unfold main, bind at 1. rewrite P. unfold bind at 1.
  rewrite cbind_run in H.
  destruct (generate_index_html tests w1) as [[html|e] w2];
    [|discriminate H].
  rewrite cbind_run in H.
  destruct (write_text (lit "index.html") html w2) as [[[]|e] w3];
    [|discriminate H].
  revert H.
  generalize (lit "\nCreated index: index.html").
  generalize (lit "\n✅ Generated " ++ str_int (len test_files)
              ++ lit " test reports + index page").
  generalize (lit "📁 Output directory: " ++ output_dir).
  intros l3 l2 l1 H.
  rewrite cbind_print in H.
  destruct (forallb stdout_encodes l1); [|discriminate H].
  rewrite cbind_print in H.
  destruct (forallb stdout_encodes l2); [|discriminate H].
  unfold Console.print in H.
  destruct (forallb stdout_encodes l3); [|discriminate H].
  apply pair_equal_spec in H. destruct H as [_ <-].
  cbn [Console.disk Console.printed]. split; [reflexivity|].
  rewrite Hl. cbn [rev]. rewrite rev_app_distr, rev_involutive.
  now rewrite <- !app_assoc.
Qed.

(** The five lines of the run on the sample report. *)
Lemma successful_run_witness :
  exists st' : Console.state,
    Console.main (R := Sample.runtime) utf8_stdout (lit "html")
                 [(lit "test_01", sample_report)] fresh_console
    = (Ok tt, st')
    /\ rev (Console.printed st')
       = [lit "Processing: test_01.md";
          lit "  Created: test_01.html";
          lit "\nCreated index: index.html";
          lit "\n✅ Generated 1 test reports + index page";
          lit "📁 Output directory: html"].
Proof.
  assert (E : exists st',
             Console.main (R := Sample.runtime) utf8_stdout (lit "html")
                          [(lit "test_01", sample_report)] fresh_console
             = (Ok tt, st'))
    by evaluation.
  destruct E as [st' E]. exists st'. split; [exact E|].
  rewrite (proj2 (@successful_run_prints Sample.runtime utf8_stdout
                    (lit "html") [(lit "test_01", sample_report)]
                    fresh_console st' E)).
  vm_compute. reflexivity.
Defined.
